(** * pandapowerFMU: the step scheduler, variable binder, profile manager,
      interpolator and result flattening of [PandapowerFMUClass.py]

    A shallow embedding of [src/pandapowerFMU/PandapowerFMUClass.py].

    Conventions of the embedding.
    - Python floats (simulation times, profile samples) are exact rationals
      [Q], and arithmetic on them is exact.  Where the rounding of binary64
      decides what the code does, in the computation of the solve instants,
      the same lines are also given on IEEE 754 doubles ([Binary64]).
    - pandas [DataFrame] objects live in a store (a list indexed by
      reference), because the code shares and mutates them in place; the
      network object maps attribute names to references.
    - Python exceptions are values of [exn]; a computation returns its
      outcome together with the store it leaves behind, so that writes made
      before an exception stay visible. *)

From Stdlib Require Import ZArith QArith Qround Qabs String Ascii List Sorted Lia Lqa.
From Stdlib Require Import SpecFloat.
From stdpp Require Import base option list strings pretty gmap.

Local Open Scope string_scope.
Local Open Scope list_scope.

(** ** Exceptions and outcomes *)

Inductive exn : Type :=
  | RuntimeError (msg : string)
  | IndexError
  | KeyError
  | AttributeError
  | ValueError
  | InvalidIndexError
  | ZeroDivisionError
  | OverflowError
  | FileNotFoundError
  | DanglingReference.   (* a reference outside the store: no Python counterpart *)

Inductive res (A : Type) : Type :=
  | Ok (a : A)
  | Raise (e : exn).
Arguments Ok {A} a.
Arguments Raise {A} e.

Definition res_bind {A B : Type} (r : res A) (k : A -> res B) : res B :=
  match r with
  | Ok a => k a
  | Raise e => Raise e
  end.

#[global] Instance res_ret : MRet res := @Ok.
#[global] Instance res_mbind : MBind res := fun A B k r => res_bind r k.

(** [l[i]] on a Python list. *)
Definition py_index {A : Type} (l : list A) (i : nat) : res A :=
  match l !! i with
  | Some a => Ok a
  | None => Raise IndexError
  end.

(** ** Python strings *)

Module PyStr.

Definition startswith (s p : string) : bool := String.prefix p s.

Definition endswith (s p : string) : bool :=
  let n := String.length s in
  let m := String.length p in
  if (m <=? n)%nat then String.eqb (substring (n - m) m s) p else false.

(** [s.split(sep)] for a non-empty separator: occurrences are found left to
    right and do not overlap.  [skip] counts the characters of a separator
    that has just been recognised and is still being consumed. *)
Fixpoint split_from (sep s : string) (skip : nat) (cur : string) : list string :=
  match s with
  | EmptyString => [cur]
  | String a s' =>
      match skip with
      | S k => split_from sep s' k cur
      | O =>
          if String.prefix sep s
          then cur :: split_from sep s' (String.length sep - 1) ""
          else split_from sep s' 0 (cur ++ String a "")
      end
  end.

Definition split (s sep : string) : list string := split_from sep s 0 "".

(** [s[n:]] *)
Fixpoint drop (n : nat) (s : string) : string :=
  match n, s with
  | O, _ => s
  | S k, EmptyString => EmptyString
  | S k, String _ s' => drop k s'
  end.

End PyStr.

(** ** Step scheduler ([doStep], the computation of [sim_steps]) *)

(** The computation over the rationals, every operation exact. *)
Module Scheduler.

Local Open Scope Q_scope.

(** Python's [x % c] on floats: the result has the sign of [c]. *)
Definition py_mod (x c : Q) : Q := x - c * inject_Z (Qfloor (x / c)).

(** [np.arange(a, stop, step)]: [ceil((stop - a) / step)] values
    [a + i * step]. *)
Definition np_arange (a stop step : Q) : list Q :=
  map (fun i : nat => a + inject_Z (Z.of_nat i) * step)
      (seq 0 (Z.to_nat (Qceiling ((stop - a) / step)))).

(** The list [sim_steps] of [doStep]; [time_step] is [None] when the
    network has no attribute [time_step]. *)
Definition sim_steps (currentCommunicationPoint communicationStepSize t_start : Q)
    (time_step : option Q) : res (list Q) :=
  match time_step with
  | None => Ok [currentCommunicationPoint]
  | Some c =>
      if Qeq_bool c 0 then Raise ZeroDivisionError
      else
        Ok (currentCommunicationPoint ::
            np_arange
              (currentCommunicationPoint
               + (c - py_mod (currentCommunicationPoint - t_start) c))
              (currentCommunicationPoint + communicationStepSize) c)
  end.

End Scheduler.

(** The same lines on doubles, every operation rounded to the nearest
    double, ties to even, as the interpreter and numpy compute them. *)
Module Binary64.

Local Open Scope Z_scope.

(** binary64: 53 bits of precision, exponents below 1024. *)
Definition prec : Z := 53.
Definition emax : Z := 1024.

(** A Python [float], a C [double]. *)
Definition float : Type := spec_float.

Definition add : float -> float -> float := SFadd prec emax.
Definition sub : float -> float -> float := SFsub prec emax.
Definition mul : float -> float -> float := SFmul prec emax.
Definition div : float -> float -> float := SFdiv prec emax.

(** [float(z)] *)
Definition of_Z (z : Z) : float := binary_normalize prec emax z 0 false.

(** The float that a decimal literal denotes, the one nearest to [a / b]
    (for [a] and [b] that are floats themselves, as 8 and 10 for 0.8). *)
Definition of_ratio (a b : Z) : float := div (of_Z a) (of_Z b).

Definition is_zero (x : float) : bool :=
  match x with
  | S754_zero _ => true
  | _ => false
  end.

(** [x < 0] *)
Definition is_negative (x : float) : bool :=
  match x with
  | S754_infinity s | S754_finite s _ _ => s
  | _ => false
  end.

(** C's [fmod(x, y)]: [x - n * y] for [n] the quotient truncated towards
    zero; the result is exact and has the sign of [x]. *)
Definition fmod (x y : float) : float :=
  match x, y with
  | S754_nan, _ | _, S754_nan => S754_nan
  | S754_infinity _, _ => S754_nan
  | _, S754_zero _ => S754_nan
  | S754_zero _, _ => x
  | S754_finite _ _ _, S754_infinity _ => x
  | S754_finite sx mx ex, S754_finite _ my ey =>
      let e := Z.min ex ey in
      let r := Z.rem (Zpos mx * 2 ^ (ex - e)) (Zpos my * 2 ^ (ey - e)) in
      binary_normalize prec emax (if sx then - r else r) e sx
  end.

(** Python's [x % c] on floats ([float_rem]): the remainder of [fmod],
    moved by [c] when its sign is not the one of [c]. *)
Definition py_mod (x c : float) : res float :=
  if is_zero c then Raise ZeroDivisionError
  else
    let r := fmod x c in
    if is_zero r then Ok (S754_zero (is_negative c))
    else if Bool.eqb (is_negative c) (is_negative r) then Ok r
    else Ok (add r c).

(** The length of [np.arange]: [ceil(value)] as a machine integer; numpy
    refuses a value that is not a number or that is beyond the 64-bit
    integers. *)
Definition safe_ceil (value : float) : res Z :=
  match value with
  | S754_nan => Raise ValueError
  | S754_infinity _ => Raise OverflowError
  | S754_zero _ => Ok 0
  | S754_finite s m e =>
      let n := if s then Zneg m else Zpos m in
      let c := if 0 <=? e then n * 2 ^ e else - ((- n) / 2 ^ (- e)) in
      if (- 2 ^ 63 <=? c) && (c <=? 2 ^ 63) then Ok c else Raise OverflowError
  end.

(** [np.arange(start, stop, step)] on floats: the length is
    [ceil((stop - start) / step)]; the first two values are [start] and
    [start + step], the value at position [i >= 2] is
    [start + i * delta] with [delta = (start + step) - start], product
    and sum each rounded. *)
Definition np_arange (start stop step : float) : res (list float) :=
  if is_zero step then Raise ZeroDivisionError
  else
    length ← safe_ceil (div (sub stop start) step);
    let next := add start step in
    let delta := sub next start in
    mret (map (fun i : nat =>
                 match i with
                 | O => start
                 | S O => next
                 | _ => add start (mul (of_Z (Z.of_nat i)) delta)
                 end)
              (seq 0 (Z.to_nat length))).

(** The list [sim_steps] of [doStep]. *)
Definition sim_steps (currentCommunicationPoint communicationStepSize t_start : float)
    (time_step : option float) : res (list float) :=
  match time_step with
  | None => Ok [currentCommunicationPoint]
  | Some c =>
      phase ← py_mod (sub currentCommunicationPoint t_start) c;
      sim_steps_add ← np_arange (add currentCommunicationPoint (sub c phase))
                         (add currentCommunicationPoint communicationStepSize) c;
      mret (currentCommunicationPoint :: sim_steps_add)
  end.

End Binary64.


(** ** Tables and the store *)

(** A cell of a table, an index label, or a value exchanged with the
    co-simulation master. *)
Inductive value : Type :=
  | VFloat (x : Q)
  | VInt (n : Z)
  | VBool (b : bool)
  | VStr (s : string)
  | VNone.                 (* [None] / [NaN] *)

(** A pandas [DataFrame]: the index labels, in row order, and the columns,
    in column order, each with one cell per row. *)
Record DataFrame : Type := mkDataFrame {
  df_index : list value;
  df_columns : list (string * list value)
}.

(** Lookup and update by key in an ordered list of (key, value) entries:
    the columns of a table, the attributes of the network, a dict. *)
Fixpoint assoc {A : Type} (k : string) (l : list (string * A)) : option A :=
  match l with
  | [] => None
  | (k', a) :: l' => if String.eqb k k' then Some a else assoc k l'
  end.

Fixpoint assoc_set {A : Type} (k : string) (a : A) (l : list (string * A)) : list (string * A) :=
  match l with
  | [] => []
  | (k', a') :: l' => if String.eqb k k' then (k', a) :: l' else (k', a') :: assoc_set k a l'
  end.

(** [df[col]] *)
Definition getitem (df : DataFrame) (col : string) : res (list value) :=
  match assoc col (df_columns df) with
  | Some c => Ok c
  | None => Raise KeyError
  end.

(** [df.empty]: no rows or no columns. *)
Definition df_empty (df : DataFrame) : bool :=
  match df_index df, df_columns df with
  | [], _ => true
  | _, [] => true
  | _, _ => false
  end.

(** A time-indexed pandas [Series]: one (time, value) sample per row.  A
    series of dtype float holds numbers (numpy scalars), a series of dtype
    object holds Python objects. *)
Inductive Series : Type :=
  | FloatSeries (samples : list (Q * Q))
  | ObjectSeries (samples : list (Q * value)).

(** One row of the table [net.profiles]. *)
Record ProfileRow : Type := mkProfileRow {
  p_class : string;
  p_component : string;
  p_parameter : string;
  p_file : string;
  p_column : Z;
  p_profile : option Series        (* [Some] when the cell holds a [pd.Series] *)
}.

(** The table [net.profiles].  [pf_object_block] tells whether all its
    columns have dtype object and sit in one block: only then are the rows
    yielded by [iterrows] views of the table; with mixed dtypes (say an
    integer [column] column) [iterrows] builds each row from a fresh array. *)
Record ProfilesFrame : Type := mkProfilesFrame {
  pf_rows : list ProfileRow;
  pf_object_block : bool
}.

(** The pandapower network object: a dict-like object whose attributes are
    the tables (held by reference, in the order of [net.keys()]) and the
    optional FMU metadata; an optional attribute that is absent is [None].
    No attribute other than a table has a name starting with [res_]. *)
Record Net : Type := mkNet {
  tables : list (string * nat);
  fmi_input_vars : option (gmap string (list string));
  fmi_output_vars : option (gmap string (list string));
  fmi_parameters : option (gmap string (list string));
  time_step : option Q;
  profiles : option ProfilesFrame;
  result_file : option string
}.

(** Computations on the store of [DataFrame] objects. *)
Definition M (A : Type) : Type := list DataFrame -> res A * list DataFrame.

#[global] Instance M_ret : MRet M := fun A a h => (Ok a, h).
#[global] Instance M_bind : MBind M := fun A B k m h =>
  match m h with
  | (Ok a, h') => k a h'
  | (Raise e, h') => (Raise e, h')
  end.

Definition lift {A : Type} (r : res A) : M A := fun h => (r, h).

(** [getattr(net, name)] for a table: the reference it holds. *)
Definition getattr (n : Net) (name : string) : M nat :=
  fun h => match assoc name (tables n) with
           | Some l => (Ok l, h)
           | None => (Raise AttributeError, h)
           end.

(** Reading, mutating and creating the object behind a reference. *)
Definition load (l : nat) : M DataFrame :=
  fun h => match h !! l with
           | Some d => (Ok d, h)
           | None => (Raise DanglingReference, h)
           end.

Definition store (l : nat) (d : DataFrame) : M unit :=
  fun h => (Ok tt, <[l := d]> h).

Definition alloc (d : DataFrame) : M nat :=
  fun h => (Ok (length h), h ++ [d]).

(** [m] run on a store of at least [k] objects leaves the first [k] of them
    as they are, and what it returns satisfies [P]. *)
Definition frames {A : Type} (k : nat) (P : A -> Prop) (m : M A) : Prop :=
  forall h : list DataFrame,
    k <= length h ->
    k <= length (snd (m h))
    /\ (forall l : nat, l < k -> snd (m h) !! l = h !! l)
    /\ (forall a : A, fst (m h) = Ok a -> P a).

(** ** Variable binder *)

Module Binder.

Import PyStr.

(** [key.split('.')[0]], [[1]], [[2]] *)
Definition parse (key : string) : res (string * string * string) :=
  classname ← py_index (split key ".") 0;
  componentname ← py_index (split key ".") 1;
  parametername ← py_index (split key ".") 2;
  mret (classname, componentname, parametername).

(** [series == componentname], cell by cell *)
Definition eq_str (componentname : string) (v : value) : bool :=
  match v with
  | VStr s => String.eqb s componentname
  | _ => false
  end.

(** [index[mask]] with a boolean mask: positional, and the lengths must
    agree. *)
Fixpoint index_mask (index : list value) (mask : list bool) : res (list value) :=
  match index, mask with
  | [], [] => Ok []
  | i :: index', b :: mask' =>
      ix ← index_mask index' mask';
      mret (if b then i :: ix else ix)
  | _, _ => Raise IndexError
  end.

(** The row labels [ix] selected for a binding: the labels of the table
    [classname] at the positions where the column [name] of the
    definition table equals [componentname]. *)
Definition locate (n : Net) (classname componentname : string) : M (list value) :=
  if startswith classname "res_" then
    t ← getattr n classname;
    tdf ← load t;
    dname ← lift (py_index (split classname "res_") 1);
    d ← getattr n dname;
    ddf ← load d;
    names ← lift (getitem ddf "name");
    lift (index_mask (df_index tdf) (map (eq_str componentname) names))
  else
    t ← getattr n classname;
    tdf ← load t;
    d ← getattr n classname;
    ddf ← load d;
    names ← lift (getitem ddf "name");
    lift (index_mask (df_index tdf) (map (eq_str componentname) names)).

(** Equality of labels, membership of a label in a list of labels, and
    absence of repeated labels in an index. *)
Definition value_eqb (a b : value) : bool :=
  match a, b with
  | VFloat x, VFloat y => Qeq_bool x y
  | VInt x, VInt y => Z.eqb x y
  | VBool x, VBool y => Bool.eqb x y
  | VStr x, VStr y => String.eqb x y
  | VNone, VNone => true
  | _, _ => false
  end.

Definition mem (v : value) (l : list value) : bool := existsb (value_eqb v) l.

Fixpoint unique (l : list value) : bool :=
  match l with
  | [] => true
  | v :: l' => negb (mem v l') && unique l'
  end.

(** [series[ix] = val] for a list [ix] of labels: label based; pandas
    refuses it on an index with repeated labels. *)
Fixpoint set_rows (index col ix : list value) (val : value) : list value :=
  match index, col with
  | i :: index', c :: col' => (if mem i ix then val else c) :: set_rows index' col' ix val
  | _, _ => col
  end.

Definition set_labels (index col ix : list value) (val : value) : res (list value) :=
  if unique index then Ok (set_rows index col ix val) else Raise InvalidIndexError.

(** [getattr(self.net, classname)[parametername][ix] = val] *)
Definition setitem (n : Net) (classname parametername : string) (ix : list value)
    (val : value) : M unit :=
  t ← getattr n classname;
  tdf ← load t;
  col ← lift (getitem tdf parametername);
  col' ← lift (set_labels (df_index tdf) col ix val);
  store t (mkDataFrame (df_index tdf) (assoc_set parametername col' (df_columns tdf))).

(** The body of the loop of [_get_and_set_fmi_inputs] for one input. *)
Definition set_input (n : Net) (key : string) (val : value) : M unit :=
  '(classname, componentname, parametername) ← lift (parse key);
  ix ← locate n classname componentname;
  setitem n classname parametername ix val.

(** *** Vocabulary of the statements about the binder *)

(** Cell by cell: [val] where the mask holds, the old cell elsewhere. *)
Fixpoint mask_set (mask : list bool) (col : list value) (val : value) : list value :=
  match mask, col with
  | b :: mask', c :: col' => (if b then val else c) :: mask_set mask' col' val
  | _, _ => col
  end.

(** [sep] occurs nowhere in [s]. *)
Fixpoint no_occurrence (sep s : string) : bool :=
  match s with
  | EmptyString => negb (String.prefix sep s)
  | String _ s' => negb (String.prefix sep s) && no_occurrence sep s'
  end.

(** The definition table the rows of table [classname] are named in. *)
Definition definition_of (classname dname : string) : Prop :=
  if startswith classname "res_"
  then py_index (split classname "res_") 1 = Ok dname
  else dname = classname.

(** In store [h], the network has the table [classname] at reference [t]
    with contents [tdf], and its definition table has the column [name]
    with cells [names], one per row of [tdf]. *)
Definition bound (n : Net) (h : list DataFrame) (classname : string)
    (t : nat) (tdf : DataFrame) (names : list value) : Prop :=
  exists (dname : string) (d : nat) (ddf : DataFrame),
    definition_of classname dname
    /\ assoc classname (tables n) = Some t /\ h !! t = Some tdf
    /\ assoc dname (tables n) = Some d /\ h !! d = Some ddf
    /\ getitem ddf "name" = Ok names
    /\ length names = length (df_index tdf).

End Binder.

(** ** Interpolator *)

Module Interpolator.

Local Open Scope Q_scope.

(** [df.index] *)
Definition s_index (df : Series) : list Q :=
  match df with
  | FloatSeries l => map fst l
  | ObjectSeries l => map fst l
  end.

(** [df.iloc[i]] *)
Definition iloc (df : Series) (i : nat) : res value :=
  match df with
  | FloatSeries l => x ← py_index (map snd l) i; mret (VFloat x)
  | ObjectSeries l => py_index (map snd l) i
  end.

(** [cell.copy()] on a cell of a series of dtype object: the cell is a
    Python object ([float], [int], [bool], [str] or [None]), and none of
    these has a method [copy].  (A cell of a float series is a numpy
    scalar, whose [copy] returns it.) *)
Definition copy (cell : value) : res value :=
  match cell with
  | VFloat _ | VInt _ | VBool _ | VStr _ | VNone => Raise AttributeError
  end.

Definition Qltb (a b : Q) : bool := negb (Qle_bool b a).

Fixpoint is_unique (index : list Q) : bool :=
  match index with
  | [] => true
  | t :: index' => negb (existsb (Qeq_bool t) index') && is_unique index'
  end.

Fixpoint is_monotonic_increasing (index : list Q) : bool :=
  match index with
  | [] => true
  | t :: index' =>
      match index' with
      | [] => true
      | u :: _ => Qle_bool t u && is_monotonic_increasing index'
      end
  end.

(** Position of the last label [<= time] of an increasing index, counted
    from position [pos]. *)
Fixpoint pad (index : list Q) (time : Q) (pos : nat) (found : option nat) : option nat :=
  match index with
  | [] => found
  | t :: index' => if Qle_bool t time then pad index' time (S pos) (Some pos) else found
  end.

(** Position of the first label [>= time]. *)
Fixpoint backfill (index : list Q) (time : Q) (pos : nat) : option nat :=
  match index with
  | [] => None
  | t :: index' => if Qle_bool time t then Some pos else backfill index' time (S pos)
  end.

Inductive fill_method : Type := ffill | bfill | nearest.

(** [index.get_loc(time, method=...)].  pandas needs unique labels and a
    monotonic index for this.  A decreasing index with two or more labels
    never reaches the calls in [get_interpolated_row] (its first label is
    above its last one), so only the increasing case is spelled out;
    [nearest] breaks ties towards the larger label. *)
Definition get_loc (index : list Q) (time : Q) (method : fill_method) : res nat :=
  if negb (is_unique index) then Raise InvalidIndexError
  else if negb (is_monotonic_increasing index) then Raise ValueError
  else
    let found (o : option nat) : res nat :=
      match o with Some i => Ok i | None => Raise KeyError end in
    match method with
    | ffill => found (pad index time 0 None)
    | bfill => found (backfill index time 0)
    | nearest =>
        match pad index time 0 None, backfill index time 0 with
        | Some i, Some j =>
            tl ← py_index index i;
            tr ← py_index index j;
            mret (if Qltb (Qabs (time - tl)) (Qabs (tr - time)) then i else j)
        | Some i, None => Ok i
        | None, Some j => Ok j
        | None, None => Raise KeyError
        end
    end.

(** [get_interpolated_row(df, time)] for a series [df]. *)
Definition get_interpolated_row (df : Series) (time : Q) : res value :=
  let index := s_index df in
  first ← py_index index 0;
  if Qltb time first then iloc df 0
  else
    (* [index[len(df) - 1]]: the first lookup has shown [len(df) >= 1] *)
    last ← py_index index (length index - 1);
    if Qltb last time then iloc df (length index - 1)
    else
      match df with
      | FloatSeries l =>
          ix_row1 ← get_loc index time ffill;
          time_row1 ← py_index index ix_row1;
          if Qeq_bool time time_row1 then iloc df ix_row1
          else
            ix_row2 ← get_loc index time bfill;
            time_row2 ← py_index index ix_row2;
            row1 ← py_index (map snd l) ix_row1;
            row2 ← py_index (map snd l) ix_row2;
            mret (VFloat (row1 + (time - time_row1) * (row2 - row1) / (time_row2 - time_row1)))
      | ObjectSeries _ =>
          ix_row ← get_loc index time nearest;
          row ← iloc df ix_row;
          copy row
      end.

End Interpolator.

(** ** The co-simulation adapter [FMIAdapterV2] *)

Inductive Kind : Type := KReal | KInteger | KBoolean | KString.
Inductive Role : Type := RInput | ROutput | RParameter.

(** The calls this class makes on its base class. *)
Inductive AdapterCall : Type :=
  | Define (r : Role) (k : Kind) (names : list string)
  | SetOutputValues (k : Kind) (outputs : list (string * value)).

Definition defineRealInputs := Define RInput KReal.
Definition defineIntegerInputs := Define RInput KInteger.
Definition defineBooleanInputs := Define RInput KBoolean.
Definition defineStringInputs := Define RInput KString.
Definition defineRealOutputs := Define ROutput KReal.
Definition defineIntegerOutputs := Define ROutput KInteger.
Definition defineBooleanOutputs := Define ROutput KBoolean.
Definition defineStringOutputs := Define ROutput KString.
Definition defineRealParameters := Define RParameter KReal.
Definition defineIntegerParameters := Define RParameter KInteger.
Definition defineBooleanParameters := Define RParameter KBoolean.
Definition defineStringParameters := Define RParameter KString.
Definition setRealOutputValues := SetOutputValues KReal.
Definition setIntegerOutputValues := SetOutputValues KInteger.
Definition setBooleanOutputValues := SetOutputValues KBoolean.
Definition setStringOutputValues := SetOutputValues KString.

(** The name a kind has as a key of [fmi_input_vars], [fmi_output_vars] and
    [fmi_parameters]. *)
Definition kind_name (k : Kind) : string :=
  match k with
  | KReal => "Real"
  | KInteger => "Integer"
  | KBoolean => "Boolean"
  | KString => "String"
  end.

(** ** I/O binding layer *)

Module IOBinding.

(** [if kind in vars.keys(): define(...)], the names of [vars[kind]]
    being the arguments *)
Definition declared (vars : gmap string (list string)) (kind : string)
    (define : list string -> AdapterCall) : list AdapterCall :=
  match vars !! kind with
  | Some names => [define names]
  | None => []
  end.

Definition _initialize_fmi_inputs (n : Net) : list AdapterCall :=
  (match fmi_input_vars n with
   | Some vars =>
       declared vars "Real" defineRealInputs
       ++ declared vars "Integer" defineIntegerInputs
       ++ declared vars "Boolean" defineBooleanInputs
       ++ declared vars "String" defineStringInputs
   | None => []
   end)
  ++
  (match fmi_output_vars n with
   | Some vars =>
       declared vars "Real" defineRealOutputs
       ++ declared vars "Integer" defineRealOutputs
       ++ declared vars "Boolean" defineRealOutputs
       ++ declared vars "String" defineRealOutputs
   | None => []
   end)
  ++
  (match fmi_parameters n with
   | Some vars =>
       declared vars "Real" defineRealParameters
       ++ declared vars "Integer" defineIntegerParameters
       ++ declared vars "Boolean" defineBooleanParameters
       ++ declared vars "String" defineStringParameters
   | None => []
   end).

Fixpoint for_each {A : Type} (l : list A) (body : A -> M unit) : M unit :=
  match l with
  | [] => mret tt
  | a :: l' => _ ← body a; for_each l' body
  end.

(** [inputs k] is what [get<k>InputValues()] returns, in iteration
    order. *)
Definition _get_and_set_fmi_inputs (n : Net) (inputs : Kind -> list (string * value)) : M unit :=
  match fmi_input_vars n with
  | None => mret tt
  | Some _ =>
      for_each [KReal; KInteger; KBoolean; KString] (fun type =>
        for_each (inputs type) (fun '(key, val) => Binder.set_input n key val))
  end.

(** Whether integer keys of [series[...]] are labels: so on a numeric
    index, positions otherwise. *)
Definition numeric_index (index : list value) : bool :=
  forallb (fun v => match v with VInt _ | VFloat _ => true | _ => false end) index.

Definition is_label_0 (v : value) : bool :=
  match v with
  | VInt z => Z.eqb z 0
  | VFloat x => Qeq_bool x 0
  | _ => false
  end.

(** [series[ix]]: the rows whose label is in [ix] (labels of a table are
    taken to be distinct here). *)
Fixpoint rows_at (index col ix : list value) : list (value * value) :=
  match index, col with
  | i :: index', c :: col' =>
      if Binder.mem i ix then (i, c) :: rows_at index' col' ix else rows_at index' col' ix
  | _, _ => []
  end.

(** [series[ix][0]] *)
Definition first_of (index col ix : list value) : res value :=
  let sub := rows_at index col ix in
  if numeric_index index then
    match find (fun r => is_label_0 (fst r)) sub with
    | Some r => Ok (snd r)
    | None => Raise KeyError
    end
  else py_index (map snd sub) 0.

(** The body of the loops of [_set_outputs] for one output. *)
Definition get_output (n : Net) (key : string) : M value :=
  '(classname, componentname, parametername) ← lift (Binder.parse key);
  ix ← Binder.locate n classname componentname;
  t ← getattr n classname;
  tdf ← load t;
  col ← lift (getitem tdf parametername);
  lift (first_of (df_index tdf) col ix).

(** [outputs[key] = v] on a dict *)
Definition dict_set {A : Type} (k : string) (a : A) (d : list (string * A)) : list (string * A) :=
  match assoc k d with
  | Some _ => assoc_set k a d
  | None => d ++ [(k, a)]
  end.

Fixpoint collect (n : Net) (keys : list string) (outputs : list (string * value))
    : M (list (string * value)) :=
  match keys with
  | [] => mret outputs
  | key :: keys' =>
      v ← get_output n key;
      collect n keys' (dict_set key v outputs)
  end.

(** [if kind in vars.keys()]: the dict [outputs] filled for that kind *)
Definition outputs_of (n : Net) (vars : gmap string (list string)) (kind : string)
    : M (option (list (string * value))) :=
  match vars !! kind with
  | Some keys => outputs ← collect n keys []; mret (Some outputs)
  | None => mret None
  end.

End IOBinding.

(** ** Profile manager *)

Module Profiles.

(** The comma-separated profile sources, by file name: the parsed numeric
    cells of each line. *)
Definition CsvFiles : Type := string -> option (list (list Q)).

(** [pd.read_csv(file, header=None, index_col=0, usecols=[0, column])[column]]:
    the first cell of every line is the index, the cell at [column] the
    value. *)
Definition read_csv (fs : CsvFiles) (file : string) (column : Z) : res Series :=
  match fs file with
  | None => Raise FileNotFoundError
  | Some lines =>
      if (column <=? 0)%Z then Raise KeyError
      else
        let sample (line : list Q) : res (Q * Q) :=
          match line !! 0%nat, line !! Z.to_nat column with
          | Some t, Some v => Ok (t, v)
          | _, _ => Raise ValueError
          end in
        samples ← mapM sample lines;
        mret (FloatSeries samples)
  end.

Definition set_profile (row : ProfileRow) (s : Series) : ProfileRow :=
  mkProfileRow (p_class row) (p_component row) (p_parameter row) (p_file row)
    (p_column row) (Some s).

(** What a row should hold after loading: its own series if it came with
    one, otherwise the series read from its file and column. *)
Definition loaded (fs : CsvFiles) (row row' : ProfileRow) : Prop :=
  match p_profile row with
  | Some _ => row' = row
  | None =>
      exists s, read_csv fs (p_file row) (p_column row) = Ok s /\ row' = set_profile row s
  end.

(** The loop of [_load_profiles] over [iterrows()].  [todo] are the rows
    still to be yielded, [i] the position of the next one, [frame] the
    rows of the table itself.  [row['profile'] = ...] assigns to the row
    object, which reaches the table only when the row is a view of it. *)
Fixpoint load_rows (fs : CsvFiles) (view : bool) (todo : list ProfileRow) (i : nat)
    (frame : list ProfileRow) : res unit * list ProfileRow :=
  match todo with
  | [] => (Ok tt, frame)
  | row :: todo' =>
      match p_profile row with
      | Some _ => load_rows fs view todo' (S i) frame
      | None =>
          match read_csv fs (p_file row) (p_column row) with
          | Ok s =>
              load_rows fs view todo' (S i)
                (if view then <[i := set_profile row s]> frame else frame)
          | Raise e => (Raise e, frame)
          end
      end
  end.

Definition set_profiles (n : Net) (pf : option ProfilesFrame) : Net :=
  mkNet (tables n) (fmi_input_vars n) (fmi_output_vars n) (fmi_parameters n)
    (time_step n) pf (result_file n).

(** Returns the network with its table [profiles] as the loop leaves it. *)
Definition _load_profiles (fs : CsvFiles) (n : Net) : res unit * Net :=
  match profiles n with
  | None => (Ok tt, n)
  | Some pf =>
      let '(r, rows) :=
        load_rows fs (pf_object_block pf) (pf_rows pf) 0 (pf_rows pf) in
      (r, set_profiles n (Some (mkProfilesFrame rows (pf_object_block pf))))
  end.

(** The body of the loop of [_set_profile_values] for one row. *)
Definition set_profile_value (n : Net) (time : Q) (row : ProfileRow) : M unit :=
  value ← lift (match p_profile row with
                | Some s => Interpolator.get_interpolated_row s time
                | None => Raise AttributeError
                end);
  t ← getattr n (p_class row);
  tdf ← load t;
  col ← lift (getitem tdf (p_parameter row));
  t1 ← getattr n (p_class row);
  tdf1 ← load t1;
  t2 ← getattr n (p_class row);
  tdf2 ← load t2;
  names ← lift (getitem tdf2 "name");
  ix ← lift (Binder.index_mask (df_index tdf1) (map (Binder.eq_str (p_component row)) names));
  col' ← lift (Binder.set_labels (df_index tdf) col ix value);
  store t (mkDataFrame (df_index tdf) (assoc_set (p_parameter row) col' (df_columns tdf))).

Definition _set_profile_values (n : Net) (time : Q) : M unit :=
  match profiles n with
  | None => mret tt
  | Some pf => IOBinding.for_each (pf_rows pf) (set_profile_value n time)
  end.

End Profiles.

(** ** Result recorder *)

(** The one-row table returned by [get_pp_results]: its index and, per
    column, the key (table, row label, field) with the cell of the row. *)
Record ResultFrame : Type := mkResultFrame {
  rf_index : list Q;
  rf_columns : list ((string * value * string) * value)
}.

Section Recorder.

(** [str(x)] for a float [x]. *)
Variable float_str : Q -> string.

Definition py_str (v : value) : string :=
  match v with
  | VFloat x => float_str x
  | VInt z => pretty z
  | VBool true => "True"
  | VBool false => "False"
  | VStr s => s
  | VNone => "None"
  end.

(** The dict comprehension of [get_pp_results]: a copy of every non-empty
    table whose key starts with [res_], in the order of [net.keys()]. *)
Fixpoint copy_results (n : Net) (keys : list string) : M (list (string * nat)) :=
  match keys with
  | [] => mret []
  | key :: keys' =>
      if PyStr.startswith key "res_" then
        t ← getattr n key;
        tdf ← load t;
        if df_empty tdf then copy_results n keys'
        else
          t' ← getattr n key;
          tdf' ← load t';
          c ← alloc tdf';
          df_dict ← copy_results n keys';
          mret ((key, c) :: df_dict)
      else copy_results n keys'
  end.

(** [{key: str(val) for key, val in names.to_dict().items()}], queried:
    in a dict the last entry of a key wins. *)
Fixpoint dict_get (d : list (value * string)) (k : value) : option string :=
  match d with
  | [] => None
  | (k', s) :: d' =>
      match dict_get d' k with
      | Some s' => Some s'
      | None => if Binder.value_eqb k' k then Some s else None
      end
  end.

Definition map_label (d : list (value * string)) (k : value) : value :=
  match dict_get d k with
  | Some s => VStr s
  | None => VNone
  end.

(** [df.stack()]: row by row, the cells that are not NaN. *)
Fixpoint stack_from (index : list value) (columns : list (string * list value)) (i : nat)
    : list ((value * string) * value) :=
  match index with
  | [] => []
  | label :: index' =>
      flat_map (fun '(c, cells) =>
                  match cells !! i with
                  | Some VNone => []
                  | Some v => [((label, c), v)]
                  | None => []
                  end) columns
      ++ stack_from index' columns (S i)
  end.

Definition stack (df : DataFrame) : list ((value * string) * value) :=
  stack_from (df_index df) (df_columns df) 0.

(** The loop over [df_dict.items()], returning the columns of the
    concatenation of [dfs] under [keys]. *)
Fixpoint flatten (n : Net) (df_dict : list (string * nat))
    : M (list ((string * value * string) * value)) :=
  match df_dict with
  | [] => mret []
  | (df_name, df) :: df_dict' =>
      d ← getattr n (PyStr.drop 4 df_name);
      ddf ← load d;
      names ← lift (getitem ddf "name");
      cdf ← load df;
      _ ← store df (mkDataFrame
                      (map (map_label (zip (df_index ddf) (map py_str names))) (df_index cdf))
                      (df_columns cdf));
      cdf' ← load df;
      columns ← flatten n df_dict';
      mret (map (fun '((label, c), v) => ((PyStr.drop 4 df_name, label, c), v)) (stack cdf')
            ++ columns)
  end.

(** [get_pp_results(net, time)] *)
Definition get_pp_results (n : Net) (time : Q) : M ResultFrame :=
  df_dict ← copy_results n (map fst (tables n));
  match df_dict with
  | [] => lift (Raise (RuntimeError "No results present in pandapower network"))
  | _ =>
      columns ← flatten n df_dict;
      mret (mkResultFrame [time] columns)
  end.

End Recorder.

(** ** The FMU object: [init] and [doStep] *)

(** A result file: the header written by [init], then one line per solve
    instant (the text layout of the cells is not modelled). *)
Inductive LogRecord : Type :=
  | Header (columns : list (string * value * string))
  | Row (time : Q) (cells : list value).

(** The object [self] together with what it acts on: the store of tables,
    the result files and the trace of calls on the adapter base class. *)
Record FMU : Type := mkFMU {
  _t_start : option Q;
  net : option Net;                 (* [None]: no attribute [net] yet *)
  heap : list DataFrame;
  files : gmap string (list LogRecord);
  calls : list AdapterCall
}.

Definition F (A : Type) : Type := FMU -> res A * FMU.

#[global] Instance F_ret : MRet F := fun A a self => (Ok a, self).
#[global] Instance F_bind : MBind F := fun A B k m self =>
  match m self with
  | (Ok a, self') => k a self'
  | (Raise e, self') => (Raise e, self')
  end.

Definition raise {A : Type} (e : exn) : F A := fun self => (Raise e, self).

Definition set_heap (self : FMU) (h : list DataFrame) : FMU :=
  mkFMU (_t_start self) (net self) h (files self) (calls self).

(** Run a computation on the store of [self]. *)
Definition on_heap {A : Type} (m : M A) : F A :=
  fun self => let '(r, h) := m (heap self) in (r, set_heap self h).

Definition set_t_start (t : Q) : F unit :=
  fun self => (Ok tt, mkFMU (Some t) (net self) (heap self) (files self) (calls self)).

Definition set_net (n : Net) : F unit :=
  fun self => (Ok tt, mkFMU (_t_start self) (Some n) (heap self) (files self) (calls self)).

Definition call (cs : list AdapterCall) : F unit :=
  fun self => (Ok tt, mkFMU (_t_start self) (net self) (heap self) (files self) (calls self ++ cs)).

Definition write_file (name : string) (content : list LogRecord) : F unit :=
  fun self => (Ok tt, mkFMU (_t_start self) (net self) (heap self)
                        (<[name := content]> (files self)) (calls self)).

Definition append_file (name : string) (line : LogRecord) : F unit :=
  fun self => (Ok tt, mkFMU (_t_start self) (net self) (heap self)
                        (<[name := default [] (files self !! name) ++ [line]]> (files self))
                        (calls self)).

(** [self.net] *)
Definition get_net : F Net :=
  fun self => match net self with
              | Some n => (Ok n, self)
              | None => (Raise AttributeError, self)
              end.

Definition get_result_file (n : Net) : F string :=
  match result_file n with
  | Some f => mret f
  | None => raise AttributeError
  end.

Section PandapowerFMUClass.

(** The surroundings of the FMU: the working directory listing, the
    unpickling of a network (which creates its tables in the store), the
    profile sources, the power flow solver ([recycle] tells the call of
    [doStep] from the one of [init]), and Python's float formatting. *)
Variable listdir : list string.
Variable from_pickle : string -> M Net.
Variable csv : Profiles.CsvFiles.
Variable runpp : bool -> Net -> M unit.
Variable float_str : Q -> string.

(** The loop of [init] over [os.listdir(os.getcwd())]. *)
Fixpoint load_network (dir : list string) : F unit :=
  match dir with
  | [] => mret tt
  | file :: dir' =>
      if PyStr.endswith file ".p" then
        n ← on_heap (from_pickle file);
        _ ← set_net n;
        load_network dir'
      else load_network dir'
  end.

Fixpoint for_each_step (steps : list Q) (body : Q -> F unit) : F unit :=
  match steps with
  | [] => mret tt
  | t :: steps' => _ ← body t; for_each_step steps' body
  end.

Definition set_values (n : Net) (vars : gmap string (list string)) (kind : string)
    (set_output_values : list (string * value) -> AdapterCall) : F unit :=
  outputs ← on_heap (IOBinding.outputs_of n vars kind);
  match outputs with
  | Some outputs => call [set_output_values outputs]
  | None => mret tt
  end.

Definition _set_outputs (n : Net) : F unit :=
  match fmi_output_vars n with
  | None => mret tt
  | Some vars =>
      _ ← set_values n vars "Real" setRealOutputValues;
      _ ← set_values n vars "Integer" setIntegerOutputValues;
      _ ← set_values n vars "Boolean" setBooleanOutputValues;
      set_values n vars "String" setStringOutputValues
  end.

Definition init (currentCommunicationPoint : Q) : F unit :=
  _ ← set_t_start currentCommunicationPoint;
  _ ← load_network listdir;
  self ← (fun self => (Ok self, self));
  match net self with
  | None => raise (RuntimeError "Loading pandapower network from file failed")
  | Some n =>
      _ ← call (IOBinding._initialize_fmi_inputs n);
      _ ← (fun self => let '(r, n') := Profiles._load_profiles csv n in
                       (r, mkFMU (_t_start self) (Some n') (heap self) (files self) (calls self)));
      n ← get_net;
      _ ← on_heap (runpp false n);
      df_results ← on_heap (get_pp_results float_str n 0);
      file ← get_result_file n;
      write_file file [Header (map fst (rf_columns df_results))]
  end.

(** [inputs] stands for the input values the master has set for this
    step. *)
Definition doStep (inputs : Kind -> list (string * value))
    (currentCommunicationPoint communicationStepSize : Q) : F unit :=
  n ← get_net;
  steps ← (match time_step n with
           | None => mret [currentCommunicationPoint]
           | Some _ =>
               fun self =>
                 match _t_start self with
                 | Some t0 =>
                     (Scheduler.sim_steps currentCommunicationPoint communicationStepSize
                        t0 (time_step n), self)
                 | None => (Raise AttributeError, self)
                 end
           end);
  _ ← on_heap (IOBinding._get_and_set_fmi_inputs n inputs);
  _ ← for_each_step steps (fun t_sym =>
        _ ← on_heap (Profiles._set_profile_values n t_sym);
        _ ← on_heap (runpp true n);
        file ← get_result_file n;
        row ← on_heap (get_pp_results float_str n t_sym);
        append_file file (Row t_sym (map snd (rf_columns row))));
  _set_outputs n.

End PandapowerFMUClass.

(** ** A small network used in the examples below *)

Module Example.

Local Open Scope Q_scope.

(** The table [load]: the row named [Load1] has index 2. *)
Definition load_table : DataFrame :=
  mkDataFrame [VInt 0; VInt 1; VInt 2]
    [("name", [VStr "LoadA"; VStr "LoadB"; VStr "Load1"]);
     ("bus", [VInt 0; VInt 1; VInt 1]);
     ("p_mw", [VFloat 1; VFloat 2; VFloat 3])].

(** The result table [res_load], with the index of [load]. *)
Definition res_load_table : DataFrame :=
  mkDataFrame [VInt 0; VInt 1; VInt 2]
    [("p_mw", [VFloat 1; VFloat 2; VFloat 3]);
     ("q_mvar", [VFloat 0; VFloat 0; VFloat (1 # 2)])].

(** A table [sgen] in which two rows carry the same name. *)
Definition sgen_table : DataFrame :=
  mkDataFrame [VInt 0; VInt 1]
    [("name", [VStr "PV"; VStr "PV"]);
     ("p_mw", [VFloat 4; VFloat 5])].

Definition store0 : list DataFrame := [load_table; res_load_table; sgen_table].

Definition network : Net :=
  mkNet [("load", 0%nat); ("res_load", 1%nat); ("sgen", 2%nat)]
    (Some {["Real" := ["load.Load1.p_mw"]]})
    (Some {["Integer" := ["load.Load1.bus"]]})
    None None None (Some "results.csv").

(** A table [profiles] with an integer column [column] (mixed dtypes) and
    one profile to be read from a file. *)
Definition profile_rows : list ProfileRow :=
  [mkProfileRow "load" "Load1" "p_mw" "p.csv" 1 None].

Definition profile_files : Profiles.CsvFiles :=
  fun file => if String.eqb file "p.csv" then Some [[0; 1]; [10; 2]] else None.

Definition network_with_profiles (object_block : bool) : Net :=
  Profiles.set_profiles network (Some (mkProfilesFrame profile_rows object_block)).

(** Surroundings for running [init]: every pickle holds a network without
    tables whose cadence tells the file it came from. *)
Definition pickles : string -> M Net :=
  fun file h =>
    (Ok (mkNet [] None None None (Some (if String.eqb file "b.p" then 2 else 1))
           None None), h).

Definition solver : bool -> Net -> M unit := fun _ _ h => (Ok tt, h).

Definition fresh : FMU := mkFMU None None [] ∅ [].

End Example.

(** ** A running FMU used in the examples below *)

Module Scenario.

Local Open Scope Q_scope.

(** The master sets one real input. *)
Definition inputs (k : Kind) : list (string * value) :=
  match k with
  | KReal => [("load.Load1.p_mw", VFloat 7)]
  | _ => []
  end.

(** Two real inputs, the second naming a field the table does not have. *)
Definition inputs_with_unknown_field (k : Kind) : list (string * value) :=
  match k with
  | KReal => [("load.Load1.p_mw", VFloat 7); ("load.Load1.nope", VFloat 1)]
  | _ => []
  end.

(** A profile that came with its series. *)
Definition given_rows : list ProfileRow :=
  [mkProfileRow "load" "Load1" "p_mw" "p.csv" 1 (Some (FloatSeries [(0, 1); (10, 2)]))].

(** A profile on a result table. *)
Definition result_row : ProfileRow :=
  mkProfileRow "res_load" "Load1" "p_mw" "p.csv" 1 (Some (FloatSeries [(0, 1); (10, 2)])).

(** Unpickling the example network: its tables are created in the store. *)
Definition pickles : string -> M Net :=
  fun _ h =>
    (Ok (mkNet (map (fun '(name, l) => (name, (length h + l)%nat)) (tables Example.network))
           (fmi_input_vars Example.network) (fmi_output_vars Example.network)
           (fmi_parameters Example.network) (time_step Example.network)
           (profiles Example.network) (result_file Example.network)),
     h ++ Example.store0).

(** The FMU after [init] at time 0. *)
Definition started : FMU := mkFMU (Some 0) (Some Example.network) Example.store0 ∅ [].

(** The example network without the attribute [result_file]. *)
Definition network_without_file : Net :=
  mkNet (tables Example.network) (fmi_input_vars Example.network)
    (fmi_output_vars Example.network) None None None None.

(** A network with a definition table only. *)
Definition network_without_results : Net :=
  mkNet [("load", 0%nat)] None None None None None (Some "results.csv").

End Scenario.

(** ** What a run may change *)

(** Two tables with the same index, the same column names in the same
    order, and columns of the same lengths. *)
Definition same_shape (d d' : DataFrame) : Prop :=
  df_index d' = df_index d
  /\ Forall2 (fun c c' : string * list value =>
                fst c' = fst c /\ length (snd c') = length (snd c))
       (df_columns d) (df_columns d').

(** Two stores holding as many tables, of the same shapes. *)
Definition shapes_kept (h h' : list DataFrame) : Prop := Forall2 same_shape h h'.

(** What [_set_outputs] may change of the FMU: nothing but the trace of
    calls, extended by [published]. *)
Definition publishes (self self' : FMU) (published : list AdapterCall) : Prop :=
  _t_start self' = _t_start self /\ net self' = net self /\ heap self' = heap self
  /\ files self' = files self /\ calls self' = calls self ++ published.

(** * Properties *)

(** ** Step scheduler *)

Section SchedulerFacts.

Import Binary64.
Local Open Scope Z_scope.

(** C1.  The instants that [doStep] computes are not always the ones of
    the claim.  After [init] at time 0 and with the cadence 0.1,
    [doStep(0.8, 0.3)] solves at 0.8, 0.9, 1.0 and at a fourth instant
    that is the end of the step itself, [0.8 + 0.3], and so not strictly
    before it: the length of [np.arange] is the ceiling of a quotient that
    rounding has put just above 2.  In the same way [doStep(0.5, 0.5)]
    solves twice at 0.5: the phase is not zero, but [0.1 - phase] is too
    small to change 0.5 when added to it.  On the claim's example (start 0,
    step size 10, cadence 3) the instants are 0, 3, 6 and 9, and without a
    cadence the only instant is the communication point. *)
Theorem sim_steps_reaches_end_of_step :
  let start := of_ratio 8 10 in
  let stepSize := of_ratio 3 10 in
  let c := of_ratio 1 10 in
  sim_steps start stepSize (of_Z 0) (Some c)
  = Ok [start; of_ratio 9 10; of_Z 1; add start stepSize]
  /\ (exists (phase : float) (rest : list float),
        py_mod (sub (of_ratio 5 10) (of_Z 0)) c = Ok phase
        /\ is_zero phase = false
        /\ sim_steps (of_ratio 5 10) (of_ratio 5 10) (of_Z 0) (Some c)
           = Ok (of_ratio 5 10 :: of_ratio 5 10 :: rest))
  /\ sim_steps (of_Z 0) (of_Z 10) (of_Z 0) (Some (of_Z 3))
     = Ok [of_Z 0; of_Z 3; of_Z 6; of_Z 9]
  /\ forall start' stepSize' t_start : float,
       sim_steps start' stepSize' t_start None = Ok [start'].
Proof.
  split; [vm_compute; reflexivity|].
  split.
  - eexists. eexists. split; [vm_compute; reflexivity|].
    split; [reflexivity|]. vm_compute. reflexivity.
  - split; [vm_compute; reflexivity|]. intros start' stepSize' t_start. reflexivity.
Qed.

End SchedulerFacts.

(** ** Variable binder *)

Section BinderFacts.

Import PyStr Binder.

Lemma parse_tokens (key : string) :
  match split key "." with
  | classname :: componentname :: parametername :: _ =>
      parse key = Ok (classname, componentname, parametername)
  | _ => parse key = Raise IndexError
  end.
Proof.
  unfold parse. destruct (split key ".") as [|a [|b [|c l]]]; reflexivity.
Qed.

Lemma value_eqb_refl (v : value) : value_eqb v v = true.
Proof.
  destruct v as [x|z|b|s|]; simpl; try reflexivity.
  - apply Qeq_bool_refl.
  - apply Z.eqb_refl.
  - destruct b; reflexivity.
  - apply String.eqb_refl.
Qed.

Lemma value_eqb_trans (u v w : value) :
  value_eqb u v = true -> value_eqb u w = true -> value_eqb v w = true.
Proof.
  destruct u, v, w; simpl; try discriminate; intros H1 H2.
  - apply Qeq_bool_iff in H1, H2. apply Qeq_bool_iff.
    rewrite <- H1. exact H2.
  - apply Z.eqb_eq in H1, H2. apply Z.eqb_eq. congruence.
  - apply Bool.eqb_prop in H1, H2. subst. destruct b1; reflexivity.
  - apply String.eqb_eq in H1, H2. apply String.eqb_eq. congruence.
  - reflexivity.
Qed.

Lemma mem_eqb (j i : value) (l : list value) :
  value_eqb j i = true -> mem j l = true -> mem i l = true.
Proof.
  intros Hji. induction l as [|k l IH]; simpl; [discriminate|].
  intros H. apply orb_prop in H as [H|H].
  - rewrite (value_eqb_trans _ _ _ Hji H). reflexivity.
  - rewrite (IH H). apply orb_true_r.
Qed.

Lemma index_mask_length (index : list value) (mask : list bool) :
  length index = length mask -> exists ix, index_mask index mask = Ok ix.
Proof.
  revert mask. induction index as [|i index IH]; intros [|b mask] Hlen; simpl in *;
    try discriminate.
  - eexists; reflexivity.
  - destruct (IH mask) as [ix Hix]; [lia|].
    rewrite Hix. eexists; reflexivity.
Qed.

Lemma index_mask_mem (index : list value) (mask : list bool) (ix : list value) (j : value) :
  index_mask index mask = Ok ix -> mem j ix = true -> mem j index = true.
Proof.
  revert mask ix. induction index as [|i index IH]; intros [|b mask] ix H Hj; simpl in *;
    try discriminate.
  - injection H as <-. exact Hj.
  - destruct (index_mask index mask) as [ix'|] eqn:E; simpl in H; [|discriminate].
    injection H as <-.
    destruct b; simpl in Hj.
    + apply orb_prop in Hj as [Hj|Hj].
      * rewrite Hj. reflexivity.
      * rewrite (IH _ _ E Hj). apply orb_true_r.
    + rewrite (IH _ _ E Hj). apply orb_true_r.
Qed.

Lemma set_rows_ext (index col ix1 ix2 : list value) (val : value) :
  (forall j, mem j index = true -> mem j ix1 = mem j ix2) ->
  set_rows index col ix1 val = set_rows index col ix2 val.
Proof.
  revert col. induction index as [|i index IH]; intros [|c col] H; simpl; try reflexivity.
  rewrite (H i) by (simpl; rewrite value_eqb_refl; reflexivity).
  rewrite IH; [reflexivity|].
  intros j Hj. apply H. simpl. rewrite Hj. apply orb_true_r.
Qed.

(** On an index without repeated labels, writing at the labels selected
    by a mask writes exactly at the positions of the mask. *)
Lemma set_rows_mask (index : list value) (mask : list bool) (col ix : list value)
    (val : value) :
  unique index = true ->
  index_mask index mask = Ok ix ->
  set_rows index col ix val = mask_set mask col val.
Proof.
  revert mask col ix. induction index as [|i index IH]; intros [|b mask] col ix Hu H;
    simpl in *; try discriminate.
  - destruct col; reflexivity.
  - destruct (index_mask index mask) as [ix'|] eqn:E; simpl in H; [|discriminate].
    injection H as <-.
    apply andb_prop in Hu as [Hi Hu]. apply negb_true_iff in Hi.
    destruct col as [|c col]; [reflexivity|].
    assert (Hnot : mem i ix' = false).
    { destruct (mem i ix') eqn:Em; [|reflexivity].
      rewrite (index_mask_mem _ _ _ _ E Em) in Hi. discriminate. }
    assert (Hrest : set_rows index col (if b then i :: ix' else ix') val
                    = mask_set mask col val).
    { rewrite <- (IH mask col ix' Hu E).
      apply set_rows_ext. intros j Hj. destruct b; [|reflexivity].
      simpl. destruct (value_eqb j i) eqn:Eji; [|reflexivity].
      rewrite (mem_eqb _ _ _ Eji Hj) in Hi. discriminate. }
    rewrite Hrest. f_equal.
    destruct b; simpl; [rewrite value_eqb_refl; reflexivity|rewrite Hnot; reflexivity].
Qed.

Lemma locate_bound (n : Net) (h : list DataFrame) (classname componentname : string)
    (t : nat) (tdf : DataFrame) (names : list value) :
  bound n h classname t tdf names ->
  locate n classname componentname h
  = (index_mask (df_index tdf) (map (eq_str componentname) names), h).
Proof.
  intros (dname & d & ddf & Hdef & Ht & Htdf & Hd & Hddf & Hnames & _).
  unfold locate, definition_of in *.
  destruct (startswith classname "res_").
  - unfold mbind, M_bind, getattr, load, lift.
    rewrite Ht, Htdf, Hdef, Hd, Hddf, Hnames. reflexivity.
  - subst dname. rewrite Ht in Hd. injection Hd as <-.
    rewrite Htdf in Hddf. injection Hddf as <-.
    unfold mbind, M_bind, getattr, load, lift.
    rewrite Ht, Htdf. cbn beta iota. rewrite Htdf, Hnames. reflexivity.
Qed.

(** What one input write does when the binding resolves: every row whose
    name is [componentname] receives [val], whatever their number. *)
Lemma set_input_bound (n : Net) (h : list DataFrame)
    (key classname componentname parametername : string)
    (t : nat) (tdf : DataFrame) (names col : list value) (val : value) :
  parse key = Ok (classname, componentname, parametername) ->
  bound n h classname t tdf names ->
  getitem tdf parametername = Ok col ->
  unique (df_index tdf) = true ->
  set_input n key val h
  = (Ok tt,
     <[t := mkDataFrame (df_index tdf)
              (assoc_set parametername
                 (mask_set (map (eq_str componentname) names) col val)
                 (df_columns tdf))]> h).
Proof.
  intros Hparse Hb Hcol Hu.
  pose proof (locate_bound n h classname componentname t tdf names Hb) as Hloc.
  destruct Hb as (dname & d & ddf & Hdef & Ht & Htdf & Hd & Hddf & Hnames & Hlen).
  destruct (index_mask_length (df_index tdf) (map (eq_str componentname) names))
    as [ix Hix]; [rewrite length_map; congruence|].
  unfold set_input, setitem.
  unfold mbind at 1. unfold M_bind at 1. unfold lift at 1. rewrite Hparse.
  unfold mbind at 1. unfold M_bind at 1. rewrite Hloc, Hix.
  unfold mbind, M_bind, getattr, load, lift, store, set_labels.
  rewrite Ht, Htdf, Hcol, Hu.
  rewrite (set_rows_mask _ _ _ _ val Hu Hix). reflexivity.
Qed.

Lemma get_output_bound (n : Net) (h : list DataFrame)
    (key classname componentname parametername : string)
    (t : nat) (tdf : DataFrame) (names col ix : list value) :
  parse key = Ok (classname, componentname, parametername) ->
  bound n h classname t tdf names ->
  getitem tdf parametername = Ok col ->
  index_mask (df_index tdf) (map (eq_str componentname) names) = Ok ix ->
  IOBinding.get_output n key h = (IOBinding.first_of (df_index tdf) col ix, h).
Proof.
  intros Hparse Hb Hcol Hix.
  pose proof (locate_bound n h classname componentname t tdf names Hb) as Hloc.
  destruct Hb as (dname & d & ddf & Hdef & Ht & Htdf & Hd & Hddf & Hnames & Hlen).
  unfold IOBinding.get_output.
  unfold mbind at 1. unfold M_bind at 1. unfold lift at 1. rewrite Hparse.
  unfold mbind at 1. unfold M_bind at 1. rewrite Hloc, Hix.
  unfold mbind, M_bind, getattr, load, lift.
  rewrite Ht, Htdf, Hcol. reflexivity.
Qed.

Lemma assoc_assoc_set {A : Type} (k : string) (a a0 : A) (l : list (string * A)) :
  assoc k l = Some a0 -> assoc k (assoc_set k a l) = Some a.
Proof.
  induction l as [|[k' a'] l IH]; simpl; [discriminate|].
  destruct (String.eqb k k') eqn:E; simpl; rewrite E; [reflexivity|exact IH].
Qed.

Lemma mask_set_lookup (mask : list bool) (col : list value) (val : value)
    (p : nat) (b : bool) (c : value) :
  mask !! p = Some b -> col !! p = Some c ->
  mask_set mask col val !! p = Some (if b then val else c).
Proof.
  revert col p. induction mask as [|b' mask IH]; intros [|c' col] [|p] Hb Hc;
    simpl in *; try discriminate.
  - injection Hb as <-. injection Hc as <-. reflexivity.
  - apply IH; assumption.
Qed.

Lemma index_mask_none (index : list value) (mask : list bool) :
  length index = length mask ->
  (forall b, b ∈ mask -> b = false) ->
  index_mask index mask = Ok [].
Proof.
  revert mask. induction index as [|i index IH]; intros [|b mask] Hlen Hall;
    simpl in *; try discriminate; [reflexivity|].
  rewrite IH; [|lia|intros b' Hb'; apply Hall; right; exact Hb'].
  rewrite (Hall b) by left. reflexivity.
Qed.

Lemma index_mask_single (index : list value) (mask : list bool) (p : nat) (i : value) :
  length index = length mask ->
  index !! p = Some i ->
  (forall q, mask !! q = Some true <-> q = p) ->
  index_mask index mask = Ok [i].
Proof.
  revert mask p. induction index as [|j index IH]; intros [|b mask] p Hlen Hi Hmask;
    simpl in *; try discriminate.
  destruct p as [|p]; simpl in Hi.
  - injection Hi as ->.
    assert (b = true) as ->.
    { pose proof (proj2 (Hmask 0%nat) eq_refl) as H. simpl in H. congruence. }
    rewrite index_mask_none; [reflexivity|lia|].
    intros b Hb. apply list_elem_of_lookup in Hb as [q Hq].
    destruct b; [|reflexivity].
    pose proof (proj1 (Hmask (S q)) Hq). discriminate.
  - assert (b = false) as ->.
    { destruct b; [|reflexivity].
      pose proof (proj1 (Hmask 0%nat) eq_refl). discriminate. }
    rewrite (IH mask p); [reflexivity|lia|exact Hi|].
    intros q. specialize (Hmask (S q)). simpl in Hmask. rewrite Hmask. lia.
Qed.

Lemma append_empty_r (s : string) : (s ++ "")%string = s.
Proof.
  induction s as [|a s IH]; [reflexivity|].
  change (String a (s ++ "")%string = String a s). f_equal. exact IH.
Qed.

Lemma append_cons (s1 s2 : string) (a : ascii) :
  ((s1 ++ String a "") ++ s2)%string = (s1 ++ String a s2)%string.
Proof.
  induction s1 as [|b s1 IH]; [reflexivity|].
  change (String b ((s1 ++ String a "") ++ s2)%string = String b (s1 ++ String a s2)%string).
  f_equal. exact IH.
Qed.

Lemma split_from_no_occurrence (sep s cur : string) :
  no_occurrence sep s = true -> split_from sep s 0 cur = [(cur ++ s)%string].
Proof.
  revert cur. induction s as [|a s IH]; intros cur H.
  - simpl. rewrite append_empty_r. reflexivity.
  - cbn [no_occurrence] in H. apply andb_prop in H as [Hp Hs].
    apply negb_true_iff in Hp.
    cbn [split_from]. rewrite Hp, (IH _ Hs), append_cons. reflexivity.
Qed.

(** Stripping the marker: [("res_" ++ dname).split('res_')[1]] is
    [dname] when the marker does not occur again. *)
Lemma stripped_prefix (dname : string) :
  no_occurrence "res_" dname = true ->
  startswith ("res_" ++ dname) "res_" = true
  /\ py_index (split ("res_" ++ dname) "res_") 1 = Ok dname.
Proof.
  intros H. split.
  - unfold startswith. simpl. destruct dname; reflexivity.
  - unfold split. 
    change (split_from "res_" ("res_" ++ dname) 0 "")
      with (if String.prefix "res_" ("res_" ++ dname)
            then "" :: split_from "res_" dname 0 ""
            else split_from "res_" ("es_" ++ dname) 0 "r").
    replace (String.prefix "res_" ("res_" ++ dname)) with true
      by (simpl; destruct dname; reflexivity).
    rewrite (split_from_no_occurrence _ _ _ H). reflexivity.
Qed.

Lemma value_eqb_false_sym (v w : value) : value_eqb v w = false -> value_eqb w v = false.
Proof.
  intros H. destruct (value_eqb w v) eqn:E; [|reflexivity].
  rewrite <- H. symmetry. apply (value_eqb_trans w); [exact E|apply value_eqb_refl].
Qed.

Lemma mem_lookup (index : list value) (p : nat) (i j : value) :
  index !! p = Some i -> mem j index = false -> value_eqb j i = false.
Proof.
  revert p. induction index as [|k index IH]; intros [|p] Hi Hj; simpl in *;
    try discriminate; apply orb_false_elim in Hj as [Hk Hj].
  - injection Hi as ->. exact Hk.
  - exact (IH p Hi Hj).
Qed.

Lemma rows_at_absent (index col : list value) (i : value) :
  mem i index = false -> IOBinding.rows_at index col [i] = [].
Proof.
  revert col. induction index as [|k index IH]; intros [|c col] Hi; simpl in *;
    try reflexivity.
  apply orb_false_elim in Hi as [Hk Hi].
  rewrite (value_eqb_false_sym _ _ Hk). simpl. exact (IH col Hi).
Qed.

(** On an index without repeated labels, [series[[i]]] is the one row
    labelled [i]. *)
Lemma rows_at_single (index col : list value) (p : nat) (i c : value) :
  unique index = true ->
  index !! p = Some i -> col !! p = Some c ->
  IOBinding.rows_at index col [i] = [(i, c)].
Proof.
  revert col p. induction index as [|j index IH]; intros [|c' col] p Hu Hi Hc;
    try (destruct p; discriminate).
  simpl in Hu. apply andb_prop in Hu as [Hj Hu]. apply negb_true_iff in Hj.
  destruct p as [|p]; simpl in Hi, Hc.
  - injection Hi as ->. injection Hc as ->.
    simpl. rewrite value_eqb_refl. simpl.
    rewrite (rows_at_absent _ _ _ Hj). reflexivity.
  - simpl. rewrite (mem_lookup _ _ _ _ Hi Hj). simpl.
    exact (IH col p Hu Hi Hc).
Qed.

(** Reading an output whose component names one row: [series[ix][0]]
    looks the label 0 up on a numeric index, and takes the first row
    otherwise. *)
Lemma get_output_named_row (n : Net) (h : list DataFrame)
    (key classname componentname parametername : string)
    (t : nat) (tdf : DataFrame) (names col : list value) (p : nat) (i c : value) :
  parse key = Ok (classname, componentname, parametername) ->
  bound n h classname t tdf names ->
  getitem tdf parametername = Ok col ->
  unique (df_index tdf) = true ->
  (forall q : nat, names !! q = Some (VStr componentname) <-> q = p) ->
  df_index tdf !! p = Some i -> col !! p = Some c ->
  IOBinding.get_output n key h
  = (if IOBinding.numeric_index (df_index tdf)
     then (if IOBinding.is_label_0 i then Ok c else Raise KeyError)
     else Ok c, h).
Proof.
  intros Hparse Hb Hcol Hu Hone Hi Hc.
  assert (Hlen : length (df_index tdf) = length (map (eq_str componentname) names)).
  { destruct Hb as (? & ? & ? & ? & ? & ? & ? & ? & ? & Hlen).
    rewrite length_map. congruence. }
  assert (Hmask : forall q : nat,
             map (eq_str componentname) names !! q = Some true <-> q = p).
  { intros q. rewrite <- Hone, list_lookup_fmap.
    destruct (names !! q) as [v|]; simpl; [|split; discriminate].
    destruct v as [x|z|b|s0|]; simpl; try (split; discriminate).
    destruct (String.eqb_spec s0 componentname) as [->|Hne]; [tauto|].
    split; [discriminate|]. intros [=]. contradiction. }
  pose proof (index_mask_single _ _ p i Hlen Hi Hmask) as Hix.
  rewrite (get_output_bound n h key classname componentname parametername t tdf names col [i]
             Hparse Hb Hcol Hix).
  unfold IOBinding.first_of. rewrite (rows_at_single _ _ p i c Hu Hi Hc).
  destruct (IOBinding.numeric_index (df_index tdf)); [|reflexivity].
  simpl. destruct (IOBinding.is_label_0 i); reflexivity.
Qed.

End BinderFacts.

Section BinderClaims.

Import PyStr Binder.
Local Open Scope Q_scope.

(** C7, as amended.  A binding path with fewer than three dot-separated
    tokens fails (with Python's [IndexError], before the store is
    touched); a path with three or more tokens is parsed without error:
    its first three tokens are the table, the component and the field, and
    further tokens are ignored. *)
Theorem parse_first_three_tokens (key : string) :
  ((length (split key ".") < 3)%nat ->
     parse key = Raise IndexError
     /\ forall (n : Net) (val : value) (h : list DataFrame),
          set_input n key val h = (Raise IndexError, h)
          /\ IOBinding.get_output n key h = (Raise IndexError, h))
  /\ ((3 <= length (split key "."))%nat ->
        exists (classname componentname parametername : string) (rest : list string),
          split key "." = classname :: componentname :: parametername :: rest
          /\ parse key = Ok (classname, componentname, parametername)).
Proof.
  pose proof (parse_tokens key) as H.
  destruct (split key ".") as [|a [|b [|c rest]]] eqn:E; simpl.
  all: split; [intros Hlt|intros Hge]; try lia.
  1-3: split; [exact H|]; intros n val h;
    unfold set_input, IOBinding.get_output, mbind, M_bind, lift; rewrite H;
    split; reflexivity.
  exists a, b, c, rest. split; [reflexivity|exact H].
Qed.

Lemma parse_first_three_tokens_witness :
  parse "load.p_mw" = Raise IndexError
  /\ exists (classname componentname parametername : string) (rest : list string),
       split "load.Load1.p_mw" "." = classname :: componentname :: parametername :: rest
       /\ parse "load.Load1.p_mw" = Ok (classname, componentname, parametername).
Proof.
  split.
  - apply (proj1 (parse_first_three_tokens "load.p_mw")). simpl. lia.
  - apply (proj2 (parse_first_three_tokens "load.Load1.p_mw")). simpl. lia.
Defined.

(** C7, counterexample.  A path of four tokens is not rejected: it is
    parsed as its first three tokens and the write through it succeeds. *)
Lemma four_tokens_resolve :
  length (split "load.Load1.p_mw.max" ".") = 4%nat
  /\ parse "load.Load1.p_mw.max" = Ok ("load", "Load1", "p_mw")
  /\ fst (set_input Example.network "load.Load1.p_mw.max" (VFloat 7) Example.store0)
     = Ok tt.
Proof. repeat split. Qed.

(** C3, as amended.  For a binding whose table name starts with [res_]
    and that resolves (the result table and the field exist, the
    definition table has a column [name] with one cell per row of the
    result table, and the index of the result table has no repeated
    label), a read evaluates [series[ix][0]] on the selected rows [ix]
    and leaves the store as it is; where one row is named as the
    component, and that row has the index label 0 or the index of the
    result table is not numeric, the read returns the field of that row.
    A write is permitted too: it
    raises no error and sets the field to the written value in every row
    of the result table that stands at the position of a definition-table
    row with the component's name. *)
Theorem res_binding_read_write (n : Net) (h : list DataFrame)
    (key classname componentname parametername : string)
    (t : nat) (tdf : DataFrame) (names col : list value) (val : value) :
  startswith classname "res_" = true ->
  parse key = Ok (classname, componentname, parametername) ->
  bound n h classname t tdf names ->
  getitem tdf parametername = Ok col ->
  unique (df_index tdf) = true ->
  (exists ix : list value,
     index_mask (df_index tdf) (map (eq_str componentname) names) = Ok ix
     /\ IOBinding.get_output n key h = (IOBinding.first_of (df_index tdf) col ix, h))
  /\ (forall (p : nat) (i c : value),
        (forall q : nat, names !! q = Some (VStr componentname) <-> q = p) ->
        df_index tdf !! p = Some i -> col !! p = Some c ->
        IOBinding.numeric_index (df_index tdf) = false \/ IOBinding.is_label_0 i = true ->
        IOBinding.get_output n key h = (Ok c, h))
  /\ set_input n key val h
     = (Ok tt,
        <[t := mkDataFrame (df_index tdf)
                 (assoc_set parametername
                    (mask_set (map (eq_str componentname) names) col val)
                    (df_columns tdf))]> h).
Proof.
  intros _ Hparse Hb Hcol Hu. split; [|split].
  - assert (Hlen : length (df_index tdf) = length (map (eq_str componentname) names)).
    { destruct Hb as (? & ? & ? & ? & ? & ? & ? & ? & ? & Hlen).
      rewrite length_map. congruence. }
    destruct (index_mask_length _ _ Hlen) as [ix Hix].
    exists ix. split; [exact Hix|].
    exact (get_output_bound n h key classname componentname parametername
             t tdf names col ix Hparse Hb Hcol Hix).
  - intros p i c Hone Hi Hc Hlabel.
    rewrite (get_output_named_row n h key classname componentname parametername
               t tdf names col p i c Hparse Hb Hcol Hu Hone Hi Hc).
    destruct Hlabel as [-> | Hl0]; [reflexivity|].
    rewrite Hl0. destruct (IOBinding.numeric_index (df_index tdf)); reflexivity.
  - apply (set_input_bound n h key classname componentname parametername); assumption.
Qed.

Lemma example_bound_res_load :
  bound Example.network Example.store0 "res_load" 1 Example.res_load_table
    [VStr "LoadA"; VStr "LoadB"; VStr "Load1"].
Proof. exists "load", 0%nat, Example.load_table. repeat split. Qed.

Lemma res_binding_read_write_witness :
  IOBinding.get_output Example.network "res_load.LoadA.p_mw" Example.store0
  = (Ok (VFloat 1), Example.store0)
  /\ set_input Example.network "res_load.Load1.p_mw" (VFloat 7) Example.store0
     = (Ok tt,
        [Example.load_table;
         mkDataFrame [VInt 0; VInt 1; VInt 2]
           [("p_mw", [VFloat 1; VFloat 2; VFloat 7]);
            ("q_mvar", [VFloat 0; VFloat 0; VFloat (1 # 2)])];
         Example.sgen_table]).
Proof.
  split.
  - apply (proj1 (proj2 (res_binding_read_write Example.network Example.store0
                           "res_load.LoadA.p_mw" "res_load" "LoadA" "p_mw" 1
                           Example.res_load_table
                           [VStr "LoadA"; VStr "LoadB"; VStr "Load1"]
                           [VFloat 1; VFloat 2; VFloat 3] (VFloat 0)
                           eq_refl eq_refl example_bound_res_load eq_refl eq_refl))
             0%nat (VInt 0) (VFloat 1)).
    + intros q. split.
      * destruct q as [|[|[|q]]]; simpl; intros H; try discriminate H; reflexivity.
      * intros ->. reflexivity.
    + reflexivity.
    + reflexivity.
    + right. reflexivity.
  - exact (proj2 (proj2 (res_binding_read_write Example.network Example.store0
                           "res_load.Load1.p_mw" "res_load" "Load1" "p_mw" 1
                           Example.res_load_table
                           [VStr "LoadA"; VStr "LoadB"; VStr "Load1"]
                           [VFloat 1; VFloat 2; VFloat 3] (VFloat 7)
                           eq_refl eq_refl example_bound_res_load eq_refl eq_refl))).
Defined.

(** C3, counterexample.  A write through [res_load.Load1.p_mw] does not
    fail: it returns normally and the cell of [res_load] has changed. *)
Lemma res_write_succeeds :
  fst (set_input Example.network "res_load.Load1.p_mw" (VFloat 7) Example.store0) = Ok tt
  /\ snd (set_input Example.network "res_load.Load1.p_mw" (VFloat 7) Example.store0) !! 1%nat
     = Some (mkDataFrame [VInt 0; VInt 1; VInt 2]
               [("p_mw", [VFloat 1; VFloat 2; VFloat 7]);
                ("q_mvar", [VFloat 0; VFloat 0; VFloat (1 # 2)])])
  /\ snd (set_input Example.network "res_load.Load1.p_mw" (VFloat 7) Example.store0) !! 1%nat
     <> Example.store0 !! 1%nat.
Proof. repeat split. discriminate. Qed.

(** On the integer index of a pandapower table, the [0] of
    [series[ix][0]] is a label, not a position: the output is found for the
    component whose row has index 0, and the lookup raises [KeyError] for
    the row at index 2. *)
Remark output_of_selected_row :
  IOBinding.get_output Example.network "res_load.LoadA.p_mw" Example.store0
  = (Ok (VFloat 1), Example.store0)
  /\ IOBinding.get_output Example.network "res_load.Load1.p_mw" Example.store0
     = (Raise KeyError, Example.store0).
Proof. split; reflexivity. Qed.

(** C5.  A binding of a result table [res_<d>] locates its row by name
    lookup in the definition table [<d>], and uses the index found there
    in the result table: when the two tables have the same index and the
    definition table has exactly one row named [componentname], at index
    [i], the binding selects the labels [[i]], [i] is the label of the
    result table at that row, and [series[ix]] is the row of the result
    table at index [i].  In the example network, where [load] has the row
    [Load1] at index 2, [res_load.Load1.p_mw] selects the row of
    [res_load] at index 2. *)
Theorem res_binding_row_index (n : Net) (h : list DataFrame)
    (dname componentname : string) (t d : nat) (tdf ddf : DataFrame)
    (names : list value) (p : nat) (i : value) :
  no_occurrence "res_" dname = true ->
  assoc ("res_" ++ dname)%string (tables n) = Some t -> h !! t = Some tdf ->
  assoc dname (tables n) = Some d -> h !! d = Some ddf ->
  getitem ddf "name" = Ok names ->
  length names = length (df_index ddf) ->
  df_index tdf = df_index ddf ->
  unique (df_index tdf) = true ->
  df_index ddf !! p = Some i ->
  (forall q : nat, names !! q = Some (VStr componentname) <-> q = p) ->
  (locate n ("res_" ++ dname)%string componentname h = (Ok [i], h)
   /\ df_index tdf !! p = Some i
   /\ forall (col : list value) (c : value),
        col !! p = Some c ->
        IOBinding.rows_at (df_index tdf) col [i] = [(i, c)])
  /\ locate Example.network "res_load" "Load1" Example.store0
     = (Ok [VInt 2], Example.store0).
Proof.
  intros Hno Ht Htdf Hd Hddf Hnames Hlen Hidx Hu Hi Hone.
  split; [|reflexivity].
  destruct (stripped_prefix dname Hno) as [Hstart Hsplit].
  assert (Hb : bound n h ("res_" ++ dname)%string t tdf names).
  { exists dname, d, ddf. unfold definition_of. rewrite Hstart.
    repeat split; try assumption. congruence. }
  assert (Hmask : forall q : nat,
             map (eq_str componentname) names !! q = Some true <-> q = p).
  { intros q. rewrite <- Hone, list_lookup_fmap.
    destruct (names !! q) as [v|]; simpl; [|split; discriminate].
    destruct v as [x|z|b|s0|]; simpl; try (split; discriminate).
    destruct (String.eqb_spec s0 componentname) as [->|Hne]; [tauto|].
    split; [discriminate|]. intros [=]. contradiction. }
  assert (Hix : index_mask (df_index tdf) (map (eq_str componentname) names) = Ok [i]).
  { apply (index_mask_single _ _ p); [rewrite length_map; congruence|congruence|exact Hmask]. }
  split; [|split].
  - rewrite (locate_bound _ _ _ _ _ _ _ Hb). rewrite Hix. reflexivity.
  - congruence.
  - intros col c Hc. apply (rows_at_single _ _ p); congruence.
Qed.

Lemma res_binding_row_index_witness :
  locate Example.network "res_load" "Load1" Example.store0 = (Ok [VInt 2], Example.store0)
  /\ IOBinding.rows_at (df_index Example.res_load_table)
       [VFloat 1; VFloat 2; VFloat 3] [VInt 2] = [(VInt 2, VFloat 3)].
Proof.
  assert (Hone : forall q : nat,
             [VStr "LoadA"; VStr "LoadB"; VStr "Load1"] !! q = Some (VStr "Load1")
             <-> q = 2%nat).
  { intros [|[|[|q]]]; simpl; split; try discriminate; try reflexivity; lia. }
  destruct (res_binding_row_index Example.network Example.store0 "load" "Load1"
              1 0 Example.res_load_table Example.load_table
              [VStr "LoadA"; VStr "LoadB"; VStr "Load1"] 2 (VInt 2)
              eq_refl eq_refl eq_refl eq_refl eq_refl eq_refl eq_refl eq_refl eq_refl
              eq_refl Hone) as [(Hloc & _ & Hrow) _].
  split; [exact Hloc|].
  apply Hrow. reflexivity.
Defined.

(** C8, as amended.  For a well-formed binding path that resolves (the
    tables and the field exist, the definition table has a column [name]
    with one cell per row, the index has no repeated label), the number of
    rows matching the component name raises no error on the input path:
    the write returns normally and afterwards every row whose name is the
    component's holds the written value while every other row keeps its
    cell; so nothing is written when no row matches, and all matching
    rows are written when several do.  On the output path a component
    name that matches no row makes the read fail with a lookup error
    ([KeyError] or [IndexError]). *)
Theorem write_reaches_every_match (n : Net) (h : list DataFrame)
    (key classname componentname parametername : string)
    (t : nat) (tdf : DataFrame) (names col : list value) (val : value) :
  parse key = Ok (classname, componentname, parametername) ->
  bound n h classname t tdf names ->
  getitem tdf parametername = Ok col ->
  unique (df_index tdf) = true ->
  (exists (h' : list DataFrame) (tdf' : DataFrame) (col' : list value),
     set_input n key val h = (Ok tt, h')
     /\ h' !! t = Some tdf'
     /\ df_index tdf' = df_index tdf
     /\ getitem tdf' parametername = Ok col'
     /\ forall (p : nat) (name c : value),
          names !! p = Some name -> col !! p = Some c ->
          col' !! p = Some (if eq_str componentname name then val else c))
  /\ ((forall name : value, name ∈ names -> eq_str componentname name = false) ->
      exists e : exn,
        (e = KeyError \/ e = IndexError)
        /\ IOBinding.get_output n key h = (Raise e, h)).
Proof.
  intros Hparse Hb Hcol Hu. split.
  - exists (<[t := mkDataFrame (df_index tdf)
                     (assoc_set parametername
                        (mask_set (map (eq_str componentname) names) col val)
                        (df_columns tdf))]> h).
    eexists. eexists. split; [|split; [|split; [|split]]].
    + apply (set_input_bound n h key classname componentname parametername); assumption.
    + apply list_lookup_insert_eq.
      destruct Hb as (? & ? & ? & ? & ? & Htdf & _).
      apply lookup_lt_Some in Htdf. exact Htdf.
    + reflexivity.
    + unfold getitem in *. simpl.
      destruct (assoc parametername (df_columns tdf)) as [col0|] eqn:E; [|discriminate].
      rewrite (assoc_assoc_set _ _ _ _ E). reflexivity.
    + intros p name c Hname Hc.
      apply mask_set_lookup; [|exact Hc].
      rewrite list_lookup_fmap, Hname. reflexivity.
  - intros Hnone.
    assert (Hix : index_mask (df_index tdf) (map (eq_str componentname) names) = Ok []).
    { apply index_mask_none.
      - destruct Hb as (? & ? & ? & ? & ? & ? & ? & ? & ? & Hlen).
        rewrite length_map. congruence.
      - intros b Hb'. apply list_elem_of_fmap in Hb' as (name & -> & Hname).
        apply Hnone. exact Hname. }
    rewrite (get_output_bound n h key classname componentname parametername
               t tdf names col [] Hparse Hb Hcol Hix).
    unfold IOBinding.first_of.
    assert (Hrows : IOBinding.rows_at (df_index tdf) col [] = []).
    { clear. revert col. induction (df_index tdf) as [|i index IH]; intros [|c col];
        simpl; auto. }
    rewrite Hrows.
    destruct (IOBinding.numeric_index (df_index tdf));
      [exists KeyError|exists IndexError]; split; auto.
Qed.

Lemma example_bound_sgen :
  bound Example.network Example.store0 "sgen" 2 Example.sgen_table
    [VStr "PV"; VStr "PV"].
Proof. exists "sgen", 2%nat, Example.sgen_table. repeat split. Qed.

Lemma write_reaches_every_match_witness :
  exists (h' : list DataFrame) (tdf' : DataFrame) (col' : list value),
    set_input Example.network "sgen.PV.p_mw" (VFloat 7) Example.store0 = (Ok tt, h')
    /\ h' !! 2%nat = Some tdf'
    /\ df_index tdf' = df_index Example.sgen_table
    /\ getitem tdf' "p_mw" = Ok col'
    /\ forall (p : nat) (name c : value),
         [VStr "PV"; VStr "PV"] !! p = Some name ->
         [VFloat 4; VFloat 5] !! p = Some c ->
         col' !! p = Some (if eq_str "PV" name then VFloat 7 else c).
Proof.
  exact (proj1 (write_reaches_every_match Example.network Example.store0
                  "sgen.PV.p_mw" "sgen" "PV" "p_mw" 2 Example.sgen_table
                  [VStr "PV"; VStr "PV"] [VFloat 4; VFloat 5] (VFloat 7)
                  eq_refl example_bound_sgen eq_refl eq_refl)).
Defined.

(** C8, counterexample.  A component name that matches no row of [load]
    raises nothing on the input path, and the store stays as it was; a
    name carried by both rows of [sgen] raises nothing either, and both
    rows are written. *)
Lemma unmatched_and_repeated_names_write :
  set_input Example.network "load.Nowhere.p_mw" (VFloat 7) Example.store0
  = (Ok tt, Example.store0)
  /\ set_input Example.network "sgen.PV.p_mw" (VFloat 7) Example.store0
     = (Ok tt,
        [Example.load_table; Example.res_load_table;
         mkDataFrame [VInt 0; VInt 1]
           [("name", [VStr "PV"; VStr "PV"]); ("p_mw", [VFloat 7; VFloat 7])]]).
Proof. split; reflexivity. Qed.

End BinderClaims.

(** ** I/O binding layer: declarations *)

Section DeclarationFacts.

Import IOBinding.

Lemma elem_of_declared (vars : gmap string (list string)) (kind : string)
    (define : list string -> AdapterCall) (c : AdapterCall) :
  c ∈ declared vars kind define -> exists names, vars !! kind = Some names /\ c = define names.
Proof.
  unfold declared. destruct (vars !! kind) as [names|]; intros H.
  - apply list_elem_of_singleton in H. eauto.
  - inversion H.
Qed.

(** Inputs and parameters are declared on the channel of their own kind. *)
Lemma inputs_and_parameters_on_their_channel (n : Net) (k : Kind) (names : list string) :
  (forall vars, fmi_input_vars n = Some vars -> vars !! kind_name k = Some names ->
     Define RInput k names ∈ _initialize_fmi_inputs n)
  /\ (forall vars, fmi_parameters n = Some vars -> vars !! kind_name k = Some names ->
        Define RParameter k names ∈ _initialize_fmi_inputs n).
Proof.
  split; intros vars Hvars Hk; unfold _initialize_fmi_inputs; rewrite Hvars;
    unfold declared; destruct k; cbn [kind_name] in Hk; rewrite Hk;
    unfold defineRealInputs, defineIntegerInputs, defineBooleanInputs, defineStringInputs,
      defineRealParameters, defineIntegerParameters, defineBooleanParameters,
      defineStringParameters; set_solver.
Qed.

(** Every declaration of outputs goes to the Real channel, whatever the
    kind the network declares them under. *)
Lemma outputs_on_real_channel (n : Net) (k : Kind) (names : list string) :
  Define ROutput k names ∈ _initialize_fmi_inputs n -> k = KReal.
Proof.
  unfold _initialize_fmi_inputs. rewrite !elem_of_app.
  intros [H|[H|H]].
  - destruct (fmi_input_vars n) as [vars|]; [|inversion H].
    rewrite !elem_of_app in H.
    destruct H as [H|[H|[H|H]]]; apply elem_of_declared in H as (? & _ & H);
      discriminate.
  - destruct (fmi_output_vars n) as [vars|]; [|inversion H].
    rewrite !elem_of_app in H.
    destruct H as [H|[H|[H|H]]]; apply elem_of_declared in H as (? & _ & H);
      injection H as -> _; reflexivity.
  - destruct (fmi_parameters n) as [vars|]; [|inversion H].
    rewrite !elem_of_app in H.
    destruct H as [H|[H|[H|H]]]; apply elem_of_declared in H as (? & _ & H);
      discriminate.
Qed.

(** C2, the code at a failing input.  The example network declares one
    Real input and one Integer output, [load.Load1.bus]: the input is
    registered by [defineRealInputs], but the Integer output is registered
    by [defineRealOutputs], and no call registers it as an Integer
    output. *)
Theorem integer_output_declared_as_real :
  fmi_output_vars Example.network = Some {["Integer" := ["load.Load1.bus"]]}
  /\ _initialize_fmi_inputs Example.network
     = [defineRealInputs ["load.Load1.p_mw"]; defineRealOutputs ["load.Load1.bus"]]
  /\ defineIntegerOutputs ["load.Load1.bus"] ∉ _initialize_fmi_inputs Example.network.
Proof.
  split; [reflexivity|]. split; [reflexivity|].
  intros H. apply outputs_on_real_channel in H. discriminate.
Qed.

End DeclarationFacts.

(** ** Profile manager: loading *)

Section ProfileFacts.

Import Profiles.
Local Open Scope Q_scope.

(** When the rows yielded by [iterrows] are copies, the loop leaves the
    table as it found it. *)
Lemma load_rows_copies (fs : CsvFiles) (todo : list ProfileRow) (i : nat)
    (frame : list ProfileRow) :
  snd (load_rows fs false todo i frame) = frame.
Proof.
  revert i. induction todo as [|row todo IH]; intros i; simpl; [reflexivity|].
  destruct (p_profile row); [apply IH|].
  destruct (read_csv fs (p_file row) (p_column row)); [apply IH|reflexivity].
Qed.

(** When the rows are views of the table (one block of dtype object),
    a loop that ends normally has loaded every row. *)
Lemma load_rows_views (fs : CsvFiles) (todo done frame' : list ProfileRow) :
  load_rows fs true todo (length done) (done ++ todo) = (Ok tt, frame') ->
  exists todo', frame' = done ++ todo' /\ Forall2 (loaded fs) todo todo'.
Proof.
  revert done frame'. induction todo as [|row todo IH]; intros done frame' H; simpl in H.
  - injection H as <-. exists []. split; [reflexivity|constructor].
  - destruct (p_profile row) as [s|] eqn:Ep.
    + specialize (IH (done ++ [row]) frame').
      rewrite length_app, <- app_assoc in IH. simpl in IH.
      replace (length done + 1)%nat with (S (length done)) in IH by lia.
      destruct (IH H) as (todo' & -> & Hall).
      exists (row :: todo'). rewrite <- app_assoc. split; [reflexivity|].
      constructor; [|exact Hall]. unfold loaded. rewrite Ep. reflexivity.
    + destruct (read_csv fs (p_file row) (p_column row)) as [s|e] eqn:Er; [|discriminate].
      specialize (IH (done ++ [set_profile row s]) frame').
      rewrite length_app, <- app_assoc in IH. simpl in IH.
      replace (length done + 1)%nat with (S (length done)) in IH by lia.
      assert (Hins : <[length done := set_profile row s]> (done ++ row :: todo)
                     = done ++ set_profile row s :: todo).
      { rewrite insert_app_r_alt by lia. rewrite Nat.sub_diag. reflexivity. }
      rewrite Hins in H.
      destruct (IH H) as (todo' & -> & Hall).
      exists (set_profile row s :: todo'). rewrite <- app_assoc. split; [reflexivity|].
      constructor; [|exact Hall]. unfold loaded. rewrite Ep. eauto.
Qed.

Lemma load_profiles_views (fs : CsvFiles) (n n' : Net) (pf : ProfilesFrame) :
  profiles n = Some pf ->
  pf_object_block pf = true ->
  _load_profiles fs n = (Ok tt, n') ->
  exists pf', profiles n' = Some pf' /\ Forall2 (loaded fs) (pf_rows pf) (pf_rows pf').
Proof.
  intros Hpf Hview. unfold _load_profiles. rewrite Hpf, Hview.
  destruct (load_rows fs true (pf_rows pf) 0 (pf_rows pf)) as [r rows] eqn:E.
  intros [= -> <-].
  destruct (load_rows_views fs (pf_rows pf) [] rows E) as (todo' & -> & Hall).
  eexists. split; [reflexivity|exact Hall].
Qed.

(** C6, the code at a failing input.  The table [profiles] of the example
    has an integer column [column] and one profile still to be read from
    [p.csv]; the file is there and its column 1 reads as a series, yet
    after [_load_profiles] the row holds no series: the series was assigned
    to the copy of the row that [iterrows] yielded.  Had the rows been
    views of the table, the row would hold the series. *)
Theorem load_profiles_loses_series :
  read_csv Example.profile_files "p.csv" 1 = Ok (FloatSeries [(0, 1); (10, 2)])
  /\ _load_profiles Example.profile_files (Example.network_with_profiles false)
     = (Ok tt, Example.network_with_profiles false)
  /\ (forall pf, profiles (Example.network_with_profiles false) = Some pf ->
        map p_profile (pf_rows pf) = [None])
  /\ (forall pf,
        profiles (snd (_load_profiles Example.profile_files
                         (Example.network_with_profiles true))) = Some pf ->
        map p_profile (pf_rows pf) = [Some (FloatSeries [(0, 1); (10, 2)])]).
Proof.
  split; [reflexivity|]. split; [reflexivity|]. split.
  - intros pf [= <-]. reflexivity.
  - intros pf [= <-]. reflexivity.
Qed.

End ProfileFacts.

(** ** [init]: loading the network *)

Section InitFacts.

Variable listdir : list string.
Variable from_pickle : string -> M Net.
Variable csv : Profiles.CsvFiles.
Variable runpp : bool -> Net -> M unit.
Variable float_str : Q -> string.

Lemma load_network_no_pickle (dir : list string) (self : FMU) :
  (forall file, file ∈ dir -> PyStr.endswith file ".p" = false) ->
  load_network from_pickle dir self = (Ok tt, self).
Proof.
  induction dir as [|file dir IH]; intros H; simpl; [reflexivity|].
  rewrite (H file) by left. apply IH. intros f Hf. apply H. right. exact Hf.
Qed.

Lemma load_network_last (before after : list string) (file : string) (self : FMU) :
  PyStr.endswith file ".p" = true ->
  (forall f, f ∈ after -> PyStr.endswith f ".p" = false) ->
  (forall f h, f ∈ before ++ [file] -> PyStr.endswith f ".p" = true ->
     exists n h', from_pickle f h = (Ok n, h')) ->
  exists (n : Net) (h0 h1 : list DataFrame),
    from_pickle file h0 = (Ok n, h1)
    /\ load_network from_pickle (before ++ file :: after) self
       = (Ok tt, mkFMU (_t_start self) (Some n) h1 (files self) (calls self)).
Proof.
  intros Hfile Hafter.
  revert self. induction before as [|f before IH]; intros self Hok; simpl.
  - rewrite Hfile.
    destruct (Hok file (heap self)) as (n & h' & Hn); [left|exact Hfile|].
    exists n, (heap self), h'. split; [exact Hn|].
    unfold mbind, F_bind, on_heap, set_net. rewrite Hn. simpl.
    rewrite load_network_no_pickle by exact Hafter. reflexivity.
  - assert (Hok' : forall f0 h, f0 ∈ before ++ [file] -> PyStr.endswith f0 ".p" = true ->
                     exists n h', from_pickle f0 h = (Ok n, h')).
    { intros f0 h Hf0. apply Hok. right. exact Hf0. }
    destruct (PyStr.endswith f ".p") eqn:Ef.
    + destruct (Hok f (heap self)) as (n & h' & Hn); [left|exact Ef|].
      unfold mbind, F_bind, on_heap, set_net. rewrite Hn. simpl.
      apply (IH (mkFMU (_t_start self) (Some n) h' (files self) (calls self)) Hok').
    + apply (IH self Hok').
Qed.

(** C10.  When no name in the working directory ends in [.p], [init]
    raises [RuntimeError] and leaves the FMU uninitialised: no network, no
    declaration made, store and result files as before.  When one or
    several names end in [.p] (and each of them unpickles), no error is
    raised for their number: the loop of [init] ends normally and the
    network kept is the one unpickled from the last of them in listing
    order; [init] goes on with that network, making its declarations. *)
Theorem init_loads_last_pickle (currentCommunicationPoint : Q) (self : FMU) :
  net self = None ->
  let self1 :=
    mkFMU (Some currentCommunicationPoint) None (heap self) (files self) (calls self) in
  ((forall file, file ∈ listdir -> PyStr.endswith file ".p" = false) ->
     init listdir from_pickle csv runpp float_str currentCommunicationPoint self
     = (Raise (RuntimeError "Loading pandapower network from file failed"), self1))
  /\ (forall (before after : list string) (file : string),
        listdir = before ++ file :: after ->
        PyStr.endswith file ".p" = true ->
        (forall f, f ∈ after -> PyStr.endswith f ".p" = false) ->
        (forall f h, f ∈ before ++ [file] -> PyStr.endswith f ".p" = true ->
           exists n h', from_pickle f h = (Ok n, h')) ->
        exists (n : Net) (h0 h1 : list DataFrame),
          from_pickle file h0 = (Ok n, h1)
          /\ load_network from_pickle listdir self1
             = (Ok tt, mkFMU (Some currentCommunicationPoint) (Some n) h1
                         (files self) (calls self))
          /\ calls (snd (init listdir from_pickle csv runpp float_str
                           currentCommunicationPoint self))
             = calls self ++ IOBinding._initialize_fmi_inputs n).
Proof.
  intros Hnet self1.
  assert (Hstart : set_t_start currentCommunicationPoint self = (Ok tt, self1)).
  { unfold set_t_start, self1. rewrite Hnet. reflexivity. }
  split.
  - intros Hnone. unfold init.
    unfold mbind at 1. unfold F_bind at 1. rewrite Hstart.
    unfold mbind at 1. unfold F_bind at 1.
    rewrite load_network_no_pickle by exact Hnone.
    reflexivity.
  - intros before after file -> Hfile Hafter Hok.
    destruct (load_network_last before after file self1 Hfile Hafter Hok)
      as (n & h0 & h1 & Hn & Hload).
    exists n, h0, h1. split; [exact Hn|]. split; [exact Hload|].
    unfold init.
    unfold mbind at 1. unfold F_bind at 1. rewrite Hstart.
    unfold mbind at 1. unfold F_bind at 1. rewrite Hload.
    unfold mbind, F_bind, call, on_heap, get_net, get_result_file, write_file, raise.
    simpl.
    destruct (Profiles._load_profiles csv n) as [[[]|e] n']; simpl; [|reflexivity].
    destruct (runpp false n' h1) as [[[]|e] h2]; simpl; [|reflexivity].
    destruct (get_pp_results float_str n' 0 h2) as [[r|e] h3]; simpl; [|reflexivity].
    destruct (result_file n'); reflexivity.
Qed.

End InitFacts.

Lemma init_loads_last_pickle_witness :
  init ["readme.txt"] Example.pickles Example.profile_files Example.solver (fun _ => "") 0
    Example.fresh
  = (Raise (RuntimeError "Loading pandapower network from file failed"),
     mkFMU (Some 0%Q) None [] ∅ [])
  /\ exists (n : Net) (h0 h1 : list DataFrame),
       Example.pickles "b.p" h0 = (Ok n, h1)
       /\ load_network Example.pickles ["a.p"; "notes.txt"; "b.p"; "c.csv"]
            (mkFMU (Some 0%Q) None [] ∅ [])
          = (Ok tt, mkFMU (Some 0%Q) (Some n) h1 ∅ [])
       /\ calls (snd (init ["a.p"; "notes.txt"; "b.p"; "c.csv"] Example.pickles
                        Example.profile_files Example.solver (fun _ => "") 0 Example.fresh))
          = [] ++ IOBinding._initialize_fmi_inputs n.
Proof.
  split.
  - apply (proj1 (init_loads_last_pickle ["readme.txt"] Example.pickles
                    Example.profile_files Example.solver (fun _ => "") 0 Example.fresh
                    eq_refl)).
    intros file Hfile. apply list_elem_of_singleton in Hfile. subst file. reflexivity.
  - apply (proj2 (init_loads_last_pickle ["a.p"; "notes.txt"; "b.p"; "c.csv"]
                    Example.pickles Example.profile_files Example.solver (fun _ => "") 0
                    Example.fresh eq_refl) ["a.p"; "notes.txt"] ["c.csv"] "b.p").
    + reflexivity.
    + reflexivity.
    + intros f Hf. apply list_elem_of_singleton in Hf. subst f. reflexivity.
    + intros f h _ _. eexists. eexists. reflexivity.
Defined.

(** ** Result recorder: the network is left as it is *)

Section RecorderFacts.

Variable float_str : Q -> string.

Lemma frames_ret {A : Type} (k : nat) (P : A -> Prop) (a : A) :
  P a -> frames k P (mret a).
Proof.
  intros Ha h Hk. simpl. split; [exact Hk|]. split; [reflexivity|].
  intros a' [= <-]. exact Ha.
Qed.

Lemma frames_bind {A B : Type} (k : nat) (P : A -> Prop) (Q : B -> Prop)
    (m : M A) (f : A -> M B) :
  frames k P m -> (forall a, P a -> frames k Q (f a)) -> frames k Q (m ≫= f).
Proof.
  intros Hm Hf h Hk. destruct (Hm h Hk) as (Hlen & Hsame & HP).
  unfold mbind, M_bind. destruct (m h) as [[a|e] h'] eqn:E; simpl in *.
  - destruct (Hf a (HP a eq_refl) h' Hlen) as (Hlen' & Hsame' & HQ).
    split; [exact Hlen'|]. split; [|exact HQ].
    intros l Hl. rewrite Hsame' by exact Hl. apply Hsame. exact Hl.
  - split; [exact Hlen|]. split; [exact Hsame|]. discriminate.
Qed.

Lemma frames_lift {A : Type} (k : nat) (r : res A) : frames k (fun _ => True) (lift r).
Proof. intros h Hk. simpl. auto. Qed.

Lemma frames_getattr (k : nat) (n : Net) (name : string) :
  frames k (fun _ => True) (getattr n name).
Proof. intros h Hk. unfold getattr. destruct (assoc name (tables n)); simpl; auto. Qed.

Lemma frames_load (k : nat) (l : nat) : frames k (fun _ => True) (load l).
Proof. intros h Hk. unfold load. destruct (h !! l); simpl; auto. Qed.

(** A new object gets a reference beyond the ones in use. *)
Lemma frames_alloc (k : nat) (d : DataFrame) : frames k (fun l => k <= l) (alloc d).
Proof.
  intros h Hk. unfold alloc. simpl. rewrite length_app. simpl.
  split; [lia|]. split.
  - intros l Hl. apply lookup_app_l. lia.
  - intros a [= <-]. exact Hk.
Qed.

(** Mutating an object beyond [k] leaves the first [k] alone. *)
Lemma frames_store (k l : nat) (d : DataFrame) :
  k <= l -> frames k (fun _ => True) (store l d).
Proof.
  intros Hl h Hk. unfold store. simpl. rewrite length_insert.
  split; [exact Hk|]. split; [|auto].
  intros l' Hl'. apply list_lookup_insert_ne. lia.
Qed.

Lemma frames_copy_results (k : nat) (n : Net) (keys : list string) :
  frames k (Forall (fun entry : string * nat => k <= snd entry)) (copy_results n keys).
Proof.
  induction keys as [|key keys IH]; simpl.
  - apply frames_ret. constructor.
  - destruct (PyStr.startswith key "res_"); [|exact IH].
    eapply frames_bind; [apply frames_getattr|]. intros t _.
    eapply frames_bind; [apply frames_load|]. intros tdf _.
    destruct (df_empty tdf); [exact IH|].
    eapply frames_bind; [apply frames_getattr|]. intros t' _.
    eapply frames_bind; [apply frames_load|]. intros tdf' _.
    eapply frames_bind; [apply frames_alloc|]. intros c Hc.
    eapply frames_bind; [exact IH|]. intros df_dict Hdict.
    apply frames_ret. constructor; [exact Hc|exact Hdict].
Qed.

Lemma frames_flatten (k : nat) (n : Net) (df_dict : list (string * nat)) :
  Forall (fun entry : string * nat => k <= snd entry) df_dict ->
  frames k (fun _ => True) (flatten float_str n df_dict).
Proof.
  induction df_dict as [|[df_name df] df_dict IH]; intros Hall; simpl.
  - apply frames_ret. exact I.
  - inversion Hall as [|? ? Hdf Hrest]; subst. simpl in Hdf.
    eapply frames_bind; [apply frames_getattr|]. intros d _.
    eapply frames_bind; [apply frames_load|]. intros ddf _.
    eapply frames_bind; [apply frames_lift|]. intros names _.
    eapply frames_bind; [apply frames_load|]. intros cdf _.
    eapply frames_bind; [apply (frames_store k df _ Hdf)|]. intros _ _.
    eapply frames_bind; [apply frames_load|]. intros cdf' _.
    eapply frames_bind; [exact (IH Hrest)|]. intros columns _.
    apply frames_ret. exact I.
Qed.

Lemma frames_get_pp_results (k : nat) (n : Net) (time : Q) :
  frames k (fun _ => True) (get_pp_results float_str n time).
Proof.
  unfold get_pp_results.
  eapply frames_bind; [apply frames_copy_results|]. intros df_dict Hdict.
  destruct df_dict as [|entry df_dict]; [apply frames_lift|].
  eapply frames_bind; [exact (frames_flatten k n _ Hdict)|]. intros columns _.
  apply frames_ret. exact I.
Qed.

(** C9.  Flattening the results leaves the network model as it is: after
    [get_pp_results], whether it returns the row or raises, every object
    that was in the store holds what it held before; so every table of
    the network, result table or definition table, has the index and the
    contents it had.  This holds for every network, in particular for
    those with a non-empty result table, where the call goes on to rename
    the index of its copies: in the example the copy of [res_load], a new
    object, is indexed by the component names while [res_load] itself
    keeps its index. *)
Theorem get_pp_results_leaves_network (n : Net) (time : Q) (h : list DataFrame) :
  (forall l : nat, l < length h ->
     snd (get_pp_results float_str n time h) !! l = h !! l)
  /\ (forall (name : string) (t : nat) (tdf : DataFrame),
        assoc name (tables n) = Some t -> h !! t = Some tdf ->
        snd (get_pp_results float_str n time h) !! t = Some tdf)
  /\ (exists row : ResultFrame,
        fst (get_pp_results float_str Example.network time Example.store0) = Ok row)
  /\ snd (get_pp_results float_str Example.network time Example.store0)
     = Example.store0
       ++ [mkDataFrame [VStr "LoadA"; VStr "LoadB"; VStr "Load1"]
             (df_columns Example.res_load_table)].
Proof.
  pose proof (frames_get_pp_results (length h) n time h (le_n _)) as (_ & Hsame & _).
  split; [exact Hsame|]. split.
  - intros name t tdf _ Htdf. rewrite Hsame; [exact Htdf|].
    apply lookup_lt_Some in Htdf. exact Htdf.
  - split; [eexists|]; reflexivity.
Qed.

End RecorderFacts.

Lemma get_pp_results_leaves_network_witness :
  snd (get_pp_results (fun _ => "") Example.network 0 Example.store0) !! 1%nat
  = Some Example.res_load_table
  /\ snd (get_pp_results (fun _ => "") Example.network 0 Example.store0) !! 0%nat
     = Some Example.load_table.
Proof.
  split.
  - apply (proj1 (proj2 (get_pp_results_leaves_network (fun _ => "") Example.network 0 Example.store0))
             "res_load"); reflexivity.
  - apply (proj1 (get_pp_results_leaves_network (fun _ => "") Example.network 0 Example.store0) 0%nat).
    simpl. lia.
Defined.

(** ** Interpolator *)

Section InterpolatorFacts.

Import Interpolator.
Local Open Scope Q_scope.

Lemma Qltb_true (a b : Q) : a < b -> Qltb a b = true.
Proof.
  intros H. unfold Qltb. destruct (Qle_bool b a) eqn:E; [|reflexivity].
  apply Qle_bool_iff in E. lra.
Qed.

Lemma Qltb_false (a b : Q) : b <= a -> Qltb a b = false.
Proof. intros H. unfold Qltb. apply Qle_bool_iff in H. rewrite H. reflexivity. Qed.

Lemma Qle_bool_false (a b : Q) : b < a -> Qle_bool a b = false.
Proof.
  intros H. destruct (Qle_bool a b) eqn:E; [|reflexivity].
  apply Qle_bool_iff in E. lra.
Qed.

Lemma Qeq_bool_false (a b : Q) : ~ a == b -> Qeq_bool a b = false.
Proof.
  intros H. destruct (Qeq_bool a b) eqn:E; [|reflexivity].
  apply Qeq_bool_iff in E. contradiction.
Qed.

Lemma sorted_split (pre post : list Q) (x : Q) :
  StronglySorted Qlt (pre ++ x :: post) ->
  Forall (fun t => t < x) pre /\ Forall (fun t => x < t) post
  /\ StronglySorted Qlt pre /\ StronglySorted Qlt post.
Proof.
  induction pre as [|a pre IH]; simpl; intros H.
  - apply StronglySorted_inv in H as [Hs Hall]. repeat split; auto; constructor.
  - apply StronglySorted_inv in H as [Hs Hall].
    destruct (IH Hs) as (Hpre & Hpost & Hspre & Hspost).
    rewrite List.Forall_app in Hall. destruct Hall as [Hall1 Hall2].
    repeat split; auto.
    + constructor; [|exact Hpre]. inversion Hall2; assumption.
    + constructor; assumption.
Qed.

Lemma sorted_is_unique (index : list Q) :
  StronglySorted Qlt index -> is_unique index = true.
Proof.
  induction 1 as [|t index Hs IH Hall]; simpl; [reflexivity|].
  rewrite IH, andb_true_r. apply negb_true_iff.
  clear -Hall. induction Hall as [|u index Hu Hall IH]; simpl; [reflexivity|].
  rewrite IH, orb_false_r. apply Qeq_bool_false. lra.
Qed.

Lemma sorted_is_monotonic (index : list Q) :
  StronglySorted Qlt index -> is_monotonic_increasing index = true.
Proof.
  induction 1 as [|t index Hs IH Hall]; [reflexivity|].
  cbn [is_monotonic_increasing]. destruct index as [|u index]; [reflexivity|].
  rewrite IH, andb_true_r. apply Qle_bool_iff.
  inversion Hall; subst. lra.
Qed.

Lemma pad_found (pre post : list Q) (t1 time : Q) (pos : nat) (found : option nat) :
  Forall (fun t => t <= time) pre -> t1 <= time -> Forall (fun t => time < t) post ->
  pad (pre ++ t1 :: post) time pos found = Some (pos + length pre)%nat.
Proof.
  intros Hpre H1 Hpost. revert pos found.
  induction Hpre as [|a pre Ha Hpre IH]; intros pos found; simpl.
  - apply Qle_bool_iff in H1. rewrite H1. rewrite Nat.add_0_r.
    destruct Hpost as [|t2 post H2 Hpost]; simpl; [reflexivity|].
    rewrite Qle_bool_false by exact H2. reflexivity.
  - apply Qle_bool_iff in Ha. rewrite Ha. rewrite IH. f_equal. lia.
Qed.

Lemma backfill_found (pre post : list Q) (t2 time : Q) (pos : nat) :
  Forall (fun t => t < time) pre -> time <= t2 ->
  backfill (pre ++ t2 :: post) time pos = Some (pos + length pre)%nat.
Proof.
  intros Hpre H2. revert pos.
  induction Hpre as [|a pre Ha Hpre IH]; intros pos; simpl.
  - apply Qle_bool_iff in H2. rewrite H2. f_equal. lia.
  - rewrite Qle_bool_false by exact Ha. rewrite IH. f_equal. lia.
Qed.

Lemma py_index_middle {A : Type} (pre post : list A) (x : A) :
  py_index (pre ++ x :: post) (length pre) = Ok x.
Proof.
  unfold py_index. rewrite lookup_app_r by lia. rewrite Nat.sub_diag. reflexivity.
Qed.

Lemma py_index_last {A : Type} (pre : list A) (x : A) :
  py_index (pre ++ [x]) (length (pre ++ [x]) - 1) = Ok x.
Proof.
  rewrite length_app. simpl. replace (length pre + 1 - 1)%nat with (length pre) by lia.
  apply py_index_middle.
Qed.


Lemma index_first (pre post : list Q) (x : Q) :
  StronglySorted Qlt (pre ++ x :: post) ->
  exists first, py_index (pre ++ x :: post) 0 = Ok first /\ first <= x.
Proof.
  intros Hs. destruct (sorted_split _ _ _ Hs) as (Hpre & _).
  destruct pre as [|a pre]; simpl.
  - exists x. split; [reflexivity|lra].
  - exists a. split; [reflexivity|]. inversion Hpre; subst. lra.
Qed.

Lemma index_last (pre post : list Q) (x : Q) :
  StronglySorted Qlt (pre ++ x :: post) ->
  exists last, py_index (pre ++ x :: post) (length (pre ++ x :: post) - 1) = Ok last
               /\ x <= last.
Proof.
  intros Hs. destruct (sorted_split _ _ _ Hs) as (_ & Hpost & _).
  destruct post as [|z post' _] using rev_ind.
  - exists x. split; [apply py_index_last|lra].
  - exists z. split.
    + replace (pre ++ x :: post' ++ [z]) with ((pre ++ x :: post') ++ [z])
        by (rewrite <- app_assoc; reflexivity).
      apply py_index_last.
    + rewrite List.Forall_app in Hpost. destruct Hpost as [_ Hz].
      inversion Hz; subst. lra.
Qed.

Ltac run H := rewrite H; cbn [mbind res_mbind res_bind mret res_ret].

(** C4, as amended.  For every non-empty float series whose time index is
    strictly increasing, [get_interpolated_row] returns the first value
    when the query time is below the first index, the last value when it
    is above the last index, the stored value itself when it equals an
    index, and otherwise, between two neighbouring samples [(t1, v1)] and
    [(t2, v2)], the linear interpolation
    [v1 + (time - t1) * (v2 - v1) / (t2 - t1)]. *)
Theorem interpolation_on_increasing_series (l : list (Q * Q)) (time : Q) :
  StronglySorted Qlt (map fst l) ->
  (forall t0 v0 l', l = (t0, v0) :: l' -> time < t0 ->
     get_interpolated_row (FloatSeries l) time = Ok (VFloat v0))
  /\ (forall l' tn vn, l = l' ++ [(tn, vn)] -> tn < time ->
        get_interpolated_row (FloatSeries l) time = Ok (VFloat vn))
  /\ (forall l1 t v l2, l = l1 ++ (t, v) :: l2 -> time == t ->
        get_interpolated_row (FloatSeries l) time = Ok (VFloat v))
  /\ (forall l1 t1 v1 t2 v2 l2,
        l = l1 ++ (t1, v1) :: (t2, v2) :: l2 -> t1 < time -> time < t2 ->
        get_interpolated_row (FloatSeries l) time
        = Ok (VFloat (v1 + (time - t1) * (v2 - v1) / (t2 - t1)))).
Proof.
  intros Hs. split; [|split; [|split]].
  - intros t0 v0 l' -> Hlt. unfold get_interpolated_row. simpl s_index.
    change (py_index (t0 :: map fst l') 0) with (Ok (A := Q) t0).
    cbn [mbind res_mbind res_bind]. rewrite Qltb_true by exact Hlt. reflexivity.
  - intros l' tn vn -> Hlt. unfold get_interpolated_row. cbv zeta. cbn [s_index iloc].
    rewrite !map_app in *. cbn [map fst snd] in *.
    destruct (index_first _ _ _ Hs) as (first & Hfirst & Hle).
    run Hfirst. rewrite Qltb_false by lra.
    run (py_index_last (map fst l') tn). rewrite Qltb_true by exact Hlt.
    replace (length (map fst l' ++ [tn])) with (length (map snd l' ++ [vn]))
      by (rewrite !length_app, !length_map; reflexivity).
    run (py_index_last (map snd l') vn). reflexivity.
  - intros l1 t v l2 -> Heq. unfold get_interpolated_row. cbv zeta. cbn [s_index iloc].
    rewrite !map_app in *. cbn [map fst snd] in *.
    destruct (index_first _ _ _ Hs) as (first & Hfirst & Hle).
    destruct (index_last _ _ _ Hs) as (last & Hlast & Hge).
    destruct (sorted_split _ _ _ Hs) as (Hpre & Hpost & _).
    run Hfirst. rewrite Qltb_false by lra.
    run Hlast. rewrite Qltb_false by lra.
    unfold get_loc.
    rewrite (sorted_is_unique _ Hs), (sorted_is_monotonic _ Hs). cbn [negb].
    rewrite (pad_found (map fst l1) (map fst l2) t time).
    + cbn [mbind res_mbind res_bind Nat.add].
      replace (length (map fst l1)) with (length l1) by (rewrite length_map; reflexivity).
      replace (length l1) with (length (map fst l1)) at 1 by apply length_map.
      run (py_index_middle (map fst l1) (map fst l2) t).
      replace (Qeq_bool time t) with true by (symmetry; apply Qeq_bool_iff; exact Heq).
        replace (length l1) with (length (map snd l1)) by apply length_map.
      run (py_index_middle (map snd l1) (map snd l2) v). reflexivity.
    + eapply Forall_impl; [exact Hpre|]. intros a Ha. simpl in Ha. lra.
    + lra.
    + eapply Forall_impl; [exact Hpost|]. intros a Ha. simpl in Ha. lra.
  - intros l1 t1 v1 t2 v2 l2 -> H1 H2. unfold get_interpolated_row. cbv zeta. cbn [s_index iloc].
    rewrite !map_app in *. cbn [map fst snd] in *.
    destruct (index_first _ _ _ Hs) as (first & Hfirst & Hle).
    destruct (index_last _ _ _ Hs) as (last & Hlast & Hge).
    destruct (sorted_split _ _ _ Hs) as (Hpre & Hpost & _).
    run Hfirst. rewrite Qltb_false by lra.
    assert (Ht2 : t2 <= last).
    { inversion Hpost as [|? ? H12 Hpost']; subst.
      replace (map fst l1 ++ t1 :: t2 :: map fst l2)
        with ((map fst l1 ++ [t1]) ++ t2 :: map fst l2) in Hs, Hlast
        by (rewrite <- app_assoc; reflexivity).
      destruct (index_last _ _ _ Hs) as (last' & Hlast' & Hge').
      rewrite Hlast in Hlast'. injection Hlast' as <-. exact Hge'. }
    run Hlast. rewrite Qltb_false by lra.
    unfold get_loc.
    rewrite (sorted_is_unique _ Hs), (sorted_is_monotonic _ Hs). cbn [negb].
    rewrite (pad_found (map fst l1) (t2 :: map fst l2) t1 time).
    + cbn [mbind res_mbind res_bind Nat.add].
      run (py_index_middle (map fst l1) (t2 :: map fst l2) t1).
      rewrite Qeq_bool_false by lra.
      replace (map fst l1 ++ t1 :: t2 :: map fst l2)
        with ((map fst l1 ++ [t1]) ++ t2 :: map fst l2)
        by (rewrite <- app_assoc; reflexivity).
      rewrite (backfill_found (map fst l1 ++ [t1]) (map fst l2) t2 time).
      * cbn [mbind res_mbind res_bind Nat.add].
        run (py_index_middle (map fst l1 ++ [t1]) (map fst l2) t2).
            replace (length (map fst l1)) with (length (map snd l1))
          by (rewrite !length_map; reflexivity).
        run (py_index_middle (map snd l1) (v2 :: map snd l2) v1).
        replace (map snd l1 ++ v1 :: v2 :: map snd l2)
          with ((map snd l1 ++ [v1]) ++ v2 :: map snd l2)
          by (rewrite <- app_assoc; reflexivity).
        replace (length (map fst l1 ++ [t1])) with (length (map snd l1 ++ [v1]))
          by (rewrite !length_app, !length_map; reflexivity).
        run (py_index_middle (map snd l1 ++ [v1]) (map snd l2) v2). reflexivity.
      * apply Forall_app. split.
        -- eapply Forall_impl; [exact Hpre|]. intros a Ha. simpl in Ha. lra.
        -- constructor; [exact H1|constructor].
      * lra.
    + eapply Forall_impl; [exact Hpre|]. intros a Ha. simpl in Ha. lra.
    + lra.
    + constructor; [exact H2|].
      assert (Hs' : StronglySorted Qlt ((map fst l1 ++ [t1]) ++ t2 :: map fst l2))
        by (rewrite <- app_assoc; exact Hs).
      destruct (sorted_split _ _ _ Hs') as (_ & Hpost2 & _).
      eapply Forall_impl; [exact Hpost2|]. intros a Ha. simpl in Ha. lra.
Qed.

(** An index whose last label is below its first one (a decreasing index
    of two or more labels) never reaches [get_loc]. *)
Lemma reversed_index_extrapolates (df : Series) (time first last : Q) :
  py_index (s_index df) 0 = Ok first ->
  py_index (s_index df) (length (s_index df) - 1) = Ok last ->
  last < first ->
  get_interpolated_row df time
  = if Qltb time first then iloc df 0 else iloc df (length (s_index df) - 1).
Proof.
  intros Hfirst Hlast Hrev. unfold get_interpolated_row. cbv zeta.
  run Hfirst. destruct (Qltb time first) eqn:E; [reflexivity|].
  run Hlast. rewrite Qltb_true; [reflexivity|].
  unfold Qltb in E. apply negb_false_iff, Qle_bool_iff in E. lra.
Qed.

Lemma interpolation_on_increasing_series_witness :
  get_interpolated_row (FloatSeries [(0, 1); (5, 2); (10, 4)]) 4
  = Ok (VFloat (1 + (4 - 0) * (2 - 1) / (5 - 0)))
  /\ get_interpolated_row (FloatSeries [(0, 1); (5, 2); (10, 4)]) 5 = Ok (VFloat 2).
Proof.
  assert (Hs : StronglySorted Qlt (map fst [(0, 1); (5, 2); (10, 4)])).
  { simpl. repeat constructor. }
  destruct (interpolation_on_increasing_series [(0, 1); (5, 2); (10, 4)] 4 Hs)
    as (_ & _ & _ & Hmid).
  destruct (interpolation_on_increasing_series [(0, 1); (5, 2); (10, 4)] 5 Hs)
    as (_ & _ & Hexact & _).
  split.
  - apply (Hmid [] 0 1 5 2 [(10, 4)]); reflexivity.
  - apply (Hexact [(0, 1)] 5 2 [(10, 4)]); reflexivity.
Defined.

(** C4, counterexample.  On a float series whose index is not increasing,
    a query time inside the range is not interpolated between the samples
    that bound it (here [(3, 3)] and [(5, 2)]): the lookup of the position
    raises [ValueError]. *)
Lemma unsorted_series_raises :
  get_interpolated_row (FloatSeries [(0, 1); (5, 2); (3, 3); (10, 4)]) 4
  = Raise ValueError.
Proof. reflexivity. Qed.

End InterpolatorFacts.

(** * Further properties of the code *)

(** ** Step scheduler: the computation over the rationals *)

Section SchedulerMore.

Import Scheduler.
Local Open Scope Q_scope.

Lemma py_mod_range (x c : Q) : 0 < c -> 0 <= py_mod x c /\ py_mod x c < c.
Proof.
  intros Hc. unfold py_mod.
  pose proof (Qfloor_le (x / c)) as Hlo.
  pose proof (Qlt_floor (x / c)) as Hhi.
  rewrite inject_Z_plus in Hhi.
  assert (Hx : x == (x / c) * c) by (field; lra).
  apply (Qmult_le_r _ _ c Hc) in Hlo.
  apply (Qmult_lt_r _ _ c Hc) in Hhi.
  change (inject_Z 1) with 1 in Hhi.
  generalize dependent (inject_Z (Qfloor (x / c))). intros f Hlo Hhi.
  generalize dependent (x / c). intros q Hx Hlo Hhi.
  split; nra.
Qed.

(** [x] and [py_mod x c] differ by a whole number of cadences. *)
Lemma py_mod_congruent (x c : Q) :
  x == inject_Z (Qfloor (x / c)) * c + py_mod x c.
Proof. unfold py_mod. ring. Qed.

Lemma np_arange_spec (a stop c : Q) :
  0 < c ->
  exists n : nat,
    np_arange a stop c = map (fun i : nat => a + inject_Z (Z.of_nat i) * c) (seq 0 n)
    /\ (forall i : nat, (i < n)%nat -> a + inject_Z (Z.of_nat i) * c < stop)
    /\ ~ (a + inject_Z (Z.of_nat n) * c < stop).
Proof.
  intros Hc. unfold np_arange.
  set (q := (stop - a) / c).
  assert (Hq : stop - a == q * c) by (unfold q; field; lra).
  exists (Z.to_nat (Qceiling q)). split; [reflexivity|]. split.
  - intros i Hi.
    assert (Hz : (Z.of_nat i <= Qceiling q - 1)%Z) by lia.
    pose proof (Qceiling_lt q) as Hlt.
    assert (Hle : inject_Z (Z.of_nat i) <= inject_Z (Qceiling q - 1)).
    { rewrite <- Zle_Qle. exact Hz. }
    assert (Hi' : inject_Z (Z.of_nat i) < q) by lra.
    apply (Qmult_lt_r _ _ c Hc) in Hi'.
    generalize dependent (inject_Z (Z.of_nat i)). intros. clearbody q. nra.
  - intros Hlt.
    pose proof (Qle_ceiling q) as Hle.
    assert (Hz : (Qceiling q <= Z.of_nat (Z.to_nat (Qceiling q)))%Z) by lia.
    rewrite Zle_Qle in Hz.
    assert (Hn : q <= inject_Z (Z.of_nat (Z.to_nat (Qceiling q)))) by lra.
    apply (Qmult_le_r _ _ c Hc) in Hn.
    generalize dependent (inject_Z (Z.of_nat (Z.to_nat (Qceiling q)))). intros. clearbody q. nra.
Qed.

(** Over the rationals the lines compute the on-cadence points: with
    [phase = (start - t_start) mod c], in [0, c) and a whole number of
    cadences below [start - t_start], the added instants are
    [first + i * c] for [first = start + (c - phase)], exactly those
    strictly below [start + stepSize]. *)
Lemma sim_steps_over_rationals (start stepSize lastInitTime c : Q) :
  0 < c ->
  let phase := py_mod (start - lastInitTime) c in
  let first := start + (c - phase) in
  (0 <= phase /\ phase < c
   /\ exists k : Z, start - lastInitTime == inject_Z k * c + phase)
  /\ (phase == 0 -> first == start + c)
  /\ (exists n : nat,
        sim_steps start stepSize lastInitTime (Some c)
        = Ok (start :: map (fun i : nat => first + inject_Z (Z.of_nat i) * c) (seq 0 n))
        /\ (forall i : nat, (i < n)%nat ->
              first + inject_Z (Z.of_nat i) * c < start + stepSize)
        /\ ~ (first + inject_Z (Z.of_nat n) * c < start + stepSize))
  /\ sim_steps 0 10 0 (Some 3) = Ok [0; 3; 6; 9]
  /\ sim_steps start stepSize lastInitTime None = Ok [start].
Proof.
  intros Hc phase first.
  destruct (py_mod_range (start - lastInitTime) c Hc) as [Hlo Hhi].
  split; [|split; [|split; [|split]]].
  - split; [exact Hlo|]. split; [exact Hhi|].
    exists (Qfloor ((start - lastInitTime) / c)). apply py_mod_congruent.
  - intros H0. unfold first. rewrite H0. ring.
  - destruct (np_arange_spec first (start + stepSize) c Hc) as (n & Hn & Hlt & Hge).
    exists n. split; [|split; assumption].
    unfold sim_steps.
    destruct (Qeq_bool c 0) eqn:E.
    + apply Qeq_bool_eq in E. lra.
    + fold phase. fold first. rewrite Hn. reflexivity.
  - reflexivity.
  - reflexivity.
Qed.




End SchedulerMore.


(** ** Interpolator: totality, bounds and nearest values *)

Section InterpolatorMore.

Import Interpolator.
Local Open Scope Q_scope.

Ltac step H := rewrite H; cbn [mbind res_mbind res_bind mret res_ret].

Lemma get_loc_ffill_at (pre post : list Q) (t1 time : Q) :
  StronglySorted Qlt (pre ++ t1 :: post) ->
  t1 <= time -> Forall (fun t => time < t) post ->
  get_loc (pre ++ t1 :: post) time ffill = Ok (length pre).
Proof.
  intros Hs H1 Hpost. unfold get_loc.
  rewrite (sorted_is_unique _ Hs), (sorted_is_monotonic _ Hs). cbn [negb].
  destruct (sorted_split _ _ _ Hs) as (Hpre & _).
  rewrite (pad_found pre post t1 time); [reflexivity| |exact H1|exact Hpost].
  eapply Forall_impl; [exact Hpre|]. intros a Ha. simpl in Ha. lra.
Qed.

Lemma get_loc_bfill_at (pre post : list Q) (t2 time : Q) :
  StronglySorted Qlt (pre ++ t2 :: post) ->
  Forall (fun t => t < time) pre -> time <= t2 ->
  get_loc (pre ++ t2 :: post) time bfill = Ok (length pre).
Proof.
  intros Hs Hpre H2. unfold get_loc.
  rewrite (sorted_is_unique _ Hs), (sorted_is_monotonic _ Hs). cbn [negb].
  rewrite (backfill_found pre post t2 time 0 Hpre H2). reflexivity.
Qed.

(** A time inside the range of an increasing index is a label or lies
    strictly between two neighbouring labels. *)
Lemma locate_sample {A : Type} (l : list (Q * A)) (time first last : Q) :
  StronglySorted Qlt (map fst l) ->
  py_index (map fst l) 0 = Ok first ->
  py_index (map fst l) (length (map fst l) - 1) = Ok last ->
  first <= time -> time <= last ->
  (exists l1 t v l2, l = l1 ++ (t, v) :: l2 /\ time == t)
  \/ (exists l1 t1 v1 t2 v2 l2,
        l = l1 ++ (t1, v1) :: (t2, v2) :: l2 /\ t1 < time /\ time < t2).
Proof.
  revert first. induction l as [|[t v] l IH]; intros first Hs Hfirst Hlast H1 H2.
  - discriminate.
  - simpl in Hfirst. injection Hfirst as <-.
    destruct (Qeq_dec time t) as [Heq|Hne].
    + left. exists [], t, v, l. split; [reflexivity|exact Heq].
    + assert (Ht : t < time) by (destruct (Qlt_le_dec t time); [assumption|exfalso; apply Hne; lra]).
      destruct l as [|[t2 v2] l'].
      * simpl in Hlast. injection Hlast as <-. lra.
      * destruct (Qlt_le_dec time t2) as [Hlt|Hle].
        -- right. exists [], t, v, t2, v2, l'. repeat split; assumption.
        -- simpl in Hs. apply StronglySorted_inv in Hs as [Hs' _].
           assert (Hlast' : py_index (map fst ((t2, v2) :: l'))
                              (length (map fst ((t2, v2) :: l')) - 1) = Ok last).
           { simpl in *. rewrite Nat.sub_0_r in *. exact Hlast. }
           destruct (IH t2 Hs' eq_refl Hlast' Hle H2)
             as [(l1 & t' & v' & l2 & -> & Heq)|(l1 & ta & va & tb & vb & l2 & -> & Ha & Hb)].
           ++ left. exists ((t, v) :: l1), t', v', l2. split; [reflexivity|exact Heq].
           ++ right. exists ((t, v) :: l1), ta, va, tb, vb, l2. repeat split; assumption.
Qed.


(** Inside the range of an increasing index both range tests of
    [get_interpolated_row] fail. *)
Lemma inside_range (pre post : list Q) (x time : Q) :
  StronglySorted Qlt (pre ++ x :: post) ->
  x <= time -> Forall (fun t => time <= t) post -> (post = [] -> time <= x) ->
  exists first last,
    py_index (pre ++ x :: post) 0 = Ok first
    /\ py_index (pre ++ x :: post) (length (pre ++ x :: post) - 1) = Ok last
    /\ Qltb time first = false /\ Qltb last time = false.
Proof.
  intros Hs Hx Hpost Hnil.
  destruct (index_first _ _ _ Hs) as (first & Hfirst & Hle).
  destruct (index_last _ _ _ Hs) as (last & Hlast & Hge).
  exists first, last. repeat split; try assumption.
  - apply Qltb_false. lra.
  - apply Qltb_false.
    destruct post as [|z post' _] using rev_ind.
    + rewrite py_index_last in Hlast. injection Hlast as <-. auto.
    + replace (pre ++ x :: post' ++ [z]) with ((pre ++ x :: post') ++ [z]) in Hlast
        by (rewrite <- app_assoc; reflexivity).
      rewrite py_index_last in Hlast. injection Hlast as <-.
      apply Forall_app in Hpost as [_ Hz]. inversion Hz; subst. assumption.
Qed.

Lemma sorted_after (pre post : list Q) (t1 t2 : Q) :
  StronglySorted Qlt (pre ++ t1 :: t2 :: post) ->
  t1 < t2 /\ Forall (fun t => t2 < t) post /\ Forall (fun t => t < t1) pre.
Proof.
  intros Hs. destruct (sorted_split _ _ _ Hs) as (Hpre & Hpost & _).
  assert (Hs' : StronglySorted Qlt ((pre ++ [t1]) ++ t2 :: post))
    by (rewrite <- app_assoc; exact Hs).
  destruct (sorted_split _ _ _ Hs') as (_ & Hpost2 & _).
  inversion Hpost; subst. repeat split; assumption.
Qed.

Lemma float_exact (l1 l2 : list (Q * Q)) (t v time : Q) :
  StronglySorted Qlt (map fst (l1 ++ (t, v) :: l2)) -> time == t ->
  get_interpolated_row (FloatSeries (l1 ++ (t, v) :: l2)) time = Ok (VFloat v).
Proof.
  intros Hs Heq. unfold get_interpolated_row. cbv zeta. cbn [s_index iloc].
  rewrite !map_app in *. cbn [map fst snd] in *.
  destruct (sorted_split _ _ _ Hs) as (Hpre & Hpost & _).
  destruct (inside_range (map fst l1) (map fst l2) t time Hs) as (first & last & Hf & Hl & Hb & Ha).
  { lra. }
  { eapply Forall_impl; [exact Hpost|]. intros a Ha. simpl in Ha. lra. }
  { intros _. lra. }
  step Hf. rewrite Hb. step Hl. rewrite Ha.
  rewrite (get_loc_ffill_at (map fst l1) (map fst l2) t time Hs).
  - cbn [mbind res_mbind res_bind].
    step (py_index_middle (map fst l1) (map fst l2) t).
    replace (Qeq_bool time t) with true by (symmetry; apply Qeq_bool_iff; exact Heq).
    replace (length (map fst l1)) with (length (map snd l1)) by (rewrite !length_map; reflexivity).
    step (py_index_middle (map snd l1) (map snd l2) v). reflexivity.
  - lra.
  - eapply Forall_impl; [exact Hpost|]. intros a Ha'. simpl in Ha'. lra.
Qed.

Lemma float_between (l1 l2 : list (Q * Q)) (t1 v1 t2 v2 time : Q) :
  StronglySorted Qlt (map fst (l1 ++ (t1, v1) :: (t2, v2) :: l2)) ->
  t1 < time -> time < t2 ->
  get_interpolated_row (FloatSeries (l1 ++ (t1, v1) :: (t2, v2) :: l2)) time
  = Ok (VFloat (v1 + (time - t1) * (v2 - v1) / (t2 - t1))).
Proof.
  intros Hs H1 H2. unfold get_interpolated_row. cbv zeta. cbn [s_index iloc].
  rewrite !map_app in *. cbn [map fst snd] in *.
  destruct (sorted_after _ _ _ _ Hs) as (H12 & Hpost2 & Hpre).
  destruct (inside_range (map fst l1) (t2 :: map fst l2) t1 time Hs)
    as (first & last & Hf & Hl & Hb & Ha).
  { lra. }
  { constructor; [lra|]. eapply Forall_impl; [exact Hpost2|]. intros a Ha. simpl in Ha. lra. }
  { discriminate. }
  step Hf. rewrite Hb. step Hl. rewrite Ha.
  rewrite (get_loc_ffill_at (map fst l1) (t2 :: map fst l2) t1 time Hs).
  - cbn [mbind res_mbind res_bind].
    step (py_index_middle (map fst l1) (t2 :: map fst l2) t1).
    rewrite Qeq_bool_false by lra.
    replace (map fst l1 ++ t1 :: t2 :: map fst l2)
      with ((map fst l1 ++ [t1]) ++ t2 :: map fst l2) in *
      by (rewrite <- app_assoc; reflexivity).
    rewrite (get_loc_bfill_at (map fst l1 ++ [t1]) (map fst l2) t2 time Hs).
    + cbn [mbind res_mbind res_bind].
      step (py_index_middle (map fst l1 ++ [t1]) (map fst l2) t2).
      replace (length (map fst l1)) with (length (map snd l1))
        by (rewrite !length_map; reflexivity).
      step (py_index_middle (map snd l1) (v2 :: map snd l2) v1).
      replace (map snd l1 ++ v1 :: v2 :: map snd l2)
        with ((map snd l1 ++ [v1]) ++ v2 :: map snd l2)
        by (rewrite <- app_assoc; reflexivity).
      replace (length (map fst l1 ++ [t1])) with (length (map snd l1 ++ [v1]))
        by (rewrite !length_app, !length_map; reflexivity).
      step (py_index_middle (map snd l1 ++ [v1]) (map snd l2) v2). reflexivity.
    + apply Forall_app. split.
      * eapply Forall_impl; [exact Hpre|]. intros a Ha'. simpl in Ha'. lra.
      * constructor; [exact H1|constructor].
    + lra.
  - lra.
  - constructor; [exact H2|].
    eapply Forall_impl; [exact Hpost2|]. intros a Ha'. simpl in Ha'. lra.
Qed.


Lemma float_above (l' : list (Q * Q)) (tn vn time : Q) :
  StronglySorted Qlt (map fst (l' ++ [(tn, vn)])) -> tn < time ->
  get_interpolated_row (FloatSeries (l' ++ [(tn, vn)])) time = Ok (VFloat vn).
Proof.
  intros Hs Hlt. unfold get_interpolated_row. cbv zeta. cbn [s_index iloc].
  rewrite !map_app in *. cbn [map fst snd] in *.
  destruct (index_first _ _ _ Hs) as (first & Hfirst & Hle).
  step Hfirst. rewrite Qltb_false by lra.
  step (py_index_last (map fst l') tn). rewrite Qltb_true by exact Hlt.
  replace (length (map fst l' ++ [tn])) with (length (map snd l' ++ [vn]))
    by (rewrite !length_app, !length_map; reflexivity).
  step (py_index_last (map snd l') vn). reflexivity.
Qed.

(** X4.  On a float series with a strictly increasing index
    [get_interpolated_row] fails only when the series is empty (with
    [IndexError]); on a non-empty one it returns a number for every query
    time. *)
Theorem float_series_fails_only_when_empty (l : list (Q * Q)) (time : Q) :
  StronglySorted Qlt (map fst l) ->
  (l = [] -> get_interpolated_row (FloatSeries l) time = Raise IndexError)
  /\ (l <> [] ->
      exists y : Q, get_interpolated_row (FloatSeries l) time = Ok (VFloat y)).
Proof.
  intros Hs. split; [intros ->; reflexivity|]. intros Hne.
  destruct l as [|[t0 v0] l0]; [contradiction|].
  destruct (Qlt_le_dec time t0) as [Hbelow|Hge].
  { exists v0.
    unfold get_interpolated_row. cbv zeta. cbn [s_index iloc map fst snd].
    change (py_index (t0 :: map fst l0) 0) with (Ok (A := Q) t0).
    cbn [mbind res_mbind res_bind]. rewrite Qltb_true by exact Hbelow. reflexivity. }
  destruct (exists_last Hne) as (l' & [tn vn] & Hl).
  destruct (Qlt_le_dec tn time) as [Habove|Hle].
  { exists vn. rewrite Hl in *. apply float_above; assumption. }
  assert (Hlast : py_index (map fst ((t0, v0) :: l0)) (length (map fst ((t0, v0) :: l0)) - 1)
                  = Ok tn).
  { rewrite Hl, map_app. cbn [map fst]. apply py_index_last. }
  destruct (locate_sample ((t0, v0) :: l0) time t0 tn Hs eq_refl Hlast Hge Hle)
    as [(l1 & t & v & l2 & Heq & Ht)|(l1 & t1 & v1 & t2 & v2 & l2 & Heq & H1 & H2)].
  - rewrite Heq in *. exists v. apply float_exact; assumption.
  - rewrite Heq in *. eexists. apply float_between; assumption.
Qed.





(** X7.  On a series whose last index is below its first index (a
    decreasing time index), no query is interpolated: a query time below
    the first index gets the first row, every other query time the last
    row. *)
Theorem reversed_series_never_interpolates (df : Series) (time first last : Q) :
  py_index (s_index df) 0 = Ok first ->
  py_index (s_index df) (length (s_index df) - 1) = Ok last ->
  last < first ->
  (time < first -> get_interpolated_row df time = iloc df 0)
  /\ (first <= time -> get_interpolated_row df time = iloc df (length (s_index df) - 1)).
Proof.
  intros Hfirst Hlast Hrev.
  rewrite (reversed_index_extrapolates df time first last Hfirst Hlast Hrev).
  split; intros H.
  - rewrite Qltb_true by exact H. reflexivity.
  - rewrite Qltb_false by exact H. reflexivity.
Qed.

Lemma float_series_fails_only_when_empty_witness :
  exists y : Q,
    get_interpolated_row (FloatSeries [(0, 1); (5, 2); (10, 4)]) 4 = Ok (VFloat y).
Proof.
  apply (proj2 (float_series_fails_only_when_empty [(0, 1); (5, 2); (10, 4)] 4
                  ltac:(simpl; repeat constructor))).
  discriminate.
Defined.


Lemma reversed_series_never_interpolates_witness :
  get_interpolated_row (FloatSeries [(10, 4); (0, 1)]) 5 = Ok (VFloat 4)
  /\ get_interpolated_row (FloatSeries [(10, 4); (0, 1)]) 12 = Ok (VFloat 1).
Proof.
  destruct (reversed_series_never_interpolates (FloatSeries [(10, 4); (0, 1)]) 5 10 0
              eq_refl eq_refl eq_refl) as [Hbelow _].
  destruct (reversed_series_never_interpolates (FloatSeries [(10, 4); (0, 1)]) 12 10 0
              eq_refl eq_refl eq_refl) as [_ Hother].
  split.
  - rewrite Hbelow; reflexivity.
  - rewrite Hother; [reflexivity|discriminate].
Defined.

End InterpolatorMore.

(** ** Binder and outputs: what a write and a read may do *)

Section WriteFacts.

Import PyStr Binder.

Lemma same_shape_refl (d : DataFrame) : same_shape d d.
Proof.
  split; [reflexivity|]. induction (df_columns d); constructor; auto.
Qed.

Lemma same_shape_trans (d1 d2 d3 : DataFrame) :
  same_shape d1 d2 -> same_shape d2 d3 -> same_shape d1 d3.
Proof.
  intros [Hi1 Hc1] [Hi2 Hc2]. split; [congruence|].
  revert Hc2. generalize (df_columns d3). induction Hc1 as [|c c' l l' [Hn Hl] Hrest IH];
    intros l3 Hc2; inversion Hc2 as [|? c3 ? l3' [Hn' Hl'] Hrest']; subst; constructor.
  - split; congruence.
  - apply IH. assumption.
Qed.

Lemma shapes_kept_refl (h : list DataFrame) : shapes_kept h h.
Proof. induction h; constructor; auto using same_shape_refl. Qed.

Lemma shapes_kept_trans (h1 h2 h3 : list DataFrame) :
  shapes_kept h1 h2 -> shapes_kept h2 h3 -> shapes_kept h1 h3.
Proof.
  intros H12. revert h3. induction H12 as [|d d' h h' Hd Hrest IH]; intros h3 H23;
    inversion H23; subst; constructor.
  - eapply same_shape_trans; eassumption.
  - apply IH. assumption.
Qed.

Lemma length_set_rows (index col ix : list value) (val : value) :
  length (set_rows index col ix val) = length col.
Proof.
  revert col. induction index as [|i index IH]; intros [|c col]; simpl; try reflexivity.
  rewrite IH. reflexivity.
Qed.

Lemma same_shape_assoc_set (tdf : DataFrame) (param : string) (col col' : list value) :
  assoc param (df_columns tdf) = Some col -> length col' = length col ->
  same_shape tdf (mkDataFrame (df_index tdf) (assoc_set param col' (df_columns tdf))).
Proof.
  intros Hcol Hlen. split; [reflexivity|]. simpl.
  revert Hcol. induction (df_columns tdf) as [|[k c] cols IH]; simpl; intros Hcol;
    [constructor|].
  destruct (String.eqb param k).
  - injection Hcol as ->. constructor; [split; [reflexivity|exact Hlen]|].
    clear. induction cols; constructor; auto.
  - constructor; [split; reflexivity|]. apply IH. exact Hcol.
Qed.

Lemma shapes_kept_insert (h : list DataFrame) (t : nat) (tdf tdf' : DataFrame) :
  h !! t = Some tdf -> same_shape tdf tdf' -> shapes_kept h (<[t := tdf']> h).
Proof.
  revert t. induction h as [|d h IH]; intros [|t] Ht Hs; simpl in *; try discriminate.
  - injection Ht as ->. constructor; [exact Hs|apply shapes_kept_refl].
  - constructor; [apply same_shape_refl|]. apply IH; assumption.
Qed.

(** What one write may change: nothing when it raises; otherwise the cells
    of the column [parametername] of the table [classname]. *)
Lemma set_input_effect (n : Net) (key : string) (val : value) (h : list DataFrame) :
  (exists e, set_input n key val h = (Raise e, h))
  \/ (exists classname componentname parametername t tdf col col',
        parse key = Ok (classname, componentname, parametername)
        /\ assoc classname (tables n) = Some t /\ h !! t = Some tdf
        /\ assoc parametername (df_columns tdf) = Some col
        /\ length col' = length col
        /\ set_input n key val h
           = (Ok tt, <[t := mkDataFrame (df_index tdf)
                              (assoc_set parametername col' (df_columns tdf))]> h)).
Proof.
  assert (Hrun : set_input n key val h
                 = match parse key with
                   | Raise e => (Raise e, h)
                   | Ok (classname, componentname, parametername) =>
                       match locate n classname componentname h with
                       | (Raise e, h') => (Raise e, h')
                       | (Ok ix, h') => setitem n classname parametername ix val h'
                       end
                   end).
  { unfold set_input, mbind, M_bind, lift.
    destruct (parse key) as [[[? ?] ?]|]; reflexivity. }
  rewrite Hrun. clear Hrun.
  destruct (parse key) as [[[classname componentname] parametername]|e]; [|left; eauto].
  assert (Hloc : exists r, locate n classname componentname h = (r, h)).
  { unfold locate, mbind, M_bind, getattr, load, lift.
    destruct (startswith classname "res_").
    - destruct (assoc classname (tables n)) as [t|]; [|eauto].
      destruct (h !! t) as [tdf|]; [|eauto].
      destruct (py_index (split classname "res_") 1) as [dname|]; [|eauto].
      destruct (assoc dname (tables n)) as [d|]; [|eauto].
      destruct (h !! d) as [ddf|]; [|eauto].
      destruct (getitem ddf "name") as [names|]; eauto.
    - destruct (assoc classname (tables n)) as [t|]; [|eauto].
      destruct (h !! t) as [tdf|] eqn:Etdf; [|eauto].
      cbn beta iota. rewrite ?Etdf.
      destruct (getitem tdf "name") as [names|]; eauto. }
  destruct Hloc as [r Hloc]. rewrite Hloc.
  destruct r as [ix|e]; [|left; eauto].
  unfold setitem, mbind, M_bind, getattr, load, lift, store, getitem, set_labels.
  destruct (assoc classname (tables n)) as [t|] eqn:Et; [|left; eauto].
  destruct (h !! t) as [tdf|] eqn:Etdf; [|left; eauto].
  destruct (assoc parametername (df_columns tdf)) as [col|] eqn:Ecol; [|left; eauto].
  destruct (unique (df_index tdf)); [|left; eauto].
  right. exists classname, componentname, parametername, t, tdf, col,
    (set_rows (df_index tdf) col ix val).
  repeat split; auto. apply length_set_rows.
Qed.


Lemma set_input_shapes (n : Net) (key : string) (val : value) (h : list DataFrame) :
  shapes_kept h (snd (set_input n key val h)).
Proof.
  destruct (set_input_effect n key val h)
    as [[e ->]|(cls & comp & par & t & tdf & col & col' & _ & _ & Htdf & Hcol & Hlen & ->)];
    simpl; [apply shapes_kept_refl|].
  apply (shapes_kept_insert h t tdf); [exact Htdf|].
  apply (same_shape_assoc_set tdf par col col' Hcol Hlen).
Qed.

(** A relation between stores that each step of a loop keeps is kept by
    the loop. *)
Lemma for_each_keeps {A : Type} (R : list DataFrame -> list DataFrame -> Prop)
    (body : A -> M unit) (l : list A) :
  (forall h, R h h) ->
  (forall h1 h2 h3, R h1 h2 -> R h2 h3 -> R h1 h3) ->
  (forall a h, In a l -> R h (snd (body a h))) ->
  forall h, R h (snd (IOBinding.for_each l body h)).
Proof.
  intros Hrefl Htrans. induction l as [|a l IH]; intros Hbody h; simpl; [apply Hrefl|].
  unfold mbind, M_bind.
  pose proof (Hbody a h (or_introl eq_refl)) as Ha.
  destruct (body a h) as [[[]|e] h1]; simpl in *; [|exact Ha].
  apply (Htrans h h1); [exact Ha|].
  apply IH. intros a' h' Hin. apply Hbody. right. exact Hin.
Qed.

Lemma get_and_set_keeps (R : list DataFrame -> list DataFrame -> Prop) (n : Net)
    (inputs : Kind -> list (string * value)) :
  (forall h, R h h) ->
  (forall h1 h2 h3, R h1 h2 -> R h2 h3 -> R h1 h3) ->
  (forall kind key val h, In (key, val) (inputs kind) -> R h (snd (set_input n key val h))) ->
  forall h, R h (snd (IOBinding._get_and_set_fmi_inputs n inputs h)).
Proof.
  intros Hrefl Htrans Hbody h. unfold IOBinding._get_and_set_fmi_inputs.
  destruct (fmi_input_vars n); [|apply Hrefl].
  apply (for_each_keeps R); try assumption.
  intros kind h' _. apply (for_each_keeps R); try assumption.
  intros [key val] h'' Hin. apply (Hbody kind). exact Hin.
Qed.

(** X8.  Setting the inputs never adds or removes a table, a column or a
    row, and never changes an index: whatever the inputs are and whatever
    the outcome, every table of the store has the shape it had. *)
Theorem inputs_keep_shapes (n : Net) (inputs : Kind -> list (string * value))
    (h : list DataFrame) :
  shapes_kept h (snd (IOBinding._get_and_set_fmi_inputs n inputs h)).
Proof.
  apply (get_and_set_keeps shapes_kept).
  - apply shapes_kept_refl.
  - apply shapes_kept_trans.
  - intros kind key val h' _. apply set_input_shapes.
Qed.

Lemma assoc_assoc_set_other {A : Type} (c k : string) (a : A) (l : list (string * A)) :
  c <> k -> assoc c (assoc_set k a l) = assoc c l.
Proof.
  intros Hne. induction l as [|[k' a'] l IH]; simpl; [reflexivity|].
  destruct (String.eqb k k') eqn:Ek; simpl.
  - apply String.eqb_eq in Ek. subst k'.
    destruct (String.eqb c k) eqn:Ec; [apply String.eqb_eq in Ec; contradiction|reflexivity].
  - destruct (String.eqb c k'); [reflexivity|exact IH].
Qed.

(** X9.  Setting the inputs changes nothing but the fields the inputs
    name: a table that no input names is left as it is, and in a table
    that is named every column that no input on this table names keeps
    its cells. *)
Theorem inputs_change_named_cells_only (n : Net) (inputs : Kind -> list (string * value))
    (h : list DataFrame) (l : nat) (c : string) :
  ((forall kind key val classname componentname parametername,
      In (key, val) (inputs kind) ->
      parse key = Ok (classname, componentname, parametername) ->
      assoc classname (tables n) <> Some l) ->
   snd (IOBinding._get_and_set_fmi_inputs n inputs h) !! l = h !! l)
  /\ ((forall kind key val classname componentname parametername,
         In (key, val) (inputs kind) ->
         parse key = Ok (classname, componentname, parametername) ->
         assoc classname (tables n) = Some l -> parametername <> c) ->
      forall tdf, h !! l = Some tdf ->
        exists tdf', snd (IOBinding._get_and_set_fmi_inputs n inputs h) !! l = Some tdf'
                     /\ assoc c (df_columns tdf') = assoc c (df_columns tdf)).
Proof.
  split.
  - intros Hfree.
    apply (get_and_set_keeps (fun h1 h2 => h2 !! l = h1 !! l)); [reflexivity|congruence|].
    intros kind key val h' Hin.
    destruct (set_input_effect n key val h')
      as [[e ->]|(cls & comp & par & t & tdf & col & col' & Hp & Ht & _ & _ & _ & ->)];
      simpl; [reflexivity|].
    apply list_lookup_insert_ne. intros ->.
    exact (Hfree kind key val cls comp par Hin Hp Ht).
  - intros Hfree.
    apply (get_and_set_keeps
             (fun h1 h2 => forall tdf, h1 !! l = Some tdf ->
                exists tdf', h2 !! l = Some tdf'
                             /\ assoc c (df_columns tdf') = assoc c (df_columns tdf))).
    + intros h' tdf Htdf. eauto.
    + intros h1 h2 h3 H12 H23 tdf Htdf.
      destruct (H12 tdf Htdf) as (tdf2 & H2 & Hc2).
      destruct (H23 tdf2 H2) as (tdf3 & H3 & Hc3).
      exists tdf3. split; [exact H3|congruence].
    + intros kind key val h' Hin tdf0 Htdf0.
      destruct (set_input_effect n key val h')
        as [[e ->]|(cls & comp & par & t & tdf & col & col' & Hp & Ht & Htdf & _ & _ & ->)];
        simpl; [eauto|].
      destruct (decide (t = l)) as [->|Hne].
      * rewrite Htdf in Htdf0. injection Htdf0 as <-.
        eexists. split.
        -- apply list_lookup_insert_eq. apply lookup_lt_Some in Htdf. exact Htdf.
        -- simpl. apply assoc_assoc_set_other.
           intros Heq. exact (Hfree kind key val cls comp par Hin Hp Ht (eq_sym Heq)).
      * exists tdf0. split; [|reflexivity].
        rewrite list_lookup_insert_ne by exact Hne. exact Htdf0.
Qed.


Lemma assoc_set_twice {A : Type} (k : string) (a b : A) (l : list (string * A)) :
  assoc_set k a (assoc_set k b l) = assoc_set k a l.
Proof.
  induction l as [|[k' a'] l IH]; simpl; [reflexivity|].
  destruct (String.eqb k k') eqn:E; simpl; rewrite E; [reflexivity|].
  rewrite IH. reflexivity.
Qed.

Lemma mask_set_twice (mask : list bool) (col : list value) (v1 v2 : value) :
  mask_set mask (mask_set mask col v1) v2 = mask_set mask col v2.
Proof.
  revert col. induction mask as [|b mask IH]; intros [|c col]; simpl; try reflexivity.
  rewrite IH. destruct b; reflexivity.
Qed.

(** A write to a field other than [name] leaves the binding resolved as it
    was. *)
Lemma bound_after_write (n : Net) (h : list DataFrame) (classname parametername : string)
    (t : nat) (tdf : DataFrame) (names col' : list value) :
  bound n h classname t tdf names ->
  parametername <> "name" ->
  bound n (<[t := mkDataFrame (df_index tdf)
                    (assoc_set parametername col' (df_columns tdf))]> h)
    classname t
    (mkDataFrame (df_index tdf) (assoc_set parametername col' (df_columns tdf))) names.
Proof.
  intros (dname & d & ddf & Hdef & Ht & Htdf & Hd & Hddf & Hnames & Hlen) Hpar.
  assert (Hlt : (t < length h)%nat) by (apply lookup_lt_Some in Htdf; exact Htdf).
  destruct (decide (d = t)) as [->|Hne].
  - rewrite Htdf in Hddf. injection Hddf as <-.
    exists dname, t, (mkDataFrame (df_index tdf) (assoc_set parametername col' (df_columns tdf))).
    repeat split; try assumption; try (apply list_lookup_insert_eq; exact Hlt).
    unfold getitem in *. simpl. rewrite assoc_assoc_set_other by congruence.
    exact Hnames.
  - exists dname, d, ddf. repeat split; try assumption.
    + apply list_lookup_insert_eq. exact Hlt.
    + rewrite list_lookup_insert_ne by auto. exact Hddf.
Qed.

(** X10.  Writing an input twice is writing the last value once: on a
    binding that resolves, to a field other than [name], the second write
    leaves the store that it would have left alone. *)
Theorem last_write_wins (n : Net) (h : list DataFrame)
    (key classname componentname parametername : string)
    (t : nat) (tdf : DataFrame) (names col : list value) (v1 v2 : value) :
  parse key = Ok (classname, componentname, parametername) ->
  bound n h classname t tdf names ->
  getitem tdf parametername = Ok col ->
  unique (df_index tdf) = true ->
  parametername <> "name" ->
  set_input n key v2 (snd (set_input n key v1 h)) = set_input n key v2 h.
Proof.
  intros Hparse Hb Hcol Hu Hpar.
  rewrite (set_input_bound n h key classname componentname parametername t tdf names col v1
             Hparse Hb Hcol Hu).
  rewrite (set_input_bound n h key classname componentname parametername t tdf names col v2
             Hparse Hb Hcol Hu).
  cbn [snd].
  pose proof (bound_after_write n h classname parametername t tdf names
                (mask_set (map (eq_str componentname) names) col v1) Hb Hpar) as Hb1.
  rewrite (set_input_bound n _ key classname componentname parametername t _ names
             (mask_set (map (eq_str componentname) names) col v1) v2 Hparse Hb1).
  - cbn [df_index df_columns].
    rewrite list_insert_insert_eq, assoc_set_twice, mask_set_twice. reflexivity.
  - unfold getitem in *. cbn [df_columns].
    destruct (assoc parametername (df_columns tdf)) as [c0|] eqn:E; [|discriminate].
    rewrite (assoc_assoc_set _ _ _ _ E). reflexivity.
  - exact Hu.
Qed.




Lemma get_output_run (n : Net) (h : list DataFrame)
    (key classname componentname parametername : string) :
  parse key = Ok (classname, componentname, parametername) ->
  IOBinding.get_output n key h
  = match locate n classname componentname h with
    | (Ok ix, h') =>
        match assoc classname (tables n) with
        | Some t =>
            match h' !! t with
            | Some tdf =>
                match getitem tdf parametername with
                | Ok col => (IOBinding.first_of (df_index tdf) col ix, h')
                | Raise e => (Raise e, h')
                end
            | None => (Raise DanglingReference, h')
            end
        | None => (Raise AttributeError, h')
        end
    | (Raise e, h') => (Raise e, h')
    end.
Proof.
  intros Hparse. unfold IOBinding.get_output, mbind, M_bind, lift, getattr, load.
  rewrite Hparse. destruct (locate n classname componentname h) as [[ix|e] h']; [|reflexivity].
  destruct (assoc classname (tables n)) as [t|]; [|reflexivity].
  destruct (h' !! t) as [tdf|]; [|reflexivity].
  destruct (getitem tdf parametername); reflexivity.
Qed.


(** X12.  Reading an output whose component names one row: on a table
    with a numeric index the value of the row is returned only when the
    label of that row is 0, and KeyError is raised for every other label
    (the [0] after the selection is a label); on a table with another
    index the value of the row is returned.  The store is left as it is. *)
Theorem output_read_depends_on_label (n : Net) (h : list DataFrame)
    (key classname componentname parametername : string)
    (t : nat) (tdf : DataFrame) (names col : list value) (p : nat) (i c : value) :
  parse key = Ok (classname, componentname, parametername) ->
  bound n h classname t tdf names ->
  getitem tdf parametername = Ok col ->
  unique (df_index tdf) = true ->
  (forall q : nat, names !! q = Some (VStr componentname) <-> q = p) ->
  df_index tdf !! p = Some i -> col !! p = Some c ->
  IOBinding.get_output n key h
  = (if IOBinding.numeric_index (df_index tdf)
     then (if IOBinding.is_label_0 i then Ok c else Raise KeyError)
     else Ok c, h).
Proof.
  intros Hparse Hb Hcol Hu Hone Hi Hc.
  assert (Hlen : length (df_index tdf) = length (map (eq_str componentname) names)).
  { destruct Hb as (? & ? & ? & ? & ? & ? & ? & ? & ? & Hlen).
    rewrite length_map. congruence. }
  assert (Hmask : forall q : nat,
             map (eq_str componentname) names !! q = Some true <-> q = p).
  { intros q. rewrite <- Hone, list_lookup_fmap.
    destruct (names !! q) as [v|]; simpl; [|split; discriminate].
    destruct v as [x|z|b|s0|]; simpl; try (split; discriminate).
    destruct (String.eqb_spec s0 componentname) as [->|Hne]; [tauto|].
    split; [discriminate|]. intros [=]. contradiction. }
  pose proof (index_mask_single _ _ p i Hlen Hi Hmask) as Hix.
  rewrite (get_output_bound n h key classname componentname parametername t tdf names col [i]
             Hparse Hb Hcol Hix).
  unfold IOBinding.first_of. rewrite (rows_at_single _ _ p i c Hu Hi Hc).
  destruct (IOBinding.numeric_index (df_index tdf)); [|reflexivity].
  simpl. destruct (IOBinding.is_label_0 i); reflexivity.
Qed.

Lemma set_input_error_keeps_store (n : Net) (key : string) (val : value)
    (h h' : list DataFrame) (e : exn) :
  set_input n key val h = (Raise e, h') -> h' = h.
Proof.
  destruct (set_input_effect n key val h)
    as [[e' ->]|(? & ? & ? & ? & ? & ? & ? & _ & _ & _ & _ & _ & ->)]; congruence.
Qed.

Lemma for_each_app {A : Type} (body : A -> M unit) (l1 l2 : list A) (h h1 : list DataFrame) :
  IOBinding.for_each l1 body h = (Ok tt, h1) ->
  IOBinding.for_each (l1 ++ l2) body h = IOBinding.for_each l2 body h1.
Proof.
  revert h. induction l1 as [|a l1 IH]; intros h H; simpl in *.
  - injection H as <-. reflexivity.
  - unfold mbind, M_bind in *. destruct (body a h) as [[[]|e] h']; [|discriminate].
    apply IH. exact H.
Qed.

(** X13.  Inputs are not set atomically: when a real input fails, the
    error comes out of [_get_and_set_fmi_inputs] and the inputs set before
    it stay written. *)
Theorem inputs_not_rolled_back (n : Net) (inputs : Kind -> list (string * value))
    (vars : gmap string (list string)) (done rest : list (string * value))
    (key : string) (val : value) (h h1 h2 : list DataFrame) (e : exn) :
  fmi_input_vars n = Some vars ->
  inputs KReal = done ++ (key, val) :: rest ->
  IOBinding.for_each done (fun '(key, val) => set_input n key val) h = (Ok tt, h1) ->
  set_input n key val h1 = (Raise e, h2) ->
  IOBinding._get_and_set_fmi_inputs n inputs h = (Raise e, h1).
Proof.
  intros Hvars Hin Hdone Hfail.
  pose proof (set_input_error_keeps_store _ _ _ _ _ _ Hfail) as ->.
  unfold IOBinding._get_and_set_fmi_inputs. rewrite Hvars.
  cbn [IOBinding.for_each]. unfold mbind at 1. unfold M_bind at 1.
  rewrite Hin, (for_each_app _ done _ h h1 Hdone).
  cbn [IOBinding.for_each]. unfold mbind at 1. unfold M_bind at 1.
  rewrite Hfail. reflexivity.
Qed.


Lemma locate_keeps_store (n : Net) (classname componentname : string) (h : list DataFrame) :
  snd (locate n classname componentname h) = h.
Proof.
  unfold locate, mbind, M_bind, getattr, load, lift.
  destruct (startswith classname "res_").
  - destruct (assoc classname (tables n)) as [t|]; [|reflexivity].
    destruct (h !! t) as [tdf|]; [|reflexivity].
    destruct (py_index (split classname "res_") 1) as [dname|]; [|reflexivity].
    destruct (assoc dname (tables n)) as [d|]; [|reflexivity].
    destruct (h !! d) as [ddf|]; [|reflexivity].
    destruct (getitem ddf "name") as [names|]; reflexivity.
  - destruct (assoc classname (tables n)) as [t|]; [|reflexivity].
    destruct (h !! t) as [tdf|] eqn:Etdf; [|reflexivity].
    cbn beta iota. rewrite ?Etdf.
    destruct (getitem tdf "name") as [names|]; reflexivity.
Qed.

Lemma get_output_keeps_store (n : Net) (key : string) (h : list DataFrame) :
  snd (IOBinding.get_output n key h) = h.
Proof.
  destruct (parse key) as [[[classname componentname] parametername]|e] eqn:Hparse.
  - rewrite (get_output_run n h key classname componentname parametername Hparse).
    pose proof (locate_keeps_store n classname componentname h) as Hloc.
    destruct (locate n classname componentname h) as [[ix|e] h']; simpl in Hloc; subst h';
      [|reflexivity].
    destruct (assoc classname (tables n)) as [t|]; [|reflexivity].
    destruct (h !! t) as [tdf|]; [|reflexivity].
    destruct (getitem tdf parametername); reflexivity.
  - unfold IOBinding.get_output, mbind, M_bind, lift. rewrite Hparse. reflexivity.
Qed.

Lemma collect_keeps_store (n : Net) (keys : list string) (outputs : list (string * value))
    (h : list DataFrame) :
  snd (IOBinding.collect n keys outputs h) = h.
Proof.
  revert outputs. induction keys as [|key keys IH]; intros outputs; simpl; [reflexivity|].
  unfold mbind, M_bind. pose proof (get_output_keeps_store n key h) as Hk.
  destruct (IOBinding.get_output n key h) as [[v|e] h']; simpl in Hk; subst h';
    [apply IH|reflexivity].
Qed.

Lemma outputs_of_keeps_store (n : Net) (vars : gmap string (list string)) (kind : string)
    (h : list DataFrame) :
  snd (IOBinding.outputs_of n vars kind h) = h.
Proof.
  unfold IOBinding.outputs_of. destruct (vars !! kind) as [keys|]; [|reflexivity].
  unfold mbind, M_bind. pose proof (collect_keeps_store n keys [] h) as Hk.
  destruct (IOBinding.collect n keys [] h) as [[o|e] h']; simpl in Hk; subst h'; reflexivity.
Qed.


Lemma set_values_publishes (n : Net) (vars : gmap string (list string)) (kind : string)
    (set_output_values : list (string * value) -> AdapterCall) (self : FMU) :
  exists published,
    publishes self (snd (set_values n vars kind set_output_values self)) published
    /\ (published = [] \/ exists outputs, published = [set_output_values outputs])
    /\ (fst (set_values n vars kind set_output_values self) = Ok tt ->
        forall keys, vars !! kind = Some keys ->
          exists outputs, published = [set_output_values outputs]).
Proof.
  unfold set_values, mbind, F_bind, on_heap.
  pose proof (outputs_of_keeps_store n vars kind (heap self)) as Hk.
  assert (Hpresent : forall o, fst (IOBinding.outputs_of n vars kind (heap self)) = Ok o ->
            forall keys, vars !! kind = Some keys -> o <> None).
  { intros o Ho keys Hkeys. unfold IOBinding.outputs_of, mbind, M_bind in Ho.
    rewrite Hkeys in Ho.
    destruct (IOBinding.collect n keys [] (heap self)) as [[x|e] h']; simpl in Ho;
      [|discriminate]. injection Ho as <-. discriminate. }
  destruct (IOBinding.outputs_of n vars kind (heap self)) as [[[outputs|]|e] h'];
    simpl in Hk; subst h'; simpl.
  - exists [set_output_values outputs]. unfold publishes. simpl.
    repeat split; eauto.
  - exists []. unfold publishes. simpl. rewrite app_nil_r.
    repeat split; auto; try (destruct self; reflexivity).
    intros _ keys Hkeys. exfalso. exact (Hpresent None eq_refl keys Hkeys eq_refl).
  - exists []. unfold publishes. simpl. rewrite app_nil_r.
    repeat split; auto; try (destruct self; reflexivity). discriminate.
Qed.


Lemma publishes_nothing (self : FMU) : publishes self self [].
Proof. unfold publishes. rewrite app_nil_r. auto. Qed.

Lemma publishes_then (self s1 s2 : FMU) (p1 p2 : list AdapterCall) :
  publishes self s1 p1 -> publishes s1 s2 p2 -> publishes self s2 (p1 ++ p2).
Proof.
  unfold publishes. intros (H1 & H2 & H3 & H4 & H5) (G1 & G2 & G3 & G4 & G5).
  repeat split; try congruence. rewrite G5, H5, app_assoc. reflexivity.
Qed.

(** X14.  [_set_outputs] changes nothing of the FMU but the trace of calls
    on the adapter: start time, network, tables and files are left as
    they are, and the calls added are at most one per kind, in the order
    Real, Integer, Boolean, String, each on the channel of its own kind;
    when it returns, every kind declared in [fmi_output_vars] has been
    published. *)
Theorem set_outputs_only_publishes (n : Net) (self : FMU) :
  exists r i b s : list AdapterCall,
    publishes self (snd (_set_outputs n self)) (r ++ i ++ b ++ s)
    /\ (r = [] \/ exists outputs, r = [setRealOutputValues outputs])
    /\ (i = [] \/ exists outputs, i = [setIntegerOutputValues outputs])
    /\ (b = [] \/ exists outputs, b = [setBooleanOutputValues outputs])
    /\ (s = [] \/ exists outputs, s = [setStringOutputValues outputs])
    /\ (fst (_set_outputs n self) = Ok tt ->
        forall vars, fmi_output_vars n = Some vars ->
          (is_Some (vars !! "Real") -> r <> [])
          /\ (is_Some (vars !! "Integer") -> i <> [])
          /\ (is_Some (vars !! "Boolean") -> b <> [])
          /\ (is_Some (vars !! "String") -> s <> [])).
Proof.
  unfold _set_outputs. destruct (fmi_output_vars n) as [vars|].
  2:{ exists [], [], [], []. simpl. split; [apply publishes_nothing|].
      repeat split; auto; intros; discriminate. }
  unfold mbind, F_bind.
  destruct (set_values_publishes n vars "Real" setRealOutputValues self) as (r & Hr & Hr1 & Hr2).
  destruct (set_values n vars "Real" setRealOutputValues self) as [[[]|e1] s1]; simpl in *.
  2:{ exists r, [], [], []. simpl. rewrite app_nil_r. split; [exact Hr|].
      repeat split; auto; intros; discriminate. }
  destruct (set_values_publishes n vars "Integer" setIntegerOutputValues s1) as (i & Hi & Hi1 & Hi2).
  destruct (set_values n vars "Integer" setIntegerOutputValues s1) as [[[]|e2] s2]; simpl in *.
  2:{ exists r, i, [], []. simpl. rewrite app_nil_r.
      split; [eapply publishes_then; eassumption|]. repeat split; auto; intros; discriminate. }
  destruct (set_values_publishes n vars "Boolean" setBooleanOutputValues s2) as (b & Hb & Hb1 & Hb2).
  destruct (set_values n vars "Boolean" setBooleanOutputValues s2) as [[[]|e3] s3]; simpl in *.
  2:{ exists r, i, b, []. rewrite app_nil_r.
      split; [eapply publishes_then; [eassumption|eapply publishes_then; eassumption]|].
      repeat split; auto; intros; discriminate. }
  destruct (set_values_publishes n vars "String" setStringOutputValues s3) as (s & Hs & Hs1 & Hs2).
  exists r, i, b, s.
  split; [eapply publishes_then; [eassumption|eapply publishes_then;
            [eassumption|eapply publishes_then; eassumption]]|].
  split; [exact Hr1|]. split; [exact Hi1|]. split; [exact Hb1|]. split; [exact Hs1|].
  intros Hok vars' [= <-].
  repeat split; intros [keys Hkeys].
  - destruct (Hr2 eq_refl keys Hkeys) as [o ->]. discriminate.
  - destruct (Hi2 eq_refl keys Hkeys) as [o ->]. discriminate.
  - destruct (Hb2 eq_refl keys Hkeys) as [o ->]. discriminate.
  - destruct (Hs2 Hok keys Hkeys) as [o ->]. discriminate.
Qed.

End WriteFacts.

Section WriteExamples.

Local Open Scope Q_scope.

Lemma example_bound_load :
  Binder.bound Example.network Example.store0 "load" 0 Example.load_table
    [VStr "LoadA"; VStr "LoadB"; VStr "Load1"].
Proof. exists "load", 0%nat, Example.load_table. repeat split. Qed.

Lemma inputs_keep_shapes_witness :
  shapes_kept Example.store0
    (snd (IOBinding._get_and_set_fmi_inputs Example.network Scenario.inputs Example.store0)).
Proof. exact (inputs_keep_shapes Example.network Scenario.inputs Example.store0). Defined.

Lemma inputs_change_named_cells_only_witness :
  snd (IOBinding._get_and_set_fmi_inputs Example.network Scenario.inputs Example.store0)
    !! 2%nat = Example.store0 !! 2%nat
  /\ exists tdf',
       snd (IOBinding._get_and_set_fmi_inputs Example.network Scenario.inputs Example.store0)
         !! 0%nat = Some tdf'
       /\ assoc "bus" (df_columns tdf') = assoc "bus" (df_columns Example.load_table).
Proof.
  split.
  - apply (proj1 (inputs_change_named_cells_only Example.network Scenario.inputs
                    Example.store0 2 "bus")).
    intros kind key val classname componentname parametername Hin Hparse.
    destruct kind; simpl in Hin; try contradiction.
    destruct Hin as [[= <- <-]|[]]. vm_compute in Hparse.
    injection Hparse as <- <- <-. discriminate.
  - apply (proj2 (inputs_change_named_cells_only Example.network Scenario.inputs
                    Example.store0 0 "bus")); [|reflexivity].
    intros kind key val classname componentname parametername Hin Hparse _.
    destruct kind; simpl in Hin; try contradiction.
    destruct Hin as [[= <- <-]|[]]. vm_compute in Hparse.
    injection Hparse as <- <- <-. discriminate.
Defined.

Lemma last_write_wins_witness :
  Binder.set_input Example.network "load.Load1.p_mw" (VFloat 9)
    (snd (Binder.set_input Example.network "load.Load1.p_mw" (VFloat 7) Example.store0))
  = Binder.set_input Example.network "load.Load1.p_mw" (VFloat 9) Example.store0.
Proof.
  apply (last_write_wins Example.network Example.store0 "load.Load1.p_mw" "load" "Load1"
           "p_mw" 0 Example.load_table [VStr "LoadA"; VStr "LoadB"; VStr "Load1"]
           [VFloat 1; VFloat 2; VFloat 3] (VFloat 7) (VFloat 9)).
  - reflexivity.
  - exact example_bound_load.
  - reflexivity.
  - reflexivity.
  - discriminate.
Defined.


Lemma output_read_depends_on_label_witness :
  IOBinding.get_output Example.network "load.Load1.bus" Example.store0
  = (Raise KeyError, Example.store0).
Proof.
  apply (output_read_depends_on_label Example.network Example.store0 "load.Load1.bus"
           "load" "Load1" "bus" 0 Example.load_table
           [VStr "LoadA"; VStr "LoadB"; VStr "Load1"] [VInt 0; VInt 1; VInt 1]
           2 (VInt 2) (VInt 1)).
  - reflexivity.
  - exact example_bound_load.
  - reflexivity.
  - reflexivity.
  - intros q. split.
    + destruct q as [|[|[|q]]]; simpl; intros H; try discriminate H; reflexivity.
    + intros ->. reflexivity.
  - reflexivity.
  - reflexivity.
Defined.

Lemma inputs_not_rolled_back_witness :
  IOBinding._get_and_set_fmi_inputs Example.network Scenario.inputs_with_unknown_field
    Example.store0
  = (Raise KeyError,
     snd (Binder.set_input Example.network "load.Load1.p_mw" (VFloat 7) Example.store0)).
Proof.
  apply (inputs_not_rolled_back Example.network Scenario.inputs_with_unknown_field
           {["Real" := ["load.Load1.p_mw"]]} [("load.Load1.p_mw", VFloat 7)] []
           "load.Load1.nope" (VFloat 1) Example.store0
           (snd (Binder.set_input Example.network "load.Load1.p_mw" (VFloat 7) Example.store0))
           (snd (Binder.set_input Example.network "load.Load1.p_mw" (VFloat 7) Example.store0))
           KeyError).
  - reflexivity.
  - reflexivity.
  - reflexivity.
  - reflexivity.
Defined.

Lemma set_outputs_only_publishes_witness :
  exists r i b s : list AdapterCall,
    publishes Scenario.started (snd (_set_outputs Example.network Scenario.started))
      (r ++ i ++ b ++ s)
    /\ (r = [] \/ exists outputs, r = [setRealOutputValues outputs])
    /\ (i = [] \/ exists outputs, i = [setIntegerOutputValues outputs])
    /\ (b = [] \/ exists outputs, b = [setBooleanOutputValues outputs])
    /\ (s = [] \/ exists outputs, s = [setStringOutputValues outputs]).
Proof.
  destruct (set_outputs_only_publishes Example.network Scenario.started)
    as (r & i & b & s & H1 & H2 & H3 & H4 & H5 & _).
  exists r, i, b, s. auto.
Defined.

End WriteExamples.

(** ** Declarations: inputs and parameters *)

Section DeclarationMore.

Import IOBinding.

(** X15.  The inputs and the parameters declared by
    [_initialize_fmi_inputs] are exactly the lists found in
    [fmi_input_vars] and [fmi_parameters], each under its own kind. *)
Theorem declarations_of_inputs_and_parameters (n : Net) (k : Kind) (names : list string) :
  (Define RInput k names ∈ _initialize_fmi_inputs n
   <-> exists vars, fmi_input_vars n = Some vars /\ vars !! kind_name k = Some names)
  /\ (Define RParameter k names ∈ _initialize_fmi_inputs n
      <-> exists vars, fmi_parameters n = Some vars /\ vars !! kind_name k = Some names).
Proof.
  destruct (inputs_and_parameters_on_their_channel n k names) as [Hin Hpar].
  split; (split; [|intros (vars & Hvars & Hk); eauto]).
  - unfold _initialize_fmi_inputs. rewrite !elem_of_app. intros [H|[H|H]].
    + destruct (fmi_input_vars n) as [vars|]; [|inversion H].
      exists vars. split; [reflexivity|].
      rewrite !elem_of_app in H.
      destruct H as [H|[H|[H|H]]]; apply elem_of_declared in H as (ns & Hns & H);
        injection H as -> ->; exact Hns.
    + destruct (fmi_output_vars n) as [vars|]; [|inversion H].
      rewrite !elem_of_app in H.
      destruct H as [H|[H|[H|H]]]; apply elem_of_declared in H as (ns & _ & H); discriminate.
    + destruct (fmi_parameters n) as [vars|]; [|inversion H].
      rewrite !elem_of_app in H.
      destruct H as [H|[H|[H|H]]]; apply elem_of_declared in H as (ns & _ & H); discriminate.
  - unfold _initialize_fmi_inputs. rewrite !elem_of_app. intros [H|[H|H]].
    + destruct (fmi_input_vars n) as [vars|]; [|inversion H].
      rewrite !elem_of_app in H.
      destruct H as [H|[H|[H|H]]]; apply elem_of_declared in H as (ns & _ & H); discriminate.
    + destruct (fmi_output_vars n) as [vars|]; [|inversion H].
      rewrite !elem_of_app in H.
      destruct H as [H|[H|[H|H]]]; apply elem_of_declared in H as (ns & _ & H); discriminate.
    + destruct (fmi_parameters n) as [vars|]; [|inversion H].
      exists vars. split; [reflexivity|].
      rewrite !elem_of_app in H.
      destruct H as [H|[H|[H|H]]]; apply elem_of_declared in H as (ns & Hns & H);
        injection H as -> ->; exact Hns.
Qed.

End DeclarationMore.

Lemma declarations_of_inputs_and_parameters_witness :
  Define RInput KReal ["load.Load1.p_mw"] ∈ IOBinding._initialize_fmi_inputs Example.network.
Proof.
  apply (proj1 (declarations_of_inputs_and_parameters Example.network KReal
                  ["load.Load1.p_mw"])).
  exists {["Real" := ["load.Load1.p_mw"]]}. split; reflexivity.
Defined.

(** ** Profiles: loading and setting *)

Section ProfileMore.

Import Profiles.
Local Open Scope Q_scope.

Lemma load_rows_all_given (fs : CsvFiles) (view : bool) (todo : list ProfileRow) (i : nat)
    (frame : list ProfileRow) :
  Forall (fun row => is_Some (p_profile row)) todo ->
  load_rows fs view todo i frame = (Ok tt, frame).
Proof.
  intros Hall. revert i. induction Hall as [|row todo [s Hs] Hall IH]; intros i; simpl;
    [reflexivity|].
  rewrite Hs. apply IH.
Qed.

Lemma loaded_is_some (fs : CsvFiles) (rows rows' : list ProfileRow) :
  Forall2 (loaded fs) rows rows' -> Forall (fun row => is_Some (p_profile row)) rows'.
Proof.
  induction 1 as [|row row' rows rows' Hrow Hrest IH]; constructor; [|exact IH].
  unfold loaded in Hrow. destruct (p_profile row) as [s|] eqn:E.
  - subst row'. rewrite E. eauto.
  - destruct Hrow as (s & _ & ->). simpl. eauto.
Qed.

(** X16.  When the rows of [profiles] are views of the table and
    [_load_profiles] returns, the table holds a series in every row: the
    one the row came with, or the one read from the file and column of the
    row; nothing else of the network has changed. *)
Theorem profiles_loaded_in_place (fs : CsvFiles) (n n' : Net) (pf : ProfilesFrame) :
  profiles n = Some pf ->
  pf_object_block pf = true ->
  _load_profiles fs n = (Ok tt, n') ->
  exists rows' : list ProfileRow,
    n' = set_profiles n (Some (mkProfilesFrame rows' true))
    /\ Forall2 (loaded fs) (pf_rows pf) rows'
    /\ Forall (fun row => is_Some (p_profile row)) rows'.
Proof.
  intros Hpf Hview. unfold _load_profiles. rewrite Hpf, Hview.
  destruct (load_rows fs true (pf_rows pf) 0 (pf_rows pf)) as [r rows] eqn:E.
  intros [= -> <-].
  destruct (load_rows_views fs (pf_rows pf) [] rows E) as (todo' & -> & Hall).
  exists todo'. simpl. split; [reflexivity|]. split; [exact Hall|].
  exact (loaded_is_some fs _ _ Hall).
Qed.

(** X17.  Profiles that are all given as series need no file: whatever
    the files hold, [_load_profiles] returns and leaves the network as it
    is. *)
Theorem given_profiles_need_no_file (fs : CsvFiles) (n : Net) (pf : ProfilesFrame) :
  profiles n = Some pf ->
  Forall (fun row => is_Some (p_profile row)) (pf_rows pf) ->
  _load_profiles fs n = (Ok tt, n).
Proof.
  intros Hpf Hall. unfold _load_profiles. rewrite Hpf.
  rewrite (load_rows_all_given fs _ _ 0 _ Hall).
  destruct n, pf. simpl in *. subst. reflexivity.
Qed.

End ProfileMore.

Section ProfileLoadingExamples.

Local Open Scope Q_scope.

Lemma profiles_loaded_in_place_witness :
  exists rows' : list ProfileRow,
    snd (Profiles._load_profiles Example.profile_files (Example.network_with_profiles true))
    = Profiles.set_profiles (Example.network_with_profiles true)
        (Some (mkProfilesFrame rows' true))
    /\ Forall2 (Profiles.loaded Example.profile_files) Example.profile_rows rows'
    /\ Forall (fun row => is_Some (p_profile row)) rows'.
Proof.
  apply (profiles_loaded_in_place Example.profile_files (Example.network_with_profiles true)
           _ (mkProfilesFrame Example.profile_rows true)); reflexivity.
Defined.

Lemma given_profiles_need_no_file_witness :
  Profiles._load_profiles (fun _ => None)
    (Profiles.set_profiles Example.network (Some (mkProfilesFrame Scenario.given_rows false)))
  = (Ok tt,
     Profiles.set_profiles Example.network (Some (mkProfilesFrame Scenario.given_rows false))).
Proof.
  apply (given_profiles_need_no_file (fun _ => None) _
           (mkProfilesFrame Scenario.given_rows false)); [reflexivity|].
  repeat constructor. eexists. reflexivity.
Defined.

End ProfileLoadingExamples.

Section ProfileValues.

Import PyStr Binder Profiles.
Local Open Scope Q_scope.

Lemma set_profile_value_run (n : Net) (time : Q) (row : ProfileRow) (h : list DataFrame)
    (s : Series) (v : value) (t : nat) (tdf : DataFrame) :
  p_profile row = Some s ->
  Interpolator.get_interpolated_row s time = Ok v ->
  assoc (p_class row) (tables n) = Some t ->
  h !! t = Some tdf ->
  set_profile_value n time row h
  = match getitem tdf (p_parameter row) with
    | Raise e => (Raise e, h)
    | Ok col =>
        match getitem tdf "name" with
        | Raise e => (Raise e, h)
        | Ok names =>
            match index_mask (df_index tdf) (map (eq_str (p_component row)) names) with
            | Raise e => (Raise e, h)
            | Ok ix =>
                match set_labels (df_index tdf) col ix v with
                | Raise e => (Raise e, h)
                | Ok col' =>
                    (Ok tt, <[t := mkDataFrame (df_index tdf)
                                     (assoc_set (p_parameter row) col' (df_columns tdf))]> h)
                end
            end
        end
    end.
Proof.
  intros Hs Hv Ht Htdf.
  unfold set_profile_value, mbind, M_bind, getattr, load, lift, store.
  rewrite Hs, Hv, Ht. cbn beta iota. rewrite Htdf. cbn beta iota.
  destruct (getitem tdf (p_parameter row)) as [col|e]; [|reflexivity].
  cbn beta iota. rewrite ?Ht. cbn beta iota. rewrite ?Htdf. cbn beta iota.
  rewrite ?Ht. cbn beta iota. rewrite ?Htdf. cbn beta iota.
  destruct (getitem tdf "name") as [names|e]; [|reflexivity].
  cbn beta iota.
  destruct (index_mask (df_index tdf) (map (eq_str (p_component row)) names)) as [ix|e];
    [|reflexivity].
  cbn beta iota.
  destruct (set_labels (df_index tdf) col ix v) as [col'|e]; reflexivity.
Qed.

(** X18.  Where a profile row resolves, the interpolated value is written to the
    rows of the class table that carry the component's name in the name
    column of that same table, and to no other cell. *)
Theorem profile_value_reaches_named_rows (n : Net) (time : Q) (row : ProfileRow)
    (h : list DataFrame) (s : Series) (v : value) (t : nat) (tdf : DataFrame)
    (col names : list value) :
  p_profile row = Some s ->
  Interpolator.get_interpolated_row s time = Ok v ->
  assoc (p_class row) (tables n) = Some t ->
  h !! t = Some tdf ->
  getitem tdf (p_parameter row) = Ok col ->
  getitem tdf "name" = Ok names ->
  length names = length (df_index tdf) ->
  unique (df_index tdf) = true ->
  set_profile_value n time row h
  = (Ok tt, <[t := mkDataFrame (df_index tdf)
                     (assoc_set (p_parameter row)
                        (mask_set (map (eq_str (p_component row)) names) col v)
                        (df_columns tdf))]> h).
Proof.
  intros Hs Hv Ht Htdf Hcol Hnames Hlen Hu.
  rewrite (set_profile_value_run n time row h s v t tdf Hs Hv Ht Htdf), Hcol, Hnames.
  destruct (index_mask_length (df_index tdf) (map (eq_str (p_component row)) names))
    as [ix Hix]; [rewrite length_map; lia|].
  rewrite Hix. unfold set_labels. rewrite Hu.
  rewrite (set_rows_mask _ _ col ix v Hu Hix). reflexivity.
Qed.

(** X19.  A profile row whose class is a result table is resolved in the result
    table itself: no prefix is stripped, so without a name column in the
    result table the step raises KeyError. *)
Theorem profile_on_table_without_names (n : Net) (time : Q) (row : ProfileRow)
    (h : list DataFrame) (s : Series) (v : value) (t : nat) (tdf : DataFrame)
    (col : list value) :
  p_profile row = Some s ->
  Interpolator.get_interpolated_row s time = Ok v ->
  assoc (p_class row) (tables n) = Some t ->
  h !! t = Some tdf ->
  getitem tdf (p_parameter row) = Ok col ->
  assoc "name" (df_columns tdf) = None ->
  set_profile_value n time row h = (Raise KeyError, h).
Proof.
  intros Hs Hv Ht Htdf Hcol Hnames.
  rewrite (set_profile_value_run n time row h s v t tdf Hs Hv Ht Htdf), Hcol.
  unfold getitem. rewrite Hnames. reflexivity.
Qed.

Lemma set_profile_value_shapes (n : Net) (time : Q) (row : ProfileRow) (h : list DataFrame) :
  shapes_kept h (snd (set_profile_value n time row h)).
Proof.
  destruct (p_profile row) as [s|] eqn:Hs;
    [|unfold set_profile_value, mbind, M_bind, lift; rewrite Hs; apply shapes_kept_refl].
  destruct (Interpolator.get_interpolated_row s time) as [v|e] eqn:Hv;
    [|unfold set_profile_value, mbind, M_bind, lift; rewrite Hs, Hv; apply shapes_kept_refl].
  destruct (assoc (p_class row) (tables n)) as [t|] eqn:Ht;
    [|unfold set_profile_value, mbind, M_bind, lift, getattr; rewrite Hs, Hv, Ht;
      apply shapes_kept_refl].
  destruct (h !! t) as [tdf|] eqn:Htdf;
    [|unfold set_profile_value, mbind, M_bind, lift, getattr, load; rewrite Hs, Hv, Ht;
      cbn beta iota; rewrite Htdf; apply shapes_kept_refl].
  rewrite (set_profile_value_run n time row h s v t tdf Hs Hv Ht Htdf).
  unfold getitem.
  destruct (assoc (p_parameter row) (df_columns tdf)) as [col|] eqn:Hcol;
    [|apply shapes_kept_refl].
  destruct (assoc "name" (df_columns tdf)) as [names|]; [|apply shapes_kept_refl].
  destruct (index_mask _ _) as [ix|]; [|apply shapes_kept_refl].
  unfold set_labels. destruct (unique (df_index tdf)); [|apply shapes_kept_refl].
  simpl. apply (shapes_kept_insert h t tdf); [exact Htdf|].
  apply (same_shape_assoc_set tdf (p_parameter row) col _ Hcol). apply length_set_rows.
Qed.

(** X20.  Setting the profile values never adds or removes a table, a column or a
    row, and never changes an index: whatever the outcome, every table has
    the shape it had. *)
Theorem profiles_keep_shapes (n : Net) (time : Q) (h : list DataFrame) :
  shapes_kept h (snd (_set_profile_values n time h)).
Proof.
  unfold _set_profile_values. destruct (profiles n) as [pf|]; [|apply shapes_kept_refl].
  apply for_each_keeps.
  - apply shapes_kept_refl.
  - apply shapes_kept_trans.
  - intros row h' _. apply set_profile_value_shapes.
Qed.

Lemma for_each_raises {A : Type} (body : A -> M unit) (l : list A) (a : A) :
  In a l ->
  (forall h, exists e, body a h = (Raise e, h)) ->
  forall h, exists e h', IOBinding.for_each l body h = (Raise e, h').
Proof.
  intros Hin Hbody. induction l as [|b l IH]; [destruct Hin|]. intros h. simpl.
  unfold mbind, M_bind.
  destruct (body b h) as [[[]|e] h1] eqn:Eb; [|eauto].
  destruct Hin as [->|Hin]; [|apply IH; exact Hin].
  destruct (Hbody h) as [e He]. rewrite He in Eb. discriminate.
Qed.

(** X21.  A profile row that holds no series stops [_set_profile_values] with an
    error at every time; after [_load_profiles] on a table whose rows are
    yielded as copies this is the case for every row that came without a
    series, whatever the files hold. *)
Theorem unloaded_profile_stops_the_step (n : Net) (pf : ProfilesFrame) (row : ProfileRow) :
  profiles n = Some pf ->
  In row (pf_rows pf) ->
  p_profile row = None ->
  (forall time h, exists e h', _set_profile_values n time h = (Raise e, h'))
  /\ (pf_object_block pf = false ->
      forall fs time h,
        exists e h', _set_profile_values (snd (_load_profiles fs n)) time h = (Raise e, h')).
Proof.
  intros Hpf Hin Hnone.
  assert (Hbody : forall n' time h, exists e, set_profile_value n' time row h = (Raise e, h)).
  { intros n' time h. exists AttributeError.
    unfold set_profile_value, mbind, M_bind, lift. rewrite Hnone. reflexivity. }
  split.
  - intros time h. unfold _set_profile_values. rewrite Hpf.
    apply (for_each_raises _ _ row Hin). apply Hbody.
  - intros Hcopy fs time h. unfold _load_profiles. rewrite Hpf, Hcopy.
    pose proof (load_rows_copies fs (pf_rows pf) 0 (pf_rows pf)) as Hrows.
    destruct (load_rows fs false (pf_rows pf) 0 (pf_rows pf)) as [r rows].
    simpl in Hrows. subst rows. unfold _set_profile_values. simpl.
    apply (for_each_raises _ _ row Hin). apply Hbody.
Qed.

End ProfileValues.

Section ProfileValueExamples.

Local Open Scope Q_scope.

Lemma profile_value_reaches_named_rows_witness :
  exists v : value,
    Interpolator.get_interpolated_row (FloatSeries [(0, 1); (10, 2)]) 5 = Ok v
    /\ Profiles.set_profile_value Example.network 5
         (mkProfileRow "load" "Load1" "p_mw" "p.csv" 1 (Some (FloatSeries [(0, 1); (10, 2)])))
         Example.store0
       = (Ok tt,
          [mkDataFrame [VInt 0; VInt 1; VInt 2]
             [("name", [VStr "LoadA"; VStr "LoadB"; VStr "Load1"]);
              ("bus", [VInt 0; VInt 1; VInt 1]);
              ("p_mw", [VFloat 1; VFloat 2; v])];
           Example.res_load_table; Example.sgen_table]).
Proof.
  eexists. split; [vm_compute; reflexivity|].
  apply (profile_value_reaches_named_rows Example.network 5
           (mkProfileRow "load" "Load1" "p_mw" "p.csv" 1
              (Some (FloatSeries [(0, 1); (10, 2)])))
           Example.store0 (FloatSeries [(0, 1); (10, 2)]) _ 0 Example.load_table
           [VFloat 1; VFloat 2; VFloat 3] [VStr "LoadA"; VStr "LoadB"; VStr "Load1"]);
    reflexivity.
Defined.

Lemma profile_on_table_without_names_witness :
  Profiles.set_profile_value Example.network 0 Scenario.result_row Example.store0
  = (Raise KeyError, Example.store0).
Proof.
  apply (profile_on_table_without_names Example.network 0 Scenario.result_row
           Example.store0 (FloatSeries [(0, 1); (10, 2)]) (VFloat 1) 1
           Example.res_load_table [VFloat 1; VFloat 2; VFloat 3]); reflexivity.
Defined.

Lemma profiles_keep_shapes_witness :
  shapes_kept Example.store0
    (snd (Profiles._set_profile_values
            (Profiles.set_profiles Example.network
               (Some (mkProfilesFrame Scenario.given_rows false))) 5 Example.store0)).
Proof. apply profiles_keep_shapes. Defined.

Lemma unloaded_profile_stops_the_step_witness :
  exists e h',
    Profiles._set_profile_values
      (snd (Profiles._load_profiles Example.profile_files
              (Example.network_with_profiles false))) 0 Example.store0
    = (Raise e, h').
Proof.
  apply (proj2 (unloaded_profile_stops_the_step (Example.network_with_profiles false)
                  (mkProfilesFrame Example.profile_rows false)
                  (mkProfileRow "load" "Load1" "p_mw" "p.csv" 1 None)
                  eq_refl (or_introl eq_refl) eq_refl) eq_refl).
Defined.

End ProfileValueExamples.

(** ** Result recorder: when there is a row, and what it holds *)

Section RecorderMore.

Variable float_str : Q -> string.

Lemma copy_results_all_empty (n : Net) (h : list DataFrame) (keys : list string) :
  (forall key, In key keys -> PyStr.startswith key "res_" = true ->
     exists t tdf, assoc key (tables n) = Some t /\ h !! t = Some tdf
                   /\ df_empty tdf = true) ->
  copy_results n keys h = (Ok [], h).
Proof.
  induction keys as [|key keys IH]; intros Hall; simpl; [reflexivity|].
  assert (Hrest : copy_results n keys h = (Ok [], h)).
  { apply IH. intros k Hk. apply Hall. right. exact Hk. }
  destruct (PyStr.startswith key "res_") eqn:Hres; [|exact Hrest].
  destruct (Hall key (or_introl eq_refl) Hres) as (t & tdf & Ht & Htdf & Hempty).
  unfold mbind, M_bind, getattr, load. rewrite Ht. cbn beta iota. rewrite Htdf.
  cbn beta iota. rewrite Hempty. exact Hrest.
Qed.

Lemma copy_results_found (n : Net) (keys : list string) (h h' : list DataFrame)
    (df_dict : list (string * nat)) :
  copy_results n keys h = (Ok df_dict, h') ->
  df_dict <> [] ->
  exists key t tdf,
    In key keys /\ PyStr.startswith key "res_" = true
    /\ assoc key (tables n) = Some t /\ h !! t = Some tdf /\ df_empty tdf = false.
Proof.
  induction keys as [|key keys IH]; simpl.
  - intros [= <- <-] Hne. congruence.
  - intros Hrun Hne.
    assert (Hrest : copy_results n keys h = (Ok df_dict, h') ->
              exists key0 t tdf,
                (key = key0 \/ In key0 keys) /\ PyStr.startswith key0 "res_" = true
                /\ assoc key0 (tables n) = Some t /\ h !! t = Some tdf
                /\ df_empty tdf = false).
    { intros Hr. destruct (IH Hr Hne) as (k & t & tdf & Hk & Hrest).
      exists k, t, tdf. split; [right; exact Hk|exact Hrest]. }
    destruct (PyStr.startswith key "res_") eqn:Hres; [|exact (Hrest Hrun)].
    unfold mbind, M_bind, getattr, load in Hrun.
    destruct (assoc key (tables n)) as [t|] eqn:Ht; [|discriminate].
    cbn beta iota in Hrun.
    destruct (h !! t) as [tdf|] eqn:Htdf; [|discriminate].
    cbn beta iota in Hrun.
    destruct (df_empty tdf) eqn:Hempty; [exact (Hrest Hrun)|].
    exists key, t, tdf. auto.
Qed.

Lemma copy_results_keys (n : Net) (keys : list string) (h h' : list DataFrame)
    (df_dict : list (string * nat)) :
  copy_results n keys h = (Ok df_dict, h') ->
  Forall (fun entry : string * nat =>
            In (fst entry) keys /\ PyStr.startswith (fst entry) "res_" = true) df_dict.
Proof.
  revert h h' df_dict. induction keys as [|key keys IH]; intros h h' df_dict; simpl.
  - intros [= <- <-]. constructor.
  - assert (Hrest : forall h0, copy_results n keys h0 = (Ok df_dict, h') ->
              Forall (fun entry : string * nat =>
                        (key = fst entry \/ In (fst entry) keys)
                        /\ PyStr.startswith (fst entry) "res_" = true) df_dict).
    { intros h0 Hr. eapply Forall_impl; [exact (IH _ _ _ Hr)|].
      intros entry [Hin Hres]. auto. }
    destruct (PyStr.startswith key "res_") eqn:Hres; [|apply Hrest].
    unfold mbind, M_bind, getattr, load, alloc.
    destruct (assoc key (tables n)) as [t|] eqn:Ht; [|discriminate].
    cbn beta iota.
    destruct (h !! t) as [tdf|] eqn:Htdf; [|discriminate].
    cbn beta iota.
    destruct (df_empty tdf) eqn:Hempty; [apply Hrest|].
    rewrite ?Ht. cbn beta iota. rewrite ?Htdf. cbn beta iota.
    destruct (copy_results n keys (h ++ [tdf])) as [[d|e] h1] eqn:Hr; [|discriminate].
    intros [= <- <-]. constructor; [simpl; auto|].
    eapply Forall_impl; [exact (IH _ _ _ Hr)|].
    intros entry [Hin Hres']. auto.
Qed.

Lemma stack_from_cells (index : list value) (columns : list (string * list value)) (i : nat) :
  Forall (fun cell : value * string * value =>
            snd cell <> VNone /\ In (fst (fst cell)) index) (stack_from index columns i).
Proof.
  revert i. induction index as [|label index IH]; intros i; simpl; [constructor|].
  apply Forall_app. split.
  - apply List.Forall_forall. intros cell Hcell. apply in_flat_map in Hcell as ([c cells] & _ & Hin).
    destruct (cells !! i) as [v|]; [|destruct Hin].
    destruct v; simpl in Hin; try destruct Hin as [<-|[]]; try destruct Hin;
      simpl; split; auto; discriminate.
  - eapply Forall_impl; [apply IH|]. intros cell [Hv Hin]. auto.
Qed.

Lemma flatten_columns (n : Net) (df_dict : list (string * nat)) (h h' : list DataFrame)
    (columns : list (string * value * string * value)) :
  flatten float_str n df_dict h = (Ok columns, h') ->
  Forall (fun '(table, label, field, cell) =>
            cell <> VNone
            /\ (label = VNone \/ exists s, label = VStr s)
            /\ exists entry, In entry df_dict /\ table = PyStr.drop 4 (fst entry)) columns.
Proof.
  revert h h' columns. induction df_dict as [|[df_name df] df_dict IH]; intros h h' columns;
    simpl.
  - intros [= <- <-]. constructor.
  - unfold mbind, M_bind, getattr, load, lift, store.
    destruct (assoc _ (tables n)) as [d|]; [|cbn beta iota; intros H; discriminate H].
    cbn beta iota.
    destruct (h !! d) as [ddf|]; [|cbn beta iota; intros H; discriminate H].
    cbn beta iota.
    destruct (getitem ddf "name") as [names|]; [|cbn beta iota; intros H; discriminate H].
    cbn beta iota.
    destruct (h !! df) as [cdf|] eqn:Hcdf; [|cbn beta iota; intros H; discriminate H].
    cbn beta iota.
    rewrite list_lookup_insert_eq by (apply lookup_lt_Some in Hcdf; exact Hcdf).
    cbn beta iota.
    destruct (flatten float_str n df_dict _) as [[cols|e] h1] eqn:Hr;
      [|cbn beta iota; intros H; discriminate H].
    intros [= <- <-]. apply Forall_app. split.
    + apply Forall_map. unfold stack. simpl.
      eapply Forall_impl; [apply stack_from_cells|].
      intros [[label c] v] [Hv Hin]. simpl in *. split; [exact Hv|]. split.
      * apply in_map_iff in Hin as (k & <- & _). unfold map_label.
        destruct (dict_get _ k); eauto.
      * exists (df_name, df). auto.
    + eapply Forall_impl; [exact (IH _ _ _ Hr)|].
      intros [[[table label] field] cell] (Hv & Hl & entry & Hin & Ht).
      split; [exact Hv|]. split; [exact Hl|]. exists entry. auto.
Qed.

(** X22.  Without a non-empty result table there is nothing to record: the
    call raises RuntimeError and leaves the store as it is; and a row is
    only returned when some result table of the network is not empty. *)
Theorem no_results_no_row (n : Net) (time : Q) (h : list DataFrame) :
  ((forall key, In key (map fst (tables n)) -> PyStr.startswith key "res_" = true ->
      exists t tdf, assoc key (tables n) = Some t /\ h !! t = Some tdf
                    /\ df_empty tdf = true) ->
   get_pp_results float_str n time h
   = (Raise (RuntimeError "No results present in pandapower network"), h))
  /\ (forall row, fst (get_pp_results float_str n time h) = Ok row ->
        exists key t tdf,
          In key (map fst (tables n)) /\ PyStr.startswith key "res_" = true
          /\ assoc key (tables n) = Some t /\ h !! t = Some tdf /\ df_empty tdf = false).
Proof.
  split.
  - intros Hall. unfold get_pp_results, mbind, M_bind.
    rewrite (copy_results_all_empty n h _ Hall). reflexivity.
  - intros row. unfold get_pp_results, mbind, M_bind.
    destruct (copy_results n (map fst (tables n)) h) as [[df_dict|e] h1] eqn:Hc;
      [|discriminate].
    destruct df_dict as [|entry df_dict]; [discriminate|]. intros _.
    apply (copy_results_found n _ h h1 (entry :: df_dict) Hc). discriminate.
Qed.

(** X23.  The row returned is indexed by the time asked for; each of its
    columns holds a cell that is not missing, under a key whose first part
    is the name of a result table of the network without its first four
    characters and whose row label is a string or missing. *)
Theorem result_row_columns (n : Net) (time : Q) (h h' : list DataFrame) (row : ResultFrame) :
  get_pp_results float_str n time h = (Ok row, h') ->
  rf_index row = [time]
  /\ Forall (fun '(table, label, field, cell) =>
               cell <> VNone
               /\ (label = VNone \/ exists s, label = VStr s)
               /\ exists key, In key (map fst (tables n))
                    /\ PyStr.startswith key "res_" = true
                    /\ table = PyStr.drop 4 key)
       (rf_columns row).
Proof.
  unfold get_pp_results, mbind, M_bind.
  destruct (copy_results n (map fst (tables n)) h) as [[df_dict|e] h1] eqn:Hc;
    [|discriminate].
  pose proof (copy_results_keys n _ h h1 df_dict Hc) as Hkeys.
  destruct df_dict as [|entry df_dict]; [discriminate|].
  destruct (flatten float_str n (entry :: df_dict) h1) as [[columns|e] h2] eqn:Hf;
    [|discriminate].
  intros [= <- <-]. simpl. split; [reflexivity|].
  eapply Forall_impl; [exact (flatten_columns n _ h1 h2 columns Hf)|].
  intros [[[table label] field] cell] (Hv & Hl & e & Hin & Ht).
  split; [exact Hv|]. split; [exact Hl|].
  rewrite List.Forall_forall in Hkeys. destruct (Hkeys e Hin) as [Hk Hres].
  exists (fst e). auto.
Qed.

End RecorderMore.

Section RecorderExamples.

Local Open Scope Q_scope.

Lemma no_results_no_row_witness :
  get_pp_results (fun _ => "") Scenario.network_without_results 0 [Example.load_table]
  = (Raise (RuntimeError "No results present in pandapower network"), [Example.load_table]).
Proof.
  apply (proj1 (no_results_no_row (fun _ => "") Scenario.network_without_results 0
                  [Example.load_table])).
  intros key [<-|[]] Hres. discriminate Hres.
Defined.

Lemma result_row_columns_witness :
  exists (row : ResultFrame) (h' : list DataFrame),
    get_pp_results (fun _ => "") Example.network 5 Example.store0 = (Ok row, h')
    /\ rf_index row = [5]
    /\ Forall (fun '(table, label, field, cell) =>
                 cell <> VNone
                 /\ (label = VNone \/ exists s, label = VStr s)
                 /\ exists key, In key (map fst (tables Example.network))
                      /\ PyStr.startswith key "res_" = true
                      /\ table = PyStr.drop 4 key)
         (rf_columns row).
Proof.
  eexists. eexists. split; [reflexivity|].
  eapply (result_row_columns (fun _ => "") Example.network 5 Example.store0).
  reflexivity.
Defined.

End RecorderExamples.

(** ** [init] and [doStep]: the result file *)

Section LifecycleFacts.

Variable listdir : list string.
Variable from_pickle : string -> M Net.
Variable csv : Profiles.CsvFiles.
Variable runpp : bool -> Net -> M unit.
Variable float_str : Q -> string.

Local Open Scope Q_scope.

Lemma load_network_keeps (dir : list string) (self : FMU) :
  _t_start (snd (load_network from_pickle dir self)) = _t_start self
  /\ files (snd (load_network from_pickle dir self)) = files self
  /\ calls (snd (load_network from_pickle dir self)) = calls self.
Proof.
  revert self. induction dir as [|file dir IH]; intros self; simpl; [auto|].
  destruct (PyStr.endswith file ".p"); [|apply IH].
  unfold mbind, F_bind, on_heap, set_net.
  destruct (from_pickle file (heap self)) as [[n|e] h']; simpl; [|auto].
  destruct (IH (mkFMU (_t_start self) (Some n) h' (files self) (calls self)))
    as (H1 & H2 & H3).
  simpl in *. auto.
Qed.

(** X24.  [init] saves the start time whatever happens next, touches no file
    unless it succeeds, and on success has replaced the result file of the
    network by the header alone: the columns of a result row taken, at
    time 0, from the store the first power flow has left. *)
Theorem init_writes_header_last (currentCommunicationPoint : Q) (self : FMU) :
  _t_start (snd (init listdir from_pickle csv runpp float_str currentCommunicationPoint self))
  = Some currentCommunicationPoint
  /\ (forall e,
        fst (init listdir from_pickle csv runpp float_str currentCommunicationPoint self)
        = Raise e ->
        files (snd (init listdir from_pickle csv runpp float_str currentCommunicationPoint
                      self))
        = files self)
  /\ (fst (init listdir from_pickle csv runpp float_str currentCommunicationPoint self)
      = Ok tt ->
      exists (n : Net) (file : string) (h0 h : list DataFrame) (row : ResultFrame),
        net (snd (init listdir from_pickle csv runpp float_str currentCommunicationPoint
                    self)) = Some n
        /\ result_file n = Some file
        /\ runpp false n h0 = (Ok tt, h)
        /\ fst (get_pp_results float_str n 0 h) = Ok row
        /\ files (snd (init listdir from_pickle csv runpp float_str
                         currentCommunicationPoint self))
           = <[file := [Header (map fst (rf_columns row))]]> (files self)).
Proof.
  destruct (init listdir from_pickle csv runpp float_str currentCommunicationPoint self)
    as [r self'] eqn:E.
  cbn [fst snd]. unfold init in E.
  unfold mbind at 1 in E. unfold F_bind at 1 in E. unfold set_t_start at 1 in E.
  unfold mbind at 1 in E. unfold F_bind at 1 in E.
  destruct (load_network_keeps listdir
              (mkFMU (Some currentCommunicationPoint) (net self) (heap self) (files self)
                 (calls self))) as (Ht & Hf & Hc).
  destruct (load_network from_pickle listdir _) as [[[]|e] self2]; simpl in Ht, Hf, Hc.
  2:{ injection E as <- <-. split; [exact Ht|]. split; [intros; exact Hf|discriminate]. }
  unfold mbind, F_bind, call, on_heap, get_net, get_result_file, write_file, raise in E.
  cbn beta iota in E.
  destruct (net self2) as [n|] eqn:Hnet; cbn beta iota in E.
  2:{ injection E as <- <-. split; [exact Ht|]. split; [intros; exact Hf|discriminate]. }
  cbn [_t_start net heap files calls] in E.
  destruct (Profiles._load_profiles csv n) as [[[]|e] n']; cbn beta iota in E;
    cbn [_t_start net heap files calls set_heap fst snd] in E.
  2:{ injection E as <- <-. split; [exact Ht|]. split; [intros; exact Hf|discriminate]. }
  destruct (runpp false n' (heap self2)) as [[[]|e] h2] eqn:Hrun; cbn beta iota in E;
    cbn [_t_start net heap files calls set_heap fst snd] in E.
  2:{ injection E as <- <-. split; [exact Ht|]. split; [intros; exact Hf|discriminate]. }
  destruct (get_pp_results float_str n' 0 h2) as [[row|e] h3] eqn:Hrow; cbn beta iota in E;
    cbn [_t_start net heap files calls set_heap fst snd] in E.
  2:{ injection E as <- <-. split; [exact Ht|]. split; [intros; exact Hf|discriminate]. }
  destruct (result_file n') as [file|] eqn:Hfile; cbn beta iota in E;
    cbn [_t_start net heap files calls set_heap fst snd mret F_ret] in E.
  2:{ injection E as <- <-. split; [exact Ht|]. split; [intros; exact Hf|discriminate]. }
  injection E as <- <-. cbn [_t_start net heap files calls].
  split; [exact Ht|]. split; [discriminate|]. intros _.
  exists n', file, (heap self2), h2, row. rewrite Hrow, Hf. auto.
Qed.



Lemma doStep_run (inputs : Kind -> list (string * value))
    (currentCommunicationPoint communicationStepSize t0 : Q) (self : FMU) (n : Net)
    (steps : list Q) :
  net self = Some n ->
  _t_start self = Some t0 ->
  Scheduler.sim_steps currentCommunicationPoint communicationStepSize t0 (time_step n)
  = Ok steps ->
  doStep runpp float_str inputs currentCommunicationPoint communicationStepSize self
  = (_ ← on_heap (IOBinding._get_and_set_fmi_inputs n inputs);
     _ ← for_each_step steps (fun t_sym =>
           _ ← on_heap (Profiles._set_profile_values n t_sym);
           _ ← on_heap (runpp true n);
           file ← get_result_file n;
           row ← on_heap (get_pp_results float_str n t_sym);
           append_file file (Row t_sym (map snd (rf_columns row))));
     _set_outputs n) self.
Proof.
  intros Hnet Hstart Hsteps. unfold doStep.
  unfold mbind at 1. unfold F_bind at 1. unfold get_net at 1. rewrite Hnet.
  unfold mbind at 1. unfold F_bind at 1.
  destruct (time_step n) as [c|] eqn:Hc.
  - rewrite Hstart, Hsteps. reflexivity.
  - simpl in Hsteps. injection Hsteps as <-. reflexivity.
Qed.


(** X26.  Without a result file to append to, no step of a network completes:
    [doStep] raises, and the files are as they were. *)
Theorem doStep_needs_result_file (inputs : Kind -> list (string * value))
    (currentCommunicationPoint communicationStepSize t0 : Q) (self : FMU) (n : Net)
    (steps : list Q) :
  net self = Some n ->
  _t_start self = Some t0 ->
  Scheduler.sim_steps currentCommunicationPoint communicationStepSize t0 (time_step n)
  = Ok steps ->
  result_file n = None ->
  (exists e, fst (doStep runpp float_str inputs currentCommunicationPoint
                    communicationStepSize self) = Raise e)
  /\ files (snd (doStep runpp float_str inputs currentCommunicationPoint
                   communicationStepSize self)) = files self
  /\ calls (snd (doStep runpp float_str inputs currentCommunicationPoint
                   communicationStepSize self)) = calls self.
Proof.
  intros Hnet Hstart Hsteps Hfile.
  assert (Hcons : exists t rest, steps = t :: rest).
  { unfold Scheduler.sim_steps in Hsteps. destruct (time_step n) as [c|].
    - destruct (Qeq_bool c 0); [discriminate|]. injection Hsteps as <-. eauto.
    - injection Hsteps as <-. eauto. }
  destruct Hcons as (t & rest & ->).
  destruct (doStep runpp float_str inputs currentCommunicationPoint communicationStepSize
              self) as [r self'] eqn:E.
  cbn [fst snd].
  rewrite (doStep_run inputs _ _ t0 self n (t :: rest) Hnet Hstart Hsteps) in E.
  unfold mbind at 1 in E. unfold F_bind at 1 in E. unfold on_heap at 1 in E.
  destruct (IOBinding._get_and_set_fmi_inputs n inputs (heap self)) as [[[]|e] h1];
    [|injection E as <- <-; simpl; eauto].
  simpl in E. unfold mbind, F_bind, on_heap, get_result_file, raise in E.
  rewrite Hfile in E. simpl in E.
  destruct (Profiles._set_profile_values n t h1) as [[[]|e] h2]; simpl in E;
    [|injection E as <- <-; simpl; eauto].
  destruct (runpp true n h2) as [[[]|e] h3]; simpl in E; injection E as <- <-; simpl; eauto.
Qed.

End LifecycleFacts.

Section LifecycleExamples.

Local Open Scope Q_scope.

Lemma init_writes_header_last_witness :
  exists (n : Net) (file : string) (h0 h : list DataFrame) (row : ResultFrame),
    net (snd (init ["net.p"] Scenario.pickles Example.profile_files Example.solver
                (fun _ => "") 0 Example.fresh)) = Some n
    /\ result_file n = Some file
    /\ Example.solver false n h0 = (Ok tt, h)
    /\ fst (get_pp_results (fun _ => "") n 0 h) = Ok row
    /\ files (snd (init ["net.p"] Scenario.pickles Example.profile_files Example.solver
                     (fun _ => "") 0 Example.fresh))
       = <[file := [Header (map fst (rf_columns row))]]> (files Example.fresh).
Proof.
  apply (proj2 (proj2 (init_writes_header_last ["net.p"] Scenario.pickles
                         Example.profile_files Example.solver (fun _ => "") 0
                         Example.fresh))).
  vm_compute. reflexivity.
Defined.


Lemma doStep_needs_result_file_witness :
  (exists e, fst (doStep Example.solver (fun _ => "") Scenario.inputs 0 1
                    (mkFMU (Some 0) (Some Scenario.network_without_file) Example.store0 ∅ []))
             = Raise e)
  /\ files (snd (doStep Example.solver (fun _ => "") Scenario.inputs 0 1
                   (mkFMU (Some 0) (Some Scenario.network_without_file) Example.store0 ∅ [])))
     = ∅
  /\ calls (snd (doStep Example.solver (fun _ => "") Scenario.inputs 0 1
                   (mkFMU (Some 0) (Some Scenario.network_without_file) Example.store0 ∅ [])))
     = [].
Proof.
  exact (doStep_needs_result_file Example.solver (fun _ => "") Scenario.inputs 0 1 0
           (mkFMU (Some 0) (Some Scenario.network_without_file) Example.store0 ∅ [])
           Scenario.network_without_file [0] eq_refl eq_refl eq_refl eq_refl).
Defined.

End LifecycleExamples.
